(** * Bank dashboard: data acquisition and metrics derivation

    A shallow embedding of [app.py]: the FDIC client ([FDICAPIClient]),
    the caching repository ([BankDataRepository]), the metrics
    calculator ([BankMetricsCalculator]) and the service that joins them
    ([BankDataService]), with the properties the specification states
    about them and further properties of the code.  The dashboard
    ([DashboardBuilder]) and the sample data are not part of it.

    Conventions of the embedding.
    - Python values are the inductive [pyval]; a [str] is a [string],
      character by character for ASCII text.
    - A Python [float] is an IEEE 754 binary64 number, represented by
      [spec_float] with the operations of [SpecFloat] at precision 53.
    - A function that can raise returns a [result]; functions that touch
      the network, the disk or the random generator thread a [world].
    - A data frame is the list of its rows; a cell is the value of the
      dict it was made of, as a float where pandas stores the column as
      floats ([DataFrame]). *)

From Stdlib Require Import List String Ascii ZArith Bool Lia PeanoNat.
From Stdlib Require Import SpecFloat DecimalString Permutation.
Import ListNotations.
Local Open Scope string_scope.
Local Open Scope Z_scope.

(** ** Exceptions and results *)

(** The Python exceptions the modelled code can meet.  [NotModelled] is
    not a Python exception: it marks an input on which the embedding does
    not say what the interpreter or a library does. *)
Inductive exn :=
| KeyError | TypeError | ValueError | OverflowError | AttributeError
| IndexError | UnicodeDecodeError | NotModelled.

Inductive result (A : Type) :=
| Ok (a : A)
| Raise (e : exn).
Arguments Ok {A} a.
Arguments Raise {A} e.

Definition bind {A B} (r : result A) (k : A -> result B) : result B :=
  match r with
  | Ok a => k a
  | Raise e => Raise e
  end.

Notation "'do' x <- r ; k" := (bind r (fun x => k))
  (at level 10, x pattern, r at level 100, k at level 200).

(** ** Floating point *)

Module Float.

Definition float := spec_float.
Definition prec := 53.
Definition emax := 1024.

Definition add : float -> float -> float := SFadd prec emax.
Definition sub : float -> float -> float := SFsub prec emax.
Definition mul : float -> float -> float := SFmul prec emax.
Definition div : float -> float -> float := SFdiv prec emax.
Definition ltb : float -> float -> bool := SFltb.
Definition leb : float -> float -> bool := SFleb.
Definition eqb : float -> float -> bool := SFeqb.

(** [x > y] and [x >= y] as Python writes them. *)
Definition gtb (x y : float) : bool := ltb y x.
Definition geb (x y : float) : bool := leb y x.

Definition is_nan (x : float) : bool :=
  match x with S754_nan => true | _ => false end.

Definition is_finite (x : float) : bool :=
  match x with S754_zero _ | S754_finite _ _ _ => true | _ => false end.

(** The integer [z], rounded to nearest even.  An integer too large for
    binary64 comes out as an infinity. *)
Definition of_Z (z : Z) : float := binary_normalize prec emax z 0 false.

(** The decimal [(-1)^neg * m * 10^e], rounded to nearest even: the value
    of the literal, as the interpreter reads it. *)
Definition of_decimal (neg : bool) (m : Z) (e : Z) : float :=
  match m with
  | Zpos p =>
      if 0 <=? e then binary_round prec emax neg (p * Z.to_pos (10 ^ e)) 0
      else
        let '(q, e', l) := SFdiv_core_binary prec emax (Zpos p) 0 (10 ^ (- e)) 0 in
        binary_round_aux prec emax neg q e' l
  | _ => S754_zero neg
  end.

Definition zero : float := S754_zero false.
Definition nan : float := S754_nan.
Definition infinity (neg : bool) : float := S754_infinity neg.

End Float.

Abbreviation float := Float.float.

(** ** Python values *)

#[warnings="-register-all"]
Inductive pyval :=
| PNone
| PBool (b : bool)
| PInt (z : Z)
| PFloat (f : float)
| PStr (s : string)
| PList (l : list pyval)
| PDict (d : list (pyval * pyval)).

(** Truth value of an object, as [if x:] and [not x] test it. *)
Definition truthy (v : pyval) : bool :=
  match v with
  | PNone => false
  | PBool b => b
  | PInt z => negb (z =? 0)
  | PFloat f => match f with S754_zero _ => false | _ => true end
  | PStr s => negb (String.eqb s "")
  | PList l => match l with [] => false | _ => true end
  | PDict d => match d with [] => false | _ => true end
  end.

(** ** Text to float: the built-in [float] on a [str] *)

Module FloatOfString.

(** White space for [float]: the tab, the line feed, the vertical tab,
    the form feed, the carriage return and the space. *)
Definition is_space (c : ascii) : bool :=
  let n := nat_of_ascii c in
  (((9 <=? n) && (n <=? 13)) || (n =? 32))%nat.

Definition is_digit (c : ascii) : bool :=
  let n := nat_of_ascii c in ((48 <=? n) && (n <=? 57))%nat.

Definition digit_val (c : ascii) : Z := Z.of_nat (nat_of_ascii c) - 48.

Definition lower (c : ascii) : ascii :=
  let n := nat_of_ascii c in
  if ((65 <=? n) && (n <=? 90))%nat then ascii_of_nat (n + 32) else c.

Fixpoint lstrip (s : list ascii) : list ascii :=
  match s with
  | c :: s' => if is_space c then lstrip s' else s
  | [] => []
  end.

(** Leading and trailing white space is skipped; at least one character
    is kept. *)
Definition strip (s : list ascii) : list ascii :=
  match lstrip s with
  | [] => []
  | c :: s' => c :: rev (lstrip (rev s'))
  end.

(** An underscore is allowed between two digits only; the underscores are
    then dropped. *)
Fixpoint drop_underscores (prev : option ascii) (s : list ascii) : option (list ascii) :=
  match s with
  | [] => match prev with
          | Some "_"%char => None
          | _ => Some []
          end
  | c :: s' =>
      if Ascii.eqb c "_" then
        match prev with
        | Some p => if is_digit p then drop_underscores (Some c) s' else None
        | None => None
        end
      else
        match prev with
        | Some "_"%char =>
            if is_digit c then option_map (cons c) (drop_underscores (Some c) s') else None
        | _ => option_map (cons c) (drop_underscores (Some c) s')
        end
  end.

(** The longest prefix of digits, as a number, with its length and the
    rest of the text. *)
Fixpoint digits (acc : Z) (n : Z) (s : list ascii) : Z * Z * list ascii :=
  match s with
  | c :: s' => if is_digit c then digits (10 * acc + digit_val c) (n + 1) s' else (acc, n, s)
  | [] => (acc, n, [])
  end.

Definition sign (s : list ascii) : bool * list ascii :=
  match s with
  | "-"%char :: s' => (true, s')
  | "+"%char :: s' => (false, s')
  | _ => (false, s)
  end.

Definition exponent (s : list ascii) : option Z :=
  match s with
  | [] => Some 0
  | c :: s' =>
      if Ascii.eqb (lower c) "e" then
        let '(neg, s'') := sign s' in
        match digits 0 0 s'' with
        | (x, n, []) => if 0 <? n then Some (if neg then - x else x) else None
        | _ => None
        end
      else None
  end.

(** [digitpart ["." [digitpart]] | "." digitpart], then an optional
    exponent, up to the end of the text. *)
Definition number (neg : bool) (s : list ascii) : option float :=
  let '(i, ni, s1) := digits 0 0 s in
  let '(m, nf, s2) :=
    match s1 with
    | "."%char :: s1' => let '(m, n, r) := digits i 0 s1' in (m, n, r)
    | _ => (i, 0, s1)
    end in
  if 0 <? ni + nf then
    match exponent s2 with
    | Some x => Some (Float.of_decimal neg m (x - nf))
    | None => None
    end
  else None.

Definition special (neg : bool) (s : list ascii) : option float :=
  let w := string_of_list_ascii (map lower s) in
  if String.eqb w "inf" || String.eqb w "infinity" then Some (Float.infinity neg)
  else if String.eqb w "nan" then Some Float.nan
  else None.

(** The characters the embedding knows: those of ASCII. *)
Definition is_ascii (c : ascii) : bool := (nat_of_ascii c <? 128)%nat.

Definition ascii_only (s : string) : bool := forallb is_ascii (list_ascii_of_string s).

(** [None] stands for [ValueError]. *)
Definition parse (s : string) : option float :=
  match strip (list_ascii_of_string s) with
  | [] => None
  | t =>
      match drop_underscores None t with
      | None => None
      | Some t' =>
          let '(neg, body) := sign t' in
          match special neg body with
          | Some f => Some f
          | None => number neg body
          end
      end
  end.

End FloatOfString.

(** The built-in [float(value)].  An [int] out of the range of binary64
    raises [OverflowError]; text that is not a float literal raises
    [ValueError]; containers and [None] raise [TypeError].  Python also
    reads digits and white space outside ASCII; a text with a character
    outside ASCII is left out of the embedding. *)
Definition py_float (value : pyval) : result float :=
  match value with
  | PNone => Raise TypeError
  | PBool b => Ok (Float.of_Z (if b then 1 else 0))
  | PInt z =>
      let f := Float.of_Z z in
      if Float.is_finite f then Ok f else Raise OverflowError
  | PFloat f => Ok f
  | PStr s =>
      if FloatOfString.ascii_only s then
        match FloatOfString.parse s with
        | Some f => Ok f
        | None => Raise ValueError
        end
      else Raise NotModelled
  | PList _ | PDict _ => Raise TypeError
  end.

(** ** Dictionaries *)

(** A [dict] keeps its items in insertion order.  Two keys are the same
    key when they are equal as Python compares them: [1], [1.0] and [True]
    are one key, a NaN is equal to nothing.  [hkey] is a normal form of
    the hashable values under that equality. *)
Definition dict := list (pyval * pyval).

Inductive hkey :=
| HNone
| HStr (s : string)
| HNum (m e : Z)
| HInf (neg : bool).

Fixpoint odd_part (m : positive) (e : Z) : Z * Z :=
  match m with
  | xO m' => odd_part m' (e + 1)
  | _ => (Zpos m, e)
  end.

Definition num_key (neg : bool) (m : positive) (e : Z) : hkey :=
  let '(m', e') := odd_part m e in HNum (if neg then - m' else m') e'.

(** [Raise TypeError] for an unhashable value, [Ok None] for a NaN. *)
Definition hash_key (v : pyval) : result (option hkey) :=
  match v with
  | PNone => Ok (Some HNone)
  | PBool b => Ok (Some (HNum (if b then 1 else 0) 0))
  | PInt 0 => Ok (Some (HNum 0 0))
  | PInt (Zpos p) => Ok (Some (num_key false p 0))
  | PInt (Zneg p) => Ok (Some (num_key true p 0))
  | PFloat (S754_zero _) => Ok (Some (HNum 0 0))
  | PFloat (S754_infinity s) => Ok (Some (HInf s))
  | PFloat S754_nan => Ok None
  | PFloat (S754_finite s m e) => Ok (Some (num_key s m e))
  | PStr s => Ok (Some (HStr s))
  | PList _ | PDict _ => Raise TypeError
  end.

Definition hkey_eqb (a b : hkey) : bool :=
  match a, b with
  | HNone, HNone => true
  | HStr s, HStr t => String.eqb s t
  | HNum m e, HNum m' e' => (m =? m') && (e =? e')
  | HInf s, HInf t => Bool.eqb s t
  | _, _ => false
  end.

Definition key_eqb (a b : pyval) : bool :=
  match hash_key a, hash_key b with
  | Ok (Some x), Ok (Some y) => hkey_eqb x y
  | _, _ => false
  end.

Fixpoint dict_get (k : pyval) (d : dict) : option pyval :=
  match d with
  | [] => None
  | (k', v) :: d' => if key_eqb k k' then Some v else dict_get k d'
  end.

Definition dict_mem (k : pyval) (d : dict) : bool :=
  match dict_get k d with Some _ => true | None => false end.

(** [d[k] = v] for a hashable [k]: the value of an existing key is
    replaced in place, a new key goes to the end. *)
Fixpoint dict_put (k v : pyval) (d : dict) : dict :=
  match d with
  | [] => [(k, v)]
  | (k', v') :: d' =>
      if key_eqb k k' then (k', v) :: d' else (k', v') :: dict_put k v d'
  end.

Definition py_setitem (k v : pyval) (d : dict) : result dict :=
  do _ <- hash_key k; Ok (dict_put k v d).

Definition keys (d : dict) : list pyval := map fst d.

(** [obj.get(name)]: only a [dict] has the method. *)
Definition py_get (obj : pyval) (name : string) : result pyval :=
  match obj with
  | PDict d => Ok (match dict_get (PStr name) d with Some v => v | None => PNone end)
  | _ => Raise AttributeError
  end.

(** [obj[name]] for a text subscript. *)
Definition py_getitem (obj : pyval) (name : string) : result pyval :=
  match obj with
  | PDict d => match dict_get (PStr name) d with Some v => Ok v | None => Raise KeyError end
  | _ => Raise TypeError
  end.

(** ** Report dates *)

Record date := mkdate { year : Z; month : Z; day : Z }.

Definition is_leap (y : Z) : bool :=
  ((y mod 4 =? 0) && negb (y mod 100 =? 0)) || (y mod 400 =? 0).

Definition days_in_month (y m : Z) : Z :=
  match m with
  | 1 | 3 | 5 | 7 | 8 | 10 | 12 => 31
  | 4 | 6 | 9 | 11 => 30
  | 2 => if is_leap y then 29 else 28
  | _ => 0
  end.

(** The text [YYYYMMDD] of a calendar date that a nanosecond
    [Timestamp] can hold. *)
Definition parse_yyyymmdd (s : string) : option date :=
  let cs := list_ascii_of_string s in
  if (List.length cs =? 8)%nat && forallb FloatOfString.is_digit cs then
    let n := fold_left (fun a c => 10 * a + FloatOfString.digit_val c) cs 0 in
    let y := n / 10000 in
    let m := (n / 100) mod 100 in
    let d := n mod 100 in
    if (1678 <=? y) && (y <=? 2261) && (1 <=? m) && (m <=? 12)
       && (1 <=? d) && (d <=? days_in_month y m)
    then Some (mkdate y m d) else None
  else None.

Definition date_ord (d : date) : Z := (year d * 100 + month d) * 100 + day d.
Definition date_leb (a b : date) : bool := date_ord a <=? date_ord b.
Definition date_ltb (a b : date) : bool := date_ord a <? date_ord b.

(** [pd.to_datetime(arg, format='%Y%m%d')] on one value: [None] is handed
    back, a date in the canonical zero-padded form is parsed.  What pandas
    makes of any other value is not modelled. *)
Definition to_datetime (arg : pyval) : result (option date) :=
  match arg with
  | PNone => Ok None
  | PStr s =>
      match parse_yyyymmdd s with
      | Some d => Ok (Some d)
      | None => Raise NotModelled
      end
  | _ => Raise NotModelled
  end.

(** 1 January 2019, from which the CECL transition amount applies. *)
Definition CECL_EFFECTIVE : date := mkdate 2019 1 1.

(** ** The metrics calculator *)

Module BankMetricsCalculator.

(** [safe_float]: [None] gives [0.0]; a [ValueError] or [TypeError] of
    the conversion gives [0.0]; any other exception is not caught. *)
Definition safe_float (value : pyval) : result float :=
  match value with
  | PNone => Ok Float.zero
  | _ =>
      match py_float value with
      | Ok f => Ok f
      | Raise ValueError | Raise TypeError => Ok Float.zero
      | Raise e => Raise e
      end
  end.

(** The base metrics of [_extract_basic_metrics], in the order of the
    source: the name of the metric and the field code it is read from. *)
Definition BASE_METRICS : list (string * string) :=
  [ ("Total Assets", "ASSET");
    ("Total Deposits", "DEP");
    ("Total Loans and Leases", "LNLSGR");
    ("Net Loans and Leases", "LNLSNET");
    ("Total Securities", "SC");
    ("Real Estate Loans", "LNRE");
    ("Loans to Residential Properties", "LNRERES");
    ("Multifamily", "LNREMULT");
    ("Farmland Real Estate Loans", "LNREAG");
    ("Loans to Nonresidential Properties", "LNRENRES");
    ("Owner-Occupied Nonresidential Properties Loans", "LNRENROW");
    ("Non-OOC Nonresidential Properties Loans", "LNRENROT");
    ("RE Construction and Land Development", "LNRECONS");
    ("1-4 Family Residential Construction and Land Development Loans", "LNRECNFM");
    ("Other Construction, All Land Development and Other Land Loans", "LNRECNOT");
    ("Commercial Real Estate Loans not Secured by Real Estate", "LNCOMRE");
    ("Commercial and Industrial Loans", "LNCI");
    ("Agriculture Loans", "LNAG");
    ("Credit Cards", "LNCRCD");
    ("Consumer Loans", "LNCONOTH");
    ("Allowance for Credit Loss", "LNATRES");
    ("Past Due 30-89 Days", "P3ASSET");
    ("Past Due 90+ Days", "P9ASSET");
    ("Tier 1 (Core) Capital", "RBCT1J");
    ("Total Charge-Offs", "DRLNLS");
    ("Total Recoveries", "CRLNLS");
    ("Total Loans and Leases Net Charge-Offs Quarterly", "NTLNLSQ");
    ("Net Income", "NETINC");
    ("Common Equity Tier 1 Before Adjustments", "CT1BADJ");
    ("Bank Equity Capital", "EQ");
    ("Perpetual Preferred Stock", "EQPP");
    ("Net Interest Margin", "NIMY");
    ("Earning Assets / Total Assets", "ERNASTR");
    ("Nonperforming Assets / Total Assets", "NPERFV");
    ("Assets Past Due 30-89 Days / Total Assets", "P3ASSETR");
    ("Assets Past Due 90+ Days / Total Assets", "P9ASSETR");
    ("Net Charge-Offs / Total Loans & Leases", "NTLNLSR");
    ("Earnings Coverage of Net Loan Charge-Offs", "IDERNCVR");
    ("Loan and Lease Loss Provision to Net Charge-Offs", "ELNANTR");
    ("Loss Allowance / Total Loans & Leases", "LNATRESR");
    ("Loss Allowance to Noncurrent Loans and Leases", "LNRESNCR");
    ("Noncurrent Loans / Total Loans", "NCLNLSR");
    ("Net Loans and Leases to Deposits", "LNLSDEPR");
    ("Net Loans and Leases to Assets", "LNLSNTV");
    ("Return on Assets", "ROA");
    ("Return on Equity", "ROE");
    ("Leverage (Core Capital) Ratio", "RBC1AAJ");
    ("Total Risk-Based Capital Ratio", "RBCRWAJ");
    ("Efficiency Ratio", "EEFFR") ].

(** The items [name: self.safe_float(financial.get(code))] of the dict
    display, evaluated from left to right. *)
Fixpoint extract_items (fields : list (string * string)) (financial : pyval)
  : result dict :=
  match fields with
  | [] => Ok []
  | (name, code) :: fields' =>
      do raw <- py_get financial code;
      do x <- safe_float raw;
      do rest <- extract_items fields' financial;
      Ok ((PStr name, PFloat x) :: rest)
  end.

Definition _extract_basic_metrics (bank_name : pyval) (financial : pyval)
  : result dict :=
  do d <- py_get financial "REPDTE";
  do items <- extract_items BASE_METRICS financial;
  Ok ((PStr "Bank", bank_name) :: (PStr "Date", d) :: items).

(** [metrics[name]] as an operand of float arithmetic.  The calculator
    reads back the floats that [_extract_basic_metrics] stored; arithmetic
    on a cell of another type is not modelled. *)
Definition metric (metrics : dict) (name : string) : result float :=
  match dict_get (PStr name) metrics with
  | None => Raise KeyError
  | Some (PFloat f) => Ok f
  | Some _ => Raise NotModelled
  end.

(** [_calculate_capital_base]: the CECL transition amount and the capital
    base.  Before the effective date the amount is the integer [0]. *)
Definition _calculate_capital_base (metrics : dict) (financial : pyval)
  : result (pyval * float) :=
  do ct1badj <- metric metrics "Common Equity Tier 1 Before Adjustments";
  do eq <- metric metrics "Bank Equity Capital";
  do eqpp <- metric metrics "Perpetual Preferred Stock";
  do tier1_capital <- metric metrics "Tier 1 (Core) Capital";
  do allowance_for_credit_loss <- metric metrics "Allowance for Credit Loss";
  do raw <- py_get financial "REPDTE";
  do date <- to_datetime raw;
  match date with
  | None => Raise TypeError
  | Some date =>
      if date_leb CECL_EFFECTIVE date then
        let cecl_transition_amount := Float.add (Float.sub ct1badj eq) eqpp in
        let capital_base :=
          Float.sub (Float.add tier1_capital allowance_for_credit_loss)
                    cecl_transition_amount in
        Ok (PFloat cecl_transition_amount, capital_base)
      else
        Ok (PInt 0, Float.add tier1_capital allowance_for_credit_loss)
  end.

(** [(numerator / capital_base) * 100]. *)
Definition pct (numerator denominator : float) : float :=
  Float.mul (Float.div numerator denominator) (Float.of_Z 100).

(** The six ratios to the capital base, in the order the source stores
    them when the base is too small. *)
Definition CAPITAL_RATIOS : list string :=
  [ "Real Estate Loans to Tier 1 + ACL";
    "RE Construction and Land Development to Tier 1 + ACL";
    "C&I Loans to Tier 1 + ACL";
    "Agriculture Loans to Tier 1 + ACL";
    "Commercial RE to Tier 1 + ACL";
    "Credit Cards to Tier 1 + ACL" ].

Definition CAPITAL_FLOOR : float := Float.of_Z 1000000.

(** [_calculate_capital_ratios]; the dict it updates in place is handed
    back. *)
Definition _calculate_capital_ratios (metrics : dict) (capital_base : float)
  : result dict :=
  if Float.gtb capital_base CAPITAL_FLOOR then
    do re <- metric metrics "Real Estate Loans";
    let metrics := dict_put (PStr "Real Estate Loans to Tier 1 + ACL")
                            (PFloat (pct re capital_base)) metrics in
    do recons <- metric metrics "RE Construction and Land Development";
    let metrics := dict_put (PStr "RE Construction and Land Development to Tier 1 + ACL")
                            (PFloat (pct recons capital_base)) metrics in
    do ci <- metric metrics "Commercial and Industrial Loans";
    let metrics := dict_put (PStr "C&I Loans to Tier 1 + ACL")
                            (PFloat (pct ci capital_base)) metrics in
    do ag <- metric metrics "Agriculture Loans";
    let metrics := dict_put (PStr "Agriculture Loans to Tier 1 + ACL")
                            (PFloat (pct ag capital_base)) metrics in
    do cc <- metric metrics "Credit Cards";
    let metrics := dict_put (PStr "Credit Cards to Tier 1 + ACL")
                            (PFloat (pct cc capital_base)) metrics in
    do c1 <- metric metrics "RE Construction and Land Development";
    do c2 <- metric metrics "Multifamily";
    do c3 <- metric metrics "Loans to Nonresidential Properties";
    do c4 <- metric metrics "Commercial Real Estate Loans not Secured by Real Estate";
    let commercial_re := Float.add (Float.add (Float.add c1 c2) c3) c4 in
    Ok (dict_put (PStr "Commercial RE to Tier 1 + ACL")
                 (PFloat (pct commercial_re capital_base)) metrics)
  else
    Ok (fold_left (fun m name => dict_put (PStr name) PNone m) CAPITAL_RATIOS metrics).

(** The non-owner-occupied commercial real estate of one record. *)
Definition non_owner_occupied (financial : pyval) : result float :=
  do r1 <- py_get financial "LNRECONS"; do a <- safe_float r1;
  do r2 <- py_get financial "LNREMULT"; do b <- safe_float r2;
  do r3 <- py_get financial "LNRENROT"; do c <- safe_float r3;
  do r4 <- py_get financial "LNCOMRE"; do d <- safe_float r4;
  Ok (Float.add (Float.add (Float.add a b) c) d).

Definition GROWTH_RATE : string := "Non-Owner Occupied CRE 3-Year Growth Rate".
Definition GROWTH_FLOOR : float := Float.of_Z 1000.

(** [_calculate_cre_growth_rate]: the record twelve positions back in the
    sorted list is the base of the rate. *)
Definition _calculate_cre_growth_rate (metrics : dict) (sorted_financials : list pyval)
    (i : nat) (current_financial : pyval) : result dict :=
  do non_owner_occupied_cre <- non_owner_occupied current_financial;
  if (12 <=? i)%nat then
    match nth_error sorted_financials (i - 12) with
    | None => Raise IndexError
    | Some three_years_ago =>
        do old_non_owner_occupied_cre <- non_owner_occupied three_years_ago;
        if Float.gtb old_non_owner_occupied_cre GROWTH_FLOOR then
          let growth_rate :=
            Float.sub (Float.div non_owner_occupied_cre old_non_owner_occupied_cre)
                      (Float.of_Z 1) in
          Ok (dict_put (PStr GROWTH_RATE)
                       (PFloat (Float.mul growth_rate (Float.of_Z 100))) metrics)
        else Ok (dict_put (PStr GROWTH_RATE) PNone metrics)
    end
  else Ok (dict_put (PStr GROWTH_RATE) PNone metrics).

(** [_calculate_charge_off_metrics]: below the floor the ratio is the
    integer [0]. *)
Definition _calculate_charge_off_metrics (metrics : dict) : result dict :=
  do acl <- metric metrics "Allowance for Credit Loss";
  if Float.gtb acl (Float.of_Z 1000) then
    do nco <- metric metrics "Total Loans and Leases Net Charge-Offs Quarterly";
    do acl' <- metric metrics "Allowance for Credit Loss";
    Ok (dict_put (PStr "Net Charge-Offs / Allowance for Credit Loss")
                 (PFloat (pct nco acl')) metrics)
  else
    Ok (dict_put (PStr "Net Charge-Offs / Allowance for Credit Loss") (PInt 0) metrics).

(** Iteration over an object: the items of a list, the keys of a dict,
    the characters of a text. *)
Definition py_iter (v : pyval) : result (list pyval) :=
  match v with
  | PList l => Ok l
  | PDict d => Ok (keys d)
  | PStr s => Ok (map (fun c => PStr (String c EmptyString)) (list_ascii_of_string s))
  | _ => Raise TypeError
  end.

(** Stable insertion sort on a key: [x] goes before the first item whose
    key is not smaller. *)
Section Sorting.

Context {K A : Type} (ltb : K -> K -> bool).

Fixpoint insert_by (x : K * A) (l : list (K * A)) : list (K * A) :=
  match l with
  | [] => [x]
  | y :: l' => if ltb (fst y) (fst x) then y :: insert_by x l' else x :: l
  end.

Fixpoint sort_by (l : list (K * A)) : list (K * A) :=
  match l with
  | [] => []
  | x :: l' => insert_by x (sort_by l')
  end.

End Sorting.

Fixpoint keyed_by_REPDTE (items : list pyval) : result (list (pyval * pyval)) :=
  match items with
  | [] => Ok []
  | x :: items' =>
      do k <- py_getitem x "REPDTE";
      do rest <- keyed_by_REPDTE items';
      Ok ((k, x) :: rest)
  end.

Fixpoint text_keys (l : list (pyval * pyval)) : option (list (string * pyval)) :=
  match l with
  | [] => Some []
  | (PStr s, x) :: l' => option_map (cons (s, x)) (text_keys l')
  | _ => None
  end.

(** [sorted(financials, key=lambda x: x['REPDTE'])].  The keys are all
    computed first.  Two or more keys are compared as texts, which is
    what the records of the API and of the fallback carry; the order of
    keys of other types is not modelled. *)
Definition sorted_by_REPDTE (financials : pyval) : result (list pyval) :=
  do items <- py_iter financials;
  do keyed <- keyed_by_REPDTE items;
  match keyed with
  | [] | [_] => Ok items
  | _ =>
      match text_keys keyed with
      | Some l => Ok (map snd (sort_by String.ltb l))
      | None => Raise NotModelled
      end
  end.

(** The body of the loop over [enumerate(sorted_financials)]. *)
Definition metrics_row (bank_name : pyval) (sorted_financials : list pyval)
    (i : nat) (financial : pyval) : result dict :=
  do metrics <- _extract_basic_metrics bank_name financial;
  do (cecl_transition_amount, capital_base) <- _calculate_capital_base metrics financial;
  let metrics := dict_put (PStr "CECL Transition Amount") cecl_transition_amount metrics in
  do metrics <- _calculate_capital_ratios metrics capital_base;
  do metrics <- _calculate_cre_growth_rate metrics sorted_financials i financial;
  _calculate_charge_off_metrics metrics.

Fixpoint bank_rows (bank_name : pyval) (sorted_financials : list pyval)
    (i : nat) (todo : list pyval) : result (list dict) :=
  match todo with
  | [] => Ok []
  | financial :: todo' =>
      do row <- metrics_row bank_name sorted_financials i financial;
      do rows <- bank_rows bank_name sorted_financials (S i) todo';
      Ok (row :: rows)
  end.

(** The list [all_metrics] that the two loops of [calculate_metrics]
    build. *)
Fixpoint all_metrics (financials_data : dict) : result (list dict) :=
  match financials_data with
  | [] => Ok []
  | (bank_name, financials) :: banks =>
      do sorted_financials <- sorted_by_REPDTE financials;
      do rows <- bank_rows bank_name sorted_financials 0 sorted_financials;
      do more <- all_metrics banks;
      Ok (rows ++ more)%list
  end.

(** The cells of the rows of [all_metrics] under one label, row by row:
    a row without the key has a NaN there. *)
Definition column (all_metrics : list dict) (label : pyval) : list pyval :=
  map (fun row => match dict_get label row with
                  | Some v => v
                  | None => PFloat Float.nan
                  end) all_metrics.

Definition is_null (v : pyval) : bool :=
  match v with
  | PNone => true
  | _ => false
  end.

Definition is_int64 (v : pyval) : bool :=
  match v with
  | PInt z => (- 2 ^ 63 <=? z) && (z <? 2 ^ 63)
  | _ => false
  end.

Definition is_float (v : pyval) : bool :=
  match v with
  | PFloat _ => true
  | _ => false
  end.

(** The cells that pandas stores as a column of floats: each of them is
    None, an int of 64 bits or a float, and one of them is a float, or
    one is an int and another None. *)
Definition of_floats (cells : list pyval) : bool :=
  forallb (fun v => is_null v || is_int64 v || is_float v) cells &&
  (existsb is_float cells || (existsb is_int64 cells && existsb is_null cells)).

(** A cell of a column of floats: None reads NaN, an int reads as the
    float of its value. *)
Definition as_float (v : pyval) : pyval :=
  match v with
  | PNone => PFloat Float.nan
  | PInt z => PFloat (Float.of_Z z)
  | _ => v
  end.

(** [pd.DataFrame(all_metrics)], row by row.  A column of floats holds
    its cells as floats; any other column (of None only, of ints only,
    or with a text) keeps the values of the dicts.  The column [Bank]
    holds the keys of [financials_data], the names of the banks, and is
    kept as it is: what pandas makes of a column of names that are not
    texts is not modelled. *)
Definition DataFrame (all_metrics : list dict) : list dict :=
  map (map (fun kv : pyval * pyval =>
              (fst kv,
               if negb (key_eqb (fst kv) (PStr "Bank")) &&
                  of_floats (column all_metrics (fst kv))
               then as_float (snd kv) else snd kv)))
      all_metrics.

(** A row of the data frame: the cells of one record, with the date
    that the column [Date] holds after its conversion; the cell [Date]
    of the row keeps the text. *)
Definition frame_row : Type := date * dict.

Fixpoint dated (rows : list dict) : result (list frame_row) :=
  match rows with
  | [] => Ok []
  | row :: rows' =>
      match dict_get (PStr "Date") row with
      | None => Raise KeyError
      | Some raw =>
          do d <- to_datetime raw;
          match d with
          | None => Raise NotModelled
          | Some d => do rest <- dated rows'; Ok ((d, row) :: rest)
          end
      end
  end.

(** [calculate_metrics]: the data frame, as the list of its rows.  A
    frame without rows has no column [Date].  [sort_values] is modelled
    by a stable sort; pandas may order rows of one date differently. *)
Definition calculate_metrics (financials_data : dict) : result (list frame_row) :=
  do all_metrics <- all_metrics financials_data;
  match all_metrics with
  | [] => Raise KeyError
  | _ => do df <- dated (DataFrame all_metrics); Ok (sort_by date_ltb df)
  end.

End BankMetricsCalculator.

(** ** The environment *)

(** Formatted text: an f-string is kept as its pieces, the interpolated
    values unexpanded. *)
Inductive piece :=
| Lit (s : string)
| Fmt (v : pyval).

Definition text := list piece.

(** [bool(text)]: only the text of [str] values can be empty. *)
Definition text_nonempty (t : text) : bool :=
  existsb (fun p => match p with
                    | Lit s | Fmt (PStr s) => negb (String.eqb s "")
                    | Fmt _ => true
                    end) t.

Record request := mkrequest {
  req_url : string;
  req_filters : text;
  req_fields : string;
  req_limit : Z
}.

(** What [requests.get] followed by [raise_for_status] and [json] meets.
    [body] is the parsed JSON of the answer, [None] when the body is not
    JSON. *)
Inductive transport :=
| Timeout
| ConnectionFailure
| Response (status : Z) (body : option pyval).

(** The content of the cache file. *)
Inductive file :=
| Missing
| Unreadable
| Undecodable
| Corrupt
| Json (v : pyval).

Inductive write_outcome :=
| WriteOk
| OpenFails
| WriteFails.

(** The world around the program: the remote API, answering the [n]-th
    request; the files of the cache directory and what a write to each
    path meets; the stream of unit samples of the random generator; and
    the interpreter's [repr] of a float, which [json] uses for the float
    keys of a dict.  [calls] and [draws] count the requests issued and the
    samples drawn. *)
Record world := mkworld {
  calls : nat;
  network : nat -> request -> transport;
  files : string -> file;
  disk : string -> write_outcome;
  draws : nat;
  rng : nat -> float;
  float_repr : float -> string
}.

Definition with_calls (n : nat) (w : world) : world :=
  mkworld n (network w) (files w) (disk w) (draws w) (rng w) (float_repr w).

Definition with_files (f : string -> file) (w : world) : world :=
  mkworld (calls w) (network w) f (disk w) (draws w) (rng w) (float_repr w).

Definition with_draws (n : nat) (w : world) : world :=
  mkworld (calls w) (network w) (files w) (disk w) n (rng w) (float_repr w).

(** ** Computations with state and exceptions *)

(** A computation over a state [S] ends with a value or an exception;
    the state it has reached is kept in both cases. *)
Definition M (S A : Type) : Type := S -> result A * S.

Definition ret {S A} (a : A) : M S A := fun s => (Ok a, s).
Definition raise {S A} (e : exn) : M S A := fun s => (Raise e, s).
Definition lift {S A} (r : result A) : M S A := fun s => (r, s).

Definition mbind {S A B} (c : M S A) (k : A -> M S B) : M S B :=
  fun s => match c s with
           | (Ok a, s') => k a s'
           | (Raise e, s') => (Raise e, s')
           end.

Notation "x <~ c ;; k" := (mbind c (fun x => k))
  (at level 10, c at level 100, k at level 200).

(** ** The API client *)

Module FDICAPIClient.

Definition BASE_URL : string := "https://banks.data.fdic.gov/api".

Definition EMPTY_ENVELOPE : pyval := PDict [(PStr "data", PList [])].

(** [raise_for_status] raises for the client and server error codes. *)
Definition is_error_status (status : Z) : bool := (400 <=? status) && (status <? 600).

(** A transport-level failure: no answer in time, no connection, an
    error status, or a body that is not JSON. *)
Definition transport_failure (t : transport) : bool :=
  match t with
  | Timeout | ConnectionFailure => true
  | Response status body =>
      is_error_status status || match body with None => true | Some _ => false end
  end.

(** [get_data]: every [RequestException] is caught, which covers the
    time-out, the connection error, the [HTTPError] of
    [raise_for_status] and the decoding error of [response.json()]. *)
Definition get_data (endpoint : string) (filters : text) (fields : string)
  : M world pyval :=
  fun w =>
    let rq := mkrequest (BASE_URL ++ "/" ++ endpoint) filters fields 10000 in
    let w' := with_calls (S (calls w)) w in
    match network w (calls w) rq with
    | Timeout | ConnectionFailure => (Ok EMPTY_ENVELOPE, w')
    | Response status body =>
        if is_error_status status then (Ok EMPTY_ENVELOPE, w')
        else match body with
             | Some v => (Ok v, w')
             | None => (Ok EMPTY_ENVELOPE, w')
             end
    end.

(** [data.get('data', [])]. *)
Definition data_of (data : pyval) : result pyval :=
  match data with
  | PDict d => Ok (match dict_get (PStr "data") d with Some v => v | None => PList [] end)
  | _ => Raise AttributeError
  end.

Definition get_institutions (filters : text) (fields : string) : M world pyval :=
  data <~ get_data "institutions" filters fields ;;
  lift (data_of data).

Definition get_financials (cert : pyval) (filters : text) (fields : string)
  : M world pyval :=
  let filters' :=
    ([Lit "CERT:"; Fmt cert]
       ++ (if text_nonempty filters then Lit " AND " :: filters else []))%list in
  data <~ get_data "financials" filters' fields ;;
  lift (data_of data).

End FDICAPIClient.

(** ** Constants of the module *)

Definition CACHE_DIR : string := "data_cache".

Definition bank (cert name : string) : pyval :=
  PDict [(PStr "cert", PStr cert); (PStr "name", PStr name)].

Definition BANK_INFO : list pyval :=
  [ bank "33124" "Goldman Sachs Bank USA";
    bank "628" "JPMorgan Chase Bank, National Association";
    bank "3510" "Bank of America, National Association";
    bank "3511" "Wells Fargo Bank, National Association";
    bank "7213" "Citibank, National Association";
    bank "6548" "U.S. Bank National Association";
    bank "6384" "PNC Bank, National Association";
    bank "9846" "Truist Bank";
    bank "4297" "Capital One, National Association" ].

(** ** JSON files *)

Module Json.

Definition key (repr : float -> string) (k : pyval) : pyval :=
  match k with
  | PNone => PStr "null"
  | PBool b => PStr (if b then "true" else "false")
  | PInt z => PStr (NilZero.string_of_int (Z.to_int z))
  | PFloat S754_nan => PStr "NaN"
  | PFloat (S754_infinity s) => PStr (if s then "-Infinity" else "Infinity")
  | PFloat f => PStr (repr f)
  | _ => k
  end.

(** What [json.load] reads back from the text [json.dump] wrote for a
    value: the keys of a dict have become texts, and of two items with
    one key text the later value stands. *)
Fixpoint image (repr : float -> string) (v : pyval) : pyval :=
  match v with
  | PList l => PList (map (image repr) l)
  | PDict d =>
      PDict (fold_left (fun acc kv => dict_put (fst kv) (snd kv) acc)
               (map (fun kv => match kv with
                               | (k, x) => (key repr k, image repr x)
                               end) d) [])
  | _ => v
  end.

End Json.

(** ** Calendar arithmetic for the fallback *)

Module Calendar.

(** Days since 1 January 1970. *)
Definition days_from_civil (d : date) : Z :=
  let y := if month d <=? 2 then year d - 1 else year d in
  let era := y / 400 in
  let yoe := y - era * 400 in
  let mp := if 2 <? month d then month d - 3 else month d + 9 in
  let doy := (153 * mp + 2) / 5 + day d - 1 in
  let doe := yoe * 365 + yoe / 4 - yoe / 100 + doy in
  era * 146097 + doe - 719468.

Definition quarter_ends (y : Z) : list date :=
  [ mkdate y 3 31; mkdate y 6 30; mkdate y 9 30; mkdate y 12 31 ].

(** [pd.date_range(start, end, freq='Q')]: the quarter ends from [start]
    to [end], both included. *)
Definition date_range (start end_ : date) : list date :=
  filter (fun q => date_leb start q && date_leb q end_)
    (flat_map (fun k => quarter_ends (year start + Z.of_nat k))
       (seq 0 (Z.to_nat (year end_ - year start + 1)))).

Definition two_digits (n : Z) : string :=
  (if n <? 10 then "0" else "") ++ NilZero.string_of_int (Z.to_int n).

(** [date.strftime("%Y%m%d")], for a year of four digits. *)
Definition strftime (d : date) : string :=
  NilZero.string_of_int (Z.to_int (year d)) ++ two_digits (month d) ++ two_digits (day d).

End Calendar.

(** ** The repository *)

Module BankDataRepository.

Import FDICAPIClient.

Definition get_cache_path (start_date end_date : string) : string :=
  CACHE_DIR ++ "/" ++ "bank_data_" ++ start_date ++ "_" ++ end_date ++ ".json".

(** [load_cached_data]: [None] unless the file exists and parses.  The
    errors of opening, reading and parsing are caught; a file that is not
    text in the expected encoding raises past the handler. *)
Definition load_cached_data (start_date end_date : string) : M world pyval :=
  fun w =>
    match files w (get_cache_path start_date end_date) with
    | Missing | Unreadable | Corrupt => (Ok PNone, w)
    | Undecodable => (Raise UnicodeDecodeError, w)
    | Json v => (Ok v, w)
    end.

Definition write_file (path : string) (f : file) (w : world) : world :=
  with_files (fun p => if String.eqb p path then f else files w p) w.

(** [save_to_cache]: an [IOError] is caught.  When the file cannot be
    opened nothing changes; when the write breaks off, what is left is
    not JSON. *)
Definition save_to_cache (data : pyval) (start_date end_date : string)
  : M world unit :=
  fun w =>
    let cache_path := get_cache_path start_date end_date in
    match disk w cache_path with
    | WriteOk => (Ok tt, write_file cache_path (Json (Json.image (float_repr w) data)) w)
    | OpenFails => (Ok tt, w)
    | WriteFails => (Ok tt, write_file cache_path Corrupt w)
    end.

Definition institution_fields : string := "NAME,CERT".

Definition financial_fields : string :=
  "CERT,REPDTE,ASSET,DEP,LNLSGR,LNLSNET,SC,LNRE,LNCI,LNAG,LNCRCD,LNCONOTH,LNATRES,P3ASSET,P9ASSET,RBCT1J,DRLNLS,CRLNLS,"
  ++ "NETINC,ERNASTR,NPERFV,P3ASSETR,P9ASSETR,NIMY,NTLNLSR,LNATRESR,NCLNLSR,ROA,ROE,RBC1AAJ,"
  ++ "RBCT2,RBCRWAJ,LNLSDEPR,LNLSNTV,EEFFR,LNRESNCR,ELNANTR,IDERNCVR,NTLNLSQ,LNRECONS,"
  ++ "LNRENRES,LNRENROW,LNRENROT,LNRERES,LNREMULT,LNREAG,LNRECNFM,LNRECNOT,LNCOMRE,CT1BADJ,EQ,EQPP".

(** *** The fallback data *)

Definition dec (m e : Z) : float := Float.of_decimal false m e.

(** [np.random.uniform(low, high)]: [low + (high - low) * u] for the
    next unit sample [u]. *)
Definition uniform (low high : float) : M world float :=
  fun w =>
    (Ok (Float.add low (Float.mul (Float.sub high low) (rng w (draws w)))),
     with_draws (S (draws w)) w).

Definition LARGE_BANKS : list string :=
  [ "JPMorgan Chase Bank, National Association";
    "Bank of America, National Association";
    "Wells Fargo Bank, National Association";
    "Citibank, National Association" ].

Definition MEDIUM_BANKS : list string :=
  [ "Goldman Sachs Bank USA";
    "U.S. Bank National Association";
    "PNC Bank, National Association";
    "Truist Bank" ].

(** [name in [...]] for a list of texts. *)
Definition among (name : pyval) (l : list string) : bool :=
  match name with
  | PStr s => existsb (String.eqb s) l
  | _ => false
  end.

Definition is_goldman (name : pyval) : bool := among name ["Goldman Sachs Bank USA"].

(** The record of one quarter end. *)
Definition fallback_record (bank_name : pyval) (base_assets : Z) (start d : date)
  : M world pyval :=
  let date_str := Calendar.strftime d in
  let years_since_start :=
    Float.div (Float.of_Z (Calendar.days_from_civil d - Calendar.days_from_civil start))
              (dec 36525 (-2)) in
  let growth_factor := Float.add (Float.of_Z 1) (Float.mul years_since_start (dec 5 (-2))) in
  random_factor <~ uniform (dec 95 (-2)) (dec 105 (-2)) ;;
  let assets := Float.mul (Float.mul (Float.of_Z base_assets) growth_factor) random_factor in
  u1 <~ uniform (dec 9 (-1)) (dec 11 (-1)) ;;
  let deposits := Float.mul (Float.mul assets (dec 8 (-1))) u1 in
  u2 <~ uniform (dec 9 (-1)) (dec 11 (-1)) ;;
  let loans := Float.mul (Float.mul assets (dec 6 (-1))) u2 in
  u3 <~ uniform (dec 9 (-1)) (dec 11 (-1)) ;;
  let tier1_capital := Float.mul (Float.mul assets (dec 1 (-1))) u3 in
  adjusted <~
    (if is_goldman bank_name then
       v1 <~ uniform (dec 9 (-1)) (dec 11 (-1)) ;;
       v2 <~ uniform (dec 9 (-1)) (dec 11 (-1)) ;;
       v3 <~ uniform (dec 9 (-1)) (dec 11 (-1)) ;;
       ret (Float.mul (Float.mul assets (dec 6 (-1))) v1,
            Float.mul (Float.mul assets (dec 4 (-1))) v2,
            Float.mul (Float.mul assets (dec 12 (-2))) v3)
     else ret (deposits, loans, tier1_capital)) ;;
  let '(deposits, loans, tier1_capital) := adjusted in
  roa <~ uniform (dec 5 (-1)) (dec 15 (-1)) ;;
  roe <~ uniform (Float.of_Z 5) (Float.of_Z 15) ;;
  nimy <~ uniform (Float.of_Z 2) (Float.of_Z 4) ;;
  eeffr <~ uniform (Float.of_Z 50) (Float.of_Z 70) ;;
  ret (PDict
    [ (PStr "REPDTE", PStr date_str);
      (PStr "ASSET", PFloat assets);
      (PStr "DEP", PFloat deposits);
      (PStr "LNLSGR", PFloat loans);
      (PStr "LNLSNET", PFloat (Float.mul loans (dec 98 (-2))));
      (PStr "RBCT1J", PFloat tier1_capital);
      (PStr "ROA", PFloat roa);
      (PStr "ROE", PFloat roe);
      (PStr "SC", PFloat (Float.mul assets (dec 2 (-1))));
      (PStr "LNRE", PFloat (Float.mul loans (dec 5 (-1))));
      (PStr "LNCI", PFloat (Float.mul loans (dec 3 (-1))));
      (PStr "LNAG", PFloat (Float.mul loans (dec 5 (-2))));
      (PStr "LNCRCD", PFloat (Float.mul loans (dec 1 (-1))));
      (PStr "LNCONOTH", PFloat (Float.mul loans (dec 5 (-2))));
      (PStr "LNATRES", PFloat (Float.mul loans (dec 2 (-2))));
      (PStr "NIMY", PFloat nimy);
      (PStr "EEFFR", PFloat eeffr) ]).

Fixpoint fallback_records (bank_name : pyval) (base_assets : Z) (start : date)
    (quarters : list date) : M world (list pyval) :=
  match quarters with
  | [] => ret []
  | d :: quarters' =>
      record <~ fallback_record bank_name base_assets start d ;;
      records <~ fallback_records bank_name base_assets start quarters' ;;
      ret (record :: records)
  end.

(** The timestamp of a date text; [to_datetime] hands back [None] only
    for [None]. *)
Definition timestamp (s : string) : result date :=
  do d <- to_datetime (PStr s);
  match d with
  | Some d => Ok d
  | None => Raise NotModelled
  end.

(** The body of the loop over [BANK_INFO]. *)
Definition fallback_bank (start_date end_date : string) (bank_info : pyval)
    (acc : dict * dict) : M world (dict * dict) :=
  let '(institutions_data, financials_data) := acc in
  bank_name <~ lift (py_getitem bank_info "name") ;;
  cert <~ lift (py_getitem bank_info "cert") ;;
  institutions_data <~
    lift (py_setitem bank_name
            (PDict [(PStr "NAME", bank_name); (PStr "CERT", cert)]) institutions_data) ;;
  start <~ lift (timestamp start_date) ;;
  end_ <~ lift (timestamp end_date) ;;
  let quarters := Calendar.date_range start end_ in
  let is_large_bank := among bank_name LARGE_BANKS in
  let is_medium_bank := among bank_name MEDIUM_BANKS in
  let base_assets :=
    if is_large_bank then 500000000000
    else if is_medium_bank then 100000000000 else 50000000000 in
  financial_records <~ fallback_records bank_name base_assets start quarters ;;
  financials_data <~
    lift (py_setitem bank_name (PList financial_records) financials_data) ;;
  ret (institutions_data, financials_data).

Fixpoint fallback_banks (start_date end_date : string) (banks : list pyval)
    (acc : dict * dict) : M world (dict * dict) :=
  match banks with
  | [] => ret acc
  | bank_info :: banks' =>
      acc' <~ fallback_bank start_date end_date bank_info acc ;;
      fallback_banks start_date end_date banks' acc'
  end.

Definition dataset (institutions_data financials_data : dict) : pyval :=
  PDict [ (PStr "institutions_data", PDict institutions_data);
          (PStr "financials_data", PDict financials_data) ].

(** [_generate_fallback_data]: synthetic records for the banks of
    [BANK_INFO], cached like fetched data. *)
Definition _generate_fallback_data (start_date end_date : string) : M world pyval :=
  acc <~ fallback_banks start_date end_date BANK_INFO ([], []) ;;
  let result := dataset (fst acc) (snd acc) in
  _ <~ save_to_cache result start_date end_date ;;
  ret result.

(** *** The fetch *)

(** The two dicts that a batch fills and the counter of failures. *)
Record batch := mkbatch {
  institutions_data : dict;
  financials_data : dict;
  api_failures : nat
}.

Definition in_world {A} (c : M world A) : M (batch * world) A :=
  fun s => let '(r, w) := c (snd s) in (r, (fst s, w)).

Definition store_institution (name bank_data : pyval) : M (batch * world) unit :=
  fun s =>
    let b := fst s in
    match py_setitem name bank_data (institutions_data b) with
    | Ok d => (Ok tt, (mkbatch d (financials_data b) (api_failures b), snd s))
    | Raise e => (Raise e, s)
    end.

Definition store_financials (name records : pyval) : M (batch * world) unit :=
  fun s =>
    let b := fst s in
    match py_setitem name records (financials_data b) with
    | Ok d => (Ok tt, (mkbatch (institutions_data b) d (api_failures b), snd s))
    | Raise e => (Raise e, s)
    end.

(** [needle in hay] for two texts. *)
Fixpoint contains (needle hay : string) : bool :=
  String.prefix needle hay
  || match hay with
     | EmptyString => false
     | String _ hay' => contains needle hay'
     end.

(** [name in obj]: a key of a dict, an item of a list, a part of a
    text; other objects are not containers. *)
Definition py_contains (obj : pyval) (name : string) : result bool :=
  match obj with
  | PDict d => Ok (dict_mem (PStr name) d)
  | PList l => Ok (existsb (fun x => match x with
                                     | PStr s => String.eqb s name
                                     | _ => false
                                     end) l)
  | PStr s => Ok (contains name s)
  | _ => Raise TypeError
  end.

(** [obj[0]]. *)
Definition first_item (obj : pyval) : result pyval :=
  match obj with
  | PList (x :: _) => Ok x
  | PList [] => Raise IndexError
  | PStr (String c _) => Ok (PStr (String c EmptyString))
  | PStr EmptyString => Raise IndexError
  | PDict d => match dict_get (PInt 0) d with
               | Some v => Ok v
               | None => Raise KeyError
               end
  | _ => Raise TypeError
  end.

(** [[f['data'] for f in financials if isinstance(f, dict) and 'data' in f]]. *)
Definition records_of (financials : pyval) : result pyval :=
  do items <- BankMetricsCalculator.py_iter financials;
  Ok (PList (flat_map (fun f => match f with
                                | PDict d => match dict_get (PStr "data") d with
                                             | Some r => [r]
                                             | None => []
                                             end
                                | _ => []
                                end) items)).

(** The double quote character, as a text. *)
Definition QUOTE : string := String (ascii_of_nat 34) EmptyString.

(** The filter of the institution look-up: by name for a text, by
    certificate for a dict with a key [cert]; no look-up otherwise. *)
Definition lookup_filter (bank_item : pyval) : option text :=
  match bank_item with
  | PStr _ => Some [Lit ("NAME:" ++ QUOTE); Fmt bank_item; Lit QUOTE]
  | PDict d => match dict_get (PStr "cert") d with
               | Some cert => Some [Lit "CERT:"; Fmt cert]
               | None => None
               end
  | _ => None
  end.

Definition date_filter (start_date end_date : string) : text :=
  [Lit "REPDTE:["; Fmt (PStr start_date); Lit " TO "; Fmt (PStr end_date); Lit "]"].

(** The body of the inner [try]: one roster item. *)
Definition fetch_bank (start_date end_date : string) (bank_item : pyval)
  : M (batch * world) unit :=
  match lookup_filter bank_item with
  | None => ret tt
  | Some filters =>
      institutions <~ in_world (get_institutions filters institution_fields) ;;
      if negb (truthy institutions) then ret tt
      else
        bank <~ lift (first_item institutions) ;;
        match bank with
        | PDict b =>
            match dict_get (PStr "data") b with
            | Some bank_data =>
                has_name <~ lift (py_contains bank_data "NAME") ;;
                has_cert <~ (if has_name then lift (py_contains bank_data "CERT")
                             else ret false) ;;
                if has_name && has_cert then
                  name <~ lift (py_getitem bank_data "NAME") ;;
                  _ <~ store_institution name bank_data ;;
                  cert <~ lift (py_getitem bank_data "CERT") ;;
                  financials <~
                    in_world (get_financials cert (date_filter start_date end_date)
                                financial_fields) ;;
                  records <~ lift (records_of financials) ;;
                  name' <~ lift (py_getitem bank_data "NAME") ;;
                  store_financials name' records
                else ret tt
            | None => ret tt
            end
        | _ => ret tt
        end
  end.

Definition failed (b : batch) : batch :=
  mkbatch (institutions_data b) (financials_data b) (S (api_failures b)).

(** The inner [try ... except Exception]: an exception of the body adds
    one to [api_failures]; what the body had stored stays. *)
Definition try_fetch_bank (start_date end_date : string) (s : batch * world)
    (bank_item : pyval) : batch * world :=
  match fetch_bank start_date end_date bank_item s with
  | (Ok _, s') => s'
  | (Raise _, s') => (failed (fst s'), snd s')
  end.

(** One pass over the roster. *)
Definition fetch_batch (bank_info : list pyval) (start_date end_date : string)
    (s : batch * world) : batch * world :=
  fold_left (try_fetch_bank start_date end_date) bank_info s.

Definition cleared (b : batch) : batch := mkbatch [] [] (api_failures b).

Definition max_retries : nat := 3.

(** The loop [for retry_count in range(max_retries)], from [retry_count]
    on: a retry empties the two dicts and keeps the counter; the loop is
    left as soon as an institution has been stored.  Every exception of
    a roster item is caught by the inner handler, so the outer handler of
    the source has nothing to catch. *)
Fixpoint retry_loop (bank_info : list pyval) (start_date end_date : string)
    (remaining retry_count : nat) (s : batch * world) : batch * world :=
  match remaining with
  | O => s
  | S remaining' =>
      let s0 := if (0 <? retry_count)%nat then (cleared (fst s), snd s) else s in
      let s1 := fetch_batch bank_info start_date end_date s0 in
      match institutions_data (fst s1) with
      | _ :: _ => s1
      | [] => retry_loop bank_info start_date end_date remaining' (S retry_count) s1
      end
  end.

Definition fresh_batch : batch := mkbatch [] [] 0.

(** The fetch after a cache miss. *)
Definition fetch_fresh (bank_info : list pyval) (start_date end_date : string)
  : M world pyval :=
  fun w =>
    let '(b, w1) :=
      retry_loop bank_info start_date end_date max_retries 0 (fresh_batch, w) in
    if (List.length bank_info / 2 <? api_failures b)%nat
       || negb (truthy (PDict (institutions_data b)))
    then _generate_fallback_data start_date end_date w1
    else
      let result := dataset (institutions_data b) (financials_data b) in
      (_ <~ save_to_cache result start_date end_date ;; ret result) w1.

(** [fetch_data]: the cached value when it is true, a fresh fetch
    otherwise. *)
Definition fetch_data (bank_info : list pyval) (start_date end_date : string)
  : M world pyval :=
  cached_data <~ load_cached_data start_date end_date ;;
  if truthy cached_data then ret cached_data
  else fetch_fresh bank_info start_date end_date.

End BankDataRepository.

(** ** The service *)

Module BankDataService.

Import BankMetricsCalculator BankDataRepository.

(** The display names of the banks. *)
Definition BANK_NAME_MAPPING : dict :=
  [ (PStr "Goldman Sachs Bank USA", PStr "Goldman Sachs");
    (PStr "JPMorgan Chase Bank, National Association", PStr "JPMorgan Chase");
    (PStr "Bank of America, National Association", PStr "Bank of America");
    (PStr "Wells Fargo Bank, National Association", PStr "Wells Fargo");
    (PStr "Citibank, National Association", PStr "Citibank");
    (PStr "U.S. Bank National Association", PStr "U.S. Bank");
    (PStr "PNC Bank, National Association", PStr "PNC Bank");
    (PStr "Truist Bank", PStr "Truist Bank");
    (PStr "Capital One, National Association", PStr "Capital One") ].

(** [self.repository.dollar_format_metrics]. *)
Definition dollar_format_metrics : list string :=
  [ "Total Assets";
    "Total Deposits";
    "Total Loans and Leases";
    "Net Loans and Leases";
    "Total Securities";
    "Real Estate Loans";
    "Loans to Residential Properties";
    "Multifamily";
    "Farmland Real Estate Loans";
    "Loans to Nonresidential Properties";
    "Owner-Occupied Nonresidential Properties Loans";
    "Non-OOC Nonresidential Properties Loans";
    "RE Construction and Land Development";
    "1-4 Family Residential Construction and Land Development Loans";
    "Other Construction, All Land Development and Other Land Loans";
    "Commercial Real Estate Loans not Secured by Real Estate";
    "Commercial and Industrial Loans";
    "Agriculture Loans";
    "Credit Cards";
    "Consumer Loans";
    "Allowance for Credit Loss";
    "Past Due 30-89 Days";
    "Past Due 90+ Days";
    "Tier 1 (Core) Capital";
    "Total Charge-Offs";
    "Total Recoveries";
    "Net Income";
    "Total Loans and Leases Net Charge-Offs Quarterly";
    "Common Equity Tier 1 Before Adjustments";
    "Bank Equity Capital";
    "CECL Transition Amount";
    "Perpetual Preferred Stock" ].

(** The order of the columns that [get_metrics_data] asks for. *)
Definition metric_order : list string :=
  ([ "Bank"; "Date";
     "Real Estate Loans to Tier 1 + ACL";
     "RE Construction and Land Development to Tier 1 + ACL";
     "Commercial RE to Tier 1 + ACL";
     "Non-Owner Occupied CRE 3-Year Growth Rate";
     "C&I Loans to Tier 1 + ACL";
     "Agriculture Loans to Tier 1 + ACL";
     "Credit Cards to Tier 1 + ACL";
     "Net Charge-Offs / Allowance for Credit Loss";
     "Net Charge-Offs / Total Loans & Leases";
     "Earnings Coverage of Net Loan Charge-Offs";
     "Loan and Lease Loss Provision to Net Charge-Offs";
     "Loss Allowance / Total Loans & Leases";
     "Loss Allowance to Noncurrent Loans and Leases";
     "Nonperforming Assets / Total Assets";
     "Assets Past Due 30-89 Days / Total Assets";
     "Assets Past Due 90+ Days / Total Assets";
     "Noncurrent Loans / Total Loans";
     "Net Loans and Leases to Deposits";
     "Net Loans and Leases to Assets";
     "Return on Assets";
     "Return on Equity";
     "Leverage (Core Capital) Ratio";
     "Total Risk-Based Capital Ratio";
     "Efficiency Ratio";
     "Earning Assets / Total Assets";
     "Net Interest Margin" ] ++ dollar_format_metrics)%list.

(** A data frame: its column labels and its rows.  The cells of a row
    are kept under their labels, as the frame of [calculate_metrics]
    holds them. *)
Record frame := mkframe {
  columns : list pyval;
  rows : list frame_row
}.

(** The columns of [pd.DataFrame(all_metrics)]: the keys of the rows, in
    the order of their first appearance. *)
Definition add_label (cols : list pyval) (k : pyval) : list pyval :=
  if existsb (key_eqb k) cols then cols else (cols ++ [k])%list.

Definition labels (all_metrics : list dict) : list pyval :=
  fold_left (fun cols row => fold_left add_label (keys row) cols) all_metrics [].

(** [BANK_NAME_MAPPING.get(x, x)]. *)
Definition display_name (x : pyval) : pyval :=
  match dict_get x BANK_NAME_MAPPING with
  | Some v => v
  | None => x
  end.

(** The cell of a row in a column; a row without the key has a NaN
    there. *)
Definition cell (row : dict) (col : pyval) : pyval :=
  match dict_get col row with
  | Some v => v
  | None => PFloat Float.nan
  end.

(** [metrics_df['Bank'] = metrics_df['Bank'].map(...)], on one row. *)
Definition renamed (row : frame_row) : frame_row :=
  (fst row, dict_put (PStr "Bank") (display_name (cell (snd row) (PStr "Bank"))) (snd row)).

(** [metrics_df[available_columns + extra_columns]], on one row. *)
Definition selected (cols : list pyval) (row : frame_row) : frame_row :=
  (fst row, map (fun col => (col, cell (snd row) col)) cols).

(** [get_metrics_data]; of the three values it returns, the data frame.
    The frame that [calculate_metrics] returns has the columns of the
    rows of [all_metrics], which [sort_values] keeps. *)
Definition get_metrics_data (start_date end_date : string) : M world frame :=
  data <~ fetch_data BANK_INFO start_date end_date ;;
  institutions_data <~ lift (py_getitem data "institutions_data") ;;
  if negb (truthy institutions_data) then ret (mkframe [] [])
  else
    financials_data <~ lift (py_getitem data "financials_data") ;;
    match financials_data with
    | PDict financials_data =>
        metrics_df <~ lift (calculate_metrics financials_data) ;;
        let df_columns :=
          match all_metrics financials_data with
          | Ok all_metrics => labels all_metrics
          | Raise _ => []
          end in
        if existsb (key_eqb (PStr "Bank")) df_columns then
          let metrics_df := map renamed metrics_df in
          let available_columns :=
            filter (fun col => existsb (key_eqb col) df_columns) (map PStr metric_order) in
          let extra_columns :=
            filter (fun col => negb (existsb (key_eqb col) available_columns)) df_columns in
          let cols := (available_columns ++ extra_columns)%list in
          ret (mkframe cols (map (selected cols) metrics_df))
        else raise KeyError
    | _ => raise AttributeError
    end.

End BankDataService.

(** * Statements *)

(** ** Inputs and predicates of the properties *)

Module Examples.

Import BankMetricsCalculator.

(** Every base metric of the extracted row is a finite float. *)
Definition base_metrics_finite (bank_name financial : pyval) : Prop :=
  exists row,
    _extract_basic_metrics bank_name financial = Ok row /\
    forall name code, In (name, code) BASE_METRICS ->
      exists x, dict_get (PStr name) row = Some (PFloat x) /\ Float.is_finite x = true.

(** A raw value on which [float] neither overflows nor leaves the
    embedding: no integer beyond the range of a float, no text with a
    character outside ASCII. *)
Definition in_float_range (v : pyval) : bool :=
  match v with
  | PInt z => Float.is_finite (Float.of_Z z)
  | PStr s => FloatOfString.ascii_only s
  | _ => true
  end.

(** A raw value that is no NaN and no infinity: a float that is finite,
    a text that does not spell one. *)
Definition spells_finite (v : pyval) : bool :=
  match v with
  | PFloat f => Float.is_finite f
  | PStr s => match FloatOfString.parse s with
              | Some f => Float.is_finite f
              | None => true
              end
  | _ => true
  end.

(** The raw value of a field: [financial.get(code)]. *)
Definition raw (financial : dict) (code : string) : pyval :=
  match dict_get (PStr code) financial with
  | Some v => v
  | None => PNone
  end.

Definition nan_record : pyval := PDict [(PStr "REPDTE", PStr "20240331"); (PStr "ASSET", PStr "nan")].

(** A record with raw values of several kinds. *)
Definition mixed_record : dict :=
  [ (PStr "REPDTE", PStr "20240331");
    (PStr "ASSET", PStr "1000");
    (PStr "DEP", PNone);
    (PStr "LNLSGR", PStr "n/a");
    (PStr "SC", PInt 5);
    (PStr "LNRE", PStr "inf");
    (PStr "LNCI", PList []) ].

(** Metrics with the five cells that the capital base is made of. *)
Definition capital_cells (ct1badj eq eqpp tier1 acl : float) : dict :=
  [ (PStr "Common Equity Tier 1 Before Adjustments", PFloat ct1badj);
    (PStr "Bank Equity Capital", PFloat eq);
    (PStr "Perpetual Preferred Stock", PFloat eqpp);
    (PStr "Tier 1 (Core) Capital", PFloat tier1);
    (PStr "Allowance for Credit Loss", PFloat acl) ].

(** Metrics with the loan cells that the capital ratios read. *)
Definition loan_cells (re recons mf nonres comre ci ag cc : float) : dict :=
  [ (PStr "Real Estate Loans", PFloat re);
    (PStr "RE Construction and Land Development", PFloat recons);
    (PStr "Multifamily", PFloat mf);
    (PStr "Loans to Nonresidential Properties", PFloat nonres);
    (PStr "Commercial Real Estate Loans not Secured by Real Estate", PFloat comre);
    (PStr "Commercial and Industrial Loans", PFloat ci);
    (PStr "Agriculture Loans", PFloat ag);
    (PStr "Credit Cards", PFloat cc) ].

(** The report date of a record, when [REPDTE] is a date text. *)
Definition record_date (r : pyval) : option date :=
  match py_get r "REPDTE" with
  | Ok (PStr s) => parse_yyyymmdd s
  | _ => None
  end.

(** Every record has a report date, later than that of the record
    before. *)
Fixpoint chronological (l : list pyval) : bool :=
  match l with
  | [] => true
  | r :: l' =>
      match record_date r with
      | None => false
      | Some d =>
          match l' with
          | [] => true
          | r' :: _ => match record_date r' with
                       | Some d' => date_ltb d d'
                       | None => false
                       end
          end && chronological l'
      end
  end.

(** A record whose base fields are in the range of [float]. *)
Definition convertible (r : pyval) : bool :=
  match r with
  | PDict d => forallb (fun nc => in_float_range (raw d (snd nc))) BASE_METRICS
  | _ => false
  end.

(** The text and the date of [REPDTE], for a record that has them. *)
Definition text_of (r : pyval) : string :=
  match py_get r "REPDTE" with
  | Ok (PStr s) => s
  | _ => ""
  end.

Definition date_of (r : pyval) : date :=
  match record_date r with
  | Some d => d
  | None => mkdate 0 0 0
  end.

Definition growth_rate (row : frame_row) : option pyval :=
  dict_get (PStr GROWTH_RATE) (snd row).

(** The growth rate of the aggregate [current] over the base [old]. *)
Definition growth_value (current old : float) : pyval :=
  if Float.gtb old GROWTH_FLOOR then
    PFloat (Float.mul (Float.sub (Float.div current old) (Float.of_Z 1)) (Float.of_Z 100))
  else PNone.

(** The growth rate that the record at position [i] of the sorted list
    is due: none for the first twelve positions, then the rate over the
    record twelve positions back. *)
Definition expected_growth (sorted_financials : list pyval) (i : nat) (g : pyval) : Prop :=
  ((i < 12)%nat /\ g = PNone) \/
  ((12 <= i)%nat /\
   exists current old c o,
     nth_error sorted_financials i = Some current /\
     nth_error sorted_financials (i - 12) = Some old /\
     non_owner_occupied current = Ok c /\
     non_owner_occupied old = Ok o /\
     g = growth_value c o).

(** Thirteen consecutive quarter ends. *)
Definition thirteen_quarters : list string :=
  [ "20200331"; "20200630"; "20200930"; "20201231";
    "20210331"; "20210630"; "20210930"; "20211231";
    "20220331"; "20220630"; "20220930"; "20221231";
    "20230331" ].

(** Thirteen quarterly records of one bank whose non-owner-occupied
    aggregate is [first] in period 0, [last] in period 12 and 1200 in
    between; the aggregate is all in [LNRECONS]. *)
Definition cre_records (first last : string) : list pyval :=
  map (fun '(k, d) =>
         PDict [ (PStr "REPDTE", PStr d);
                 (PStr "LNRECONS",
                  PStr (if (k =? 0)%nat then first
                        else if (k =? 12)%nat then last else "1200")) ])
      (combine (seq 0 13) thirteen_quarters).

(** The growth cells of a table, row by row. *)
Definition growth_column (table : result (list frame_row)) : list (option pyval) :=
  match table with
  | Ok rows => map growth_rate rows
  | Raise _ => []
  end.

(** The answer of the remote API to the next request. *)
Definition answer (w : world) (endpoint : string) (filters : text) (fields : string)
  : transport :=
  network w (calls w)
    (mkrequest (FDICAPIClient.BASE_URL ++ "/" ++ endpoint) filters fields 10000).

(** The filter that [get_financials] sends. *)
Definition financial_filters (cert : pyval) (filters : text) : text :=
  ([Lit "CERT:"; Fmt cert]
     ++ (if text_nonempty filters then Lit " AND " :: filters else []))%list.

(** The world after one more request. *)
Definition called (w : world) : world := with_calls (S (calls w)) w.

(** The cache holds nothing usable for the key: no file, a file that
    cannot be read or parsed, or a parsed value that is false. *)
Definition cache_miss (start_date end_date : string) (w : world) : bool :=
  match files w (BankDataRepository.get_cache_path start_date end_date) with
  | Missing | Unreadable | Corrupt => true
  | Json v => negb (truthy v)
  | Undecodable => false
  end.

(** A world without cache files, whose disk takes every write, whose
    random samples are all one half, and whose API answers by [net]. *)
Definition blank_world (net : nat -> request -> transport) : world :=
  mkworld 0 net (fun _ => Missing) (fun _ => WriteOk) 0
          (fun _ => Float.of_decimal false 5 (-1)) (fun _ => "").

(** A world whose API never answers in time. *)
Definition silent_world : world := blank_world (fun _ _ => Timeout).

(** A world where the cache file of the first quarter of 2020 holds [v]. *)
Definition cached_world (v : pyval) : world :=
  mkworld 0 (fun _ _ => Timeout)
          (fun p => if String.eqb p (BankDataRepository.get_cache_path "20200101" "20200331")
                    then Json v else Missing)
          (fun _ => WriteOk) 0 (fun _ => Float.of_decimal false 5 (-1)) (fun _ => "").

(** The keys of a dict after [d[k] = v], from the keys before. *)
Definition keys_put (k : pyval) (ks : list pyval) : list pyval :=
  if existsb (key_eqb k) ks then ks else (ks ++ [k])%list.

(** The names of the banks of [BANK_INFO], in its order. *)
Definition BANK_NAMES : list pyval :=
  [ PStr "Goldman Sachs Bank USA";
    PStr "JPMorgan Chase Bank, National Association";
    PStr "Bank of America, National Association";
    PStr "Wells Fargo Bank, National Association";
    PStr "Citibank, National Association";
    PStr "U.S. Bank National Association";
    PStr "PNC Bank, National Association";
    PStr "Truist Bank";
    PStr "Capital One, National Association" ].

(** The financial records of the fallback for a window: a list with one
    record for each quarter end, in order, dated by it. *)
Definition quarterly (start end_ : date) (v : pyval) : Prop :=
  exists records,
    v = PList records /\
    map text_of records = map Calendar.strftime (Calendar.date_range start end_).

(** Two worlds with the same files, the same disk and the same
    interpreter: they differ in requests issued and samples drawn. *)
Definition same_store (w w' : world) : Prop :=
  files w' = files w /\ disk w' = disk w /\ float_repr w' = float_repr w.

(** A computation of the fetch that leaves the counter of failures as
    it is and touches neither the files nor the disk. *)
Definition steady {A} (c : M (BankDataRepository.batch * world) A) : Prop :=
  forall s,
    BankDataRepository.api_failures (fst (snd (c s)))
    = BankDataRepository.api_failures (fst s)
    /\ same_store (snd s) (snd (snd (c s))).

(** The name under which a bank of [BANK_INFO] is stored. *)
Definition name_of (b : pyval) : pyval :=
  match py_getitem b "name" with
  | Ok name => name
  | Raise _ => PNone
  end.

(** The answer to an institution look-up that finds one institution,
    and the answer to a financial look-up with one record. *)
Definition institution_answer (cert name : string) : transport :=
  Response 200 (Some (PDict [(PStr "data",
    PList [PDict [(PStr "data",
      PDict [(PStr "NAME", PStr name); (PStr "CERT", PStr cert)])]])])).

Definition financial_answer : transport :=
  Response 200 (Some (PDict [(PStr "data",
    PList [PDict [(PStr "data",
      PDict [(PStr "REPDTE", PStr "20200331"); (PStr "ASSET", PInt 5)])]])])).

(** The first three banks of [BANK_INFO]. *)
Definition roster_of_three : list pyval := firstn 3 BANK_INFO.

(** The API resolves the first bank and gives its financials; the
    look-ups of the other two banks get no answer in time. *)
Definition two_unresolved (n : nat) (rq : request) : transport :=
  match n with
  | 0%nat => institution_answer "33124" "Goldman Sachs Bank USA"
  | 1%nat => financial_answer
  | _ => Timeout
  end.

(** The API resolves the three banks; the financials of the first come
    as an envelope whose data is null. *)
Definition null_financials (n : nat) (rq : request) : transport :=
  match n with
  | 0%nat => institution_answer "33124" "Goldman Sachs Bank USA"
  | 1%nat => Response 200 (Some (PDict [(PStr "data", PNone)]))
  | 2%nat => institution_answer "628" "JPMorgan Chase Bank, National Association"
  | 4%nat => institution_answer "3510" "Bank of America, National Association"
  | _ => financial_answer
  end.

(** The first two banks of [BANK_INFO]. *)
Definition roster_of_two : list pyval := firstn 2 BANK_INFO.

(** In the first pass the API answers both look-ups with a JSON array
    in place of an object; in the second pass it answers every request
    well. *)
Definition recovering (n : nat) (rq : request) : transport :=
  match n with
  | 0%nat | 1%nat => Response 200 (Some (PList []))
  | 2%nat => institution_answer "33124" "Goldman Sachs Bank USA"
  | 4%nat => institution_answer "628" "JPMorgan Chase Bank, National Association"
  | _ => financial_answer
  end.

(** A computation in the world that touches neither the files nor the
    disk. *)
Definition quiet {A} (c : M world A) : Prop :=
  forall w, same_store w (snd (c w)).

(** Keys that are texts, no two of them equal. *)
Fixpoint distinct_texts (ks : list pyval) : bool :=
  match ks with
  | [] => true
  | k :: ks' =>
      match k with PStr _ => true | _ => false end
      && negb (existsb (key_eqb k) ks')
      && distinct_texts ks'
  end.

(** A value in the shape of parsed JSON: the keys of every dict in it
    are texts, no two of them equal. *)
Fixpoint text_keyed (v : pyval) : bool :=
  match v with
  | PList l => forallb text_keyed l
  | PDict d =>
      forallb (fun kv => match kv with (_, x) => text_keyed x end) d
      && distinct_texts (map fst d)
  | _ => true
  end.

(** No item is followed by one with a smaller key. *)
Fixpoint ascending {K A} (ltb : K -> K -> bool) (l : list (K * A)) : Prop :=
  match l with
  | x :: (y :: _) as l' => ltb (fst y) (fst x) = false /\ ascending ltb l'
  | _ => True
  end.

(** Every item is smaller, by the measure [mu], than all items after it. *)
Fixpoint increasing {X} (mu : X -> Z) (l : list X) : Prop :=
  match l with
  | [] => True
  | x :: l' => Forall (fun y => mu x < mu y) l' /\ increasing mu l'
  end.

(** The number that a text of digits writes. *)
Definition digits_value (acc : Z) (cs : list ascii) : Z :=
  fold_left (fun a c => 10 * a + FloatOfString.digit_val c) cs acc.

(** No text occurs twice. *)
Fixpoint distinct (l : list string) : bool :=
  match l with
  | [] => true
  | x :: l' => negb (existsb (String.eqb x) l') && distinct l'
  end.

End Examples.


(** ** Inputs and predicates of the further properties *)

Module Shapes.

Import BankMetricsCalculator Examples.

(** A record with a report date. *)
Definition has_date (r : pyval) : bool :=
  match record_date r with
  | Some _ => true
  | None => false
  end.

(** The records of one bank as the calculator expects them: a list of
    records with a report date whose base fields are in the range of
    [float].  The dates need not be in order, nor distinct. *)
Definition usable (financials : pyval) : bool :=
  match financials with
  | PList l => forallb (fun r => convertible r && has_date r) l
  | _ => false
  end.

(** The number of records of one bank, and of a dataset. *)
Definition record_count (financials : pyval) : nat :=
  match financials with
  | PList l => List.length l
  | _ => 0%nat
  end.

Definition total_records (financials_data : dict) : nat :=
  list_sum (map (fun kv => record_count (snd kv)) financials_data).

(** A bank without records. *)
Definition no_records (financials : pyval) : bool :=
  match financials with
  | PList [] => true
  | _ => false
  end.

(** Two banks: thirteen quarterly records out of order, and no record. *)
Definition two_banks : dict :=
  [ (PStr "Truist Bank", PList (rev (cre_records "2000" "3000")));
    (PStr "PNC Bank, National Association", PList []) ].

(** The date of every row is the one its cell [Date] spells. *)
Definition dates_read (table : list frame_row) : Prop :=
  forall d row, In (d, row) table ->
    exists s, dict_get (PStr "Date") row = Some (PStr s) /\ parse_yyyymmdd s = Some d.

(** The dict after the stores [m[name] = v] of a list, in its order. *)
Definition puts (kvs : list (string * pyval)) (m : dict) : dict :=
  fold_left (fun m kv => dict_put (PStr (fst kv)) (snd kv) m) kvs m.

Definition CHARGE_OFF_RATIO : string := "Net Charge-Offs / Allowance for Credit Loss".

(** The six ratios in the order the source stores them when the capital
    base is above the floor. *)
Definition CAPITAL_RATIOS_ABOVE : list string :=
  [ "Real Estate Loans to Tier 1 + ACL";
    "RE Construction and Land Development to Tier 1 + ACL";
    "C&I Loans to Tier 1 + ACL";
    "Agriculture Loans to Tier 1 + ACL";
    "Credit Cards to Tier 1 + ACL";
    "Commercial RE to Tier 1 + ACL" ].

(** The cells of the six ratios that [_calculate_capital_ratios] stores. *)
Definition ratio_cells (re recons mf nonres comre ci ag cc capital_base : float)
  : list (string * pyval) :=
  if Float.gtb capital_base CAPITAL_FLOOR then
    [ ("Real Estate Loans to Tier 1 + ACL", PFloat (pct re capital_base));
      ("RE Construction and Land Development to Tier 1 + ACL",
       PFloat (pct recons capital_base));
      ("C&I Loans to Tier 1 + ACL", PFloat (pct ci capital_base));
      ("Agriculture Loans to Tier 1 + ACL", PFloat (pct ag capital_base));
      ("Credit Cards to Tier 1 + ACL", PFloat (pct cc capital_base));
      ("Commercial RE to Tier 1 + ACL",
       PFloat (pct (Float.add (Float.add (Float.add recons mf) nonres) comre)
                   capital_base)) ]
  else map (fun name => (name, PNone)) CAPITAL_RATIOS.

(** The keys of a row, in the order of their first store, for an order
    of the six ratios. *)
Definition row_columns (ratios : list string) : list pyval :=
  map PStr (["Bank"; "Date"] ++ map fst BASE_METRICS ++ ["CECL Transition Amount"]
              ++ ratios ++ [GROWTH_RATE; CHARGE_OFF_RATIO])%list.

(** The names of the cells that the calculator derives. *)
Definition DERIVED : list string :=
  ("CECL Transition Amount" :: CAPITAL_RATIOS ++ [GROWTH_RATE; CHARGE_OFF_RATIO])%list.

(** The cell of the charge-off ratio for an allowance and net charge-offs. *)
Definition charge_off_cell (acl nco : float) : pyval :=
  if Float.gtb acl (Float.of_Z 1000) then PFloat (pct nco acl) else PInt 0.

(** The six capital ratios of a row are all null, or all floats. *)
Definition ratios_uniform (row : dict) : Prop :=
  (forall name, In name CAPITAL_RATIOS -> dict_get (PStr name) row = Some PNone) \/
  (forall name, In name CAPITAL_RATIOS -> exists x, dict_get (PStr name) row = Some (PFloat x)).

(** The record twelve positions before position [i], which the growth
    rate reads from position 12 on, is there and has base fields in the
    range of [float]. *)
Definition base_usable (sorted_financials : list pyval) (i : nat) : bool :=
  if (12 <=? i)%nat then
    match nth_error sorted_financials (i - 12) with
    | Some old => convertible old
    | None => false
    end
  else true.

(** A record of the first quarter of 2023, with an allowance above the
    floor of the charge-off ratio. *)
Definition last_record : dict :=
  [ (PStr "REPDTE", PStr "20230331"); (PStr "LNRECONS", PStr "3000");
    (PStr "LNATRES", PInt 2000); (PStr "NTLNLSQ", PInt 50) ].

(** The world [w'] is the world [w] after [n] more requests: the same
    API, files, disk and interpreter. *)
Definition later (n : nat) (w w' : world) : Prop :=
  calls w' = (calls w + n)%nat /\ network w' = network w /\ same_store w w'.

(** What the body of the inner [try] can leave of a batch: the batch as
    it was; the batch with one institution stored, when an exception
    follows the store; the batch with the institution and its records
    stored under one name. *)
Inductive item_effect (b : BankDataRepository.batch)
  : result unit -> BankDataRepository.batch -> Prop :=
| nothing_stored r : item_effect b r b
| institution_stored e name bank_data :
    item_effect b (Raise e)
      (BankDataRepository.mkbatch
         (dict_put name bank_data (BankDataRepository.institutions_data b))
         (BankDataRepository.financials_data b)
         (BankDataRepository.api_failures b))
| both_stored name bank_data records :
    item_effect b (Ok tt)
      (BankDataRepository.mkbatch
         (dict_put name bank_data (BankDataRepository.institutions_data b))
         (dict_put name records (BankDataRepository.financials_data b))
         (BankDataRepository.api_failures b)).

(** Every bank with financial records has an institution entry. *)
Definition covered (b : BankDataRepository.batch) : Prop :=
  forall k, dict_mem k (BankDataRepository.financials_data b) = true ->
            dict_mem k (BankDataRepository.institutions_data b) = true.

(** A computation that issues no request. *)
Definition offline {A} (c : M world A) : Prop :=
  forall w, calls (snd (c w)) = calls w /\ network (snd (c w)) = network w.

(** A roster item for which the fetch sends an institution look-up: a
    text, or a dict with a key [cert]. *)
Definition looked_up (bank_item : pyval) : bool :=
  match BankDataRepository.lookup_filter bank_item with
  | Some _ => true
  | None => false
  end.

(** The API is down: every request meets a transport failure. *)
Definition api_down (w : world) : Prop :=
  forall n rq, FDICAPIClient.transport_failure (network w n rq) = true.

(** Two dates with the same year, month and day. *)
Definition date_eqb (a b : date) : bool :=
  (year a =? year b) && (month a =? month b) && (day a =? day b).

(** The text of a date reads back as the date. *)
Definition reads_back (d : date) : bool :=
  match parse_yyyymmdd (Calendar.strftime d) with
  | Some d' => date_eqb d d'
  | None => false
  end.

(** A record of the fallback for the quarter end [d]: dated by [d], with
    base fields in the range of [float], and without any of the four
    fields of the non-owner-occupied aggregate. *)
Definition synthetic_record (d : date) (r : pyval) : Prop :=
  convertible r = true /\ text_of r = Calendar.strftime d /\
  non_owner_occupied r = Ok Float.zero.

(** The records of one bank of the fallback for a window. *)
Definition synthetic (start end_ : date) (v : pyval) : Prop :=
  exists records,
    v = PList records /\
    Forall2 synthetic_record (Calendar.date_range start end_) records.

(** Every row of the table has the null marker as its growth rate. *)
Definition no_growth (table : list frame_row) : Prop :=
  forall row, In row table -> growth_rate row = Some PNone.

(** A row with the sixty cells of the calculator, made for one of the
    banks [banks]. *)
Definition row_shaped (banks : list pyval) (row : dict) : Prop :=
  (keys row = row_columns CAPITAL_RATIOS \/ keys row = row_columns CAPITAL_RATIOS_ABOVE) /\
  exists bank_name, In bank_name banks /\ dict_get (PStr "Bank") row = Some bank_name.

(** The column [Bank] of a frame, row by row. *)
Definition bank_column (f : BankDataService.frame) : list pyval :=
  map (fun row => BankDataService.cell (snd row) (PStr "Bank")) (BankDataService.rows f).

(** The display names of the nine banks. *)
Definition DISPLAY_NAMES : list pyval := map snd BankDataService.BANK_NAME_MAPPING.

(** A world whose cache file for the first half of 2020 holds [v]. *)
Definition half_year_cache (v : pyval) : world :=
  mkworld 0 (fun _ _ => Timeout)
          (fun p => if String.eqb p (BankDataRepository.get_cache_path "20200101" "20200630")
                    then Json v else Missing)
          (fun _ => WriteOk) 0 (fun _ => Float.of_decimal false 5 (-1)) (fun _ => "").

(** A cached dataset of one bank with thirteen records. *)
Definition one_bank_dataset : pyval :=
  BankDataRepository.dataset
    [(PStr "Truist Bank", PDict [(PStr "NAME", PStr "Truist Bank"); (PStr "CERT", PInt 9846)])]
    [(PStr "Truist Bank", PList (rev (cre_records "2000" "3000")))].

(** A value that is not a dict. *)
Definition not_a_dict (v : pyval) : bool :=
  match v with
  | PDict _ => false
  | _ => true
  end.

(** Two items of a dataset for one bank whose lists hold the same
    records, of distinct report dates, in two orders. *)
Definition rearranged (kv kv' : pyval * pyval) : Prop :=
  fst kv = fst kv' /\
  exists l l' periods,
    snd kv = PList l /\ snd kv' = PList l' /\
    Permutation l periods /\ Permutation l' periods /\ chronological periods = true.


(** The fields of a comma-separated list. *)
Fixpoint split_commas (s : string) (field : string) : list string :=
  match s with
  | EmptyString => [field]
  | String c s' =>
      if Ascii.eqb c ","%char then field :: split_commas s' ""
      else split_commas s' (field ++ String c "")
  end.

(** The fields that the fetch asks the API for. *)
Definition requested_fields : list string :=
  split_commas BankDataRepository.financial_fields "".

(** A row whose cell [Bank] is the key [k], and the number of such rows
    in a table. *)
Definition of_bank (k : pyval) (row : dict) : bool :=
  match dict_get (PStr "Bank") row with
  | Some b => key_eqb b k
  | None => false
  end.

Definition rows_of_bank (k : pyval) (table : list frame_row) : nat :=
  List.length (filter (fun row => of_bank k (snd row)) table).

(** The records that a dataset holds under keys equal to [k]. *)
Definition records_under (k : pyval) (financials_data : dict) : nat :=
  list_sum (map (fun kv => if key_eqb (fst kv) k then record_count (snd kv) else 0%nat)
                financials_data).

(** Three banks with two, no and one record. *)
Definition three_banks : dict :=
  [ (PStr "Truist Bank",
     PList [ PDict [(PStr "REPDTE", PStr "20200630"); (PStr "ASSET", PInt 7)];
             PDict [(PStr "REPDTE", PStr "20200331"); (PStr "ASSET", PInt 5)] ]);
    (PStr "Citibank", PList []);
    (PStr "PNC Bank", PList [ PDict [(PStr "REPDTE", PStr "20200331")] ]) ].

End Shapes.

(** * Properties *)
Lemma odd_part_pos m e : exists p e', odd_part m e = (Zpos p, e').
Proof. revert e; induction m; intros e; simpl; eauto. Qed.

Lemma num_key_num neg m e : exists a b, num_key neg m e = HNum a b.
Proof.
  unfold num_key. destruct (odd_part_pos m e) as (p & e' & ->). eauto.
Qed.

Lemma hash_key_str k s : hash_key k = Ok (Some (HStr s)) -> k = PStr s.
Proof.
  destruct k as [| b | z | f | t | l | d]; simpl; try discriminate.
  - destruct z as [| p | p]; try discriminate;
      [destruct (num_key_num false p 0) as (a & b & ->)
      |destruct (num_key_num true p 0) as (a & b & ->)]; discriminate.
  - destruct f as [s0 | s0 | | s0 m e]; try discriminate.
    destruct (num_key_num s0 m e) as (a & b & ->); discriminate.
  - congruence.
Qed.

Lemma hkey_eqb_eq a b : hkey_eqb a b = true <-> a = b.
Proof.
  destruct a, b; simpl; split; intros H; try discriminate; try reflexivity.
  - apply String.eqb_eq in H. congruence.
  - inversion H. apply String.eqb_refl.
  - apply andb_true_iff in H as [H1 H2]. apply Z.eqb_eq in H1, H2. congruence.
  - inversion H. rewrite !Z.eqb_refl. reflexivity.
  - apply Bool.eqb_prop in H. congruence.
  - inversion H. apply Bool.eqb_reflx.
Qed.

Lemma key_eqb_true a b :
  key_eqb a b = true <-> exists h, hash_key a = Ok (Some h) /\ hash_key b = Ok (Some h).
Proof.
  unfold key_eqb. split.
  - destruct (hash_key a) as [[x|]|]; try discriminate.
    destruct (hash_key b) as [[y|]|]; try discriminate.
    intros H. apply hkey_eqb_eq in H. subst. eauto.
  - intros (h & -> & ->). apply hkey_eqb_eq. reflexivity.
Qed.

Lemma key_eqb_sym a b : key_eqb a b = key_eqb b a.
Proof.
  destruct (key_eqb a b) eqn:E; symmetry.
  - apply key_eqb_true in E as (h & Ha & Hb). apply key_eqb_true. eauto.
  - destruct (key_eqb b a) eqn:E'; [|reflexivity].
    apply key_eqb_true in E' as (h & Ha & Hb).
    rewrite <- E. symmetry. apply key_eqb_true. eauto.
Qed.

Lemma key_eqb_trans a b c : key_eqb a b = true -> key_eqb b c = true -> key_eqb a c = true.
Proof.
  intros H1 H2. apply key_eqb_true in H1 as (h & Ha & Hb).
  apply key_eqb_true in H2 as (h' & Hb' & Hc).
  apply key_eqb_true. exists h. split; [assumption|congruence].
Qed.

Lemma key_eqb_str s t : key_eqb (PStr s) (PStr t) = String.eqb s t.
Proof. reflexivity. Qed.

Lemma dict_get_put_same k v d :
  key_eqb k k = true -> dict_get k (dict_put k v d) = Some v.
Proof.
  intros Hk. induction d as [| [k' v'] d IH]; simpl.
  - rewrite Hk. reflexivity.
  - destruct (key_eqb k k') eqn:E; simpl; rewrite E; auto.
Qed.

Lemma dict_get_put_other k k' v d :
  key_eqb k k' = false -> dict_get k' (dict_put k v d) = dict_get k' d.
Proof.
  intros Hk. induction d as [| [k0 v0] d IH]; simpl.
  - rewrite key_eqb_sym, Hk. reflexivity.
  - destruct (key_eqb k k0) eqn:E; simpl.
    + destruct (key_eqb k' k0) eqn:E'; [|reflexivity].
      rewrite key_eqb_sym in E'.
      rewrite (key_eqb_trans _ _ _ E E') in Hk. discriminate.
    + destruct (key_eqb k' k0); auto.
Qed.

Lemma SFleb_not_gt x y : SFleb x y = true -> SFltb y x = false.
Proof.
  unfold SFleb, SFltb.
  destruct x as [sx | sx | | sx mx ex], y as [sy | sy | | sy my ey]; simpl;
    try discriminate; try reflexivity;
    try (destruct sx; simpl; try discriminate; try reflexivity; fail);
    try (destruct sy; simpl; try discriminate; try reflexivity; fail);
    try (destruct sx, sy; simpl; try discriminate; try reflexivity; fail).
  destruct sx, sy; try discriminate; try reflexivity;
    rewrite (Z.compare_antisym ex ey);
    destruct (ex ?= ey)%Z eqn:E; simpl; try discriminate; try reflexivity;
    pose proof (Pos.compare_cont_antisym mx my Eq) as Ha; simpl in Ha;
    rewrite <- Ha;
    destruct (Pos.compare_cont Eq mx my); simpl; try discriminate; reflexivity.
Qed.

Lemma dict_get_put_str s v d : dict_get (PStr s) (dict_put (PStr s) v d) = Some v.
Proof. apply dict_get_put_same. rewrite key_eqb_str. apply String.eqb_refl. Qed.

Lemma dict_get_put_str_other s t v d :
  String.eqb s t = false ->
  dict_get (PStr t) (dict_put (PStr s) v d) = dict_get (PStr t) d.
Proof. intros H. apply dict_get_put_other. rewrite key_eqb_str. assumption. Qed.

Ltac get_put :=
  repeat first
    [ rewrite dict_get_put_str
    | rewrite dict_get_put_str_other by (vm_compute; reflexivity) ].


(** ** Safe extraction *)

Section Extraction.

Import BankMetricsCalculator Examples.

Lemma existsb_eqb_In x l : existsb (String.eqb x) l = false -> ~ In x l.
Proof.
  intros H Hin. assert (existsb (String.eqb x) l = true) as H'.
  { apply existsb_exists. exists x. split; [assumption | apply String.eqb_refl]. }
  congruence.
Qed.

Lemma distinct_NoDup l : distinct l = true -> NoDup l.
Proof.
  induction l as [| x l IH]; simpl; intros H; constructor;
    apply andb_true_iff in H as [H1 H2].
  - apply existsb_eqb_In. apply negb_true_iff. assumption.
  - auto.
Qed.

(** [safe_float] returns on every value in the range of [float]; it
    yields [0.0] where the conversion raises. *)
Lemma safe_float_ok v :
  in_float_range v = true ->
  exists x, safe_float v = Ok x /\
    (spells_finite v = true -> Float.is_finite x = true) /\
    (forall e, py_float v = Raise e -> x = Float.zero).
Proof.
  destruct v as [| b | z | f | s | l | d]; simpl; intros Hr.
  - exists Float.zero. repeat split; auto.
  - exists (Float.of_Z (if b then 1 else 0)). repeat split.
    + destruct b; reflexivity.
    + discriminate.
  - rewrite Hr. exists (Float.of_Z z). repeat split; auto. discriminate.
  - exists f. repeat split; auto. discriminate.
  - rewrite Hr. destruct (FloatOfString.parse s) as [f|].
    + exists f. repeat split; auto. discriminate.
    + exists Float.zero. repeat split; auto.
  - exists Float.zero. repeat split; auto.
  - exists Float.zero. repeat split; auto.
Qed.

Lemma py_get_raw d code : py_get (PDict d) code = Ok (raw d code).
Proof. reflexivity. Qed.

Lemma extract_items_ok fields d :
  (forall name code, In (name, code) fields -> in_float_range (raw d code) = true) ->
  exists items, extract_items fields (PDict d) = Ok items.
Proof.
  induction fields as [| [name code] fields IH]; intros Hr.
  - exists []. reflexivity.
  - destruct (safe_float_ok (raw d code)) as (x & Hx & _).
    { apply (Hr name). left. reflexivity. }
    destruct IH as (items & Hitems).
    { intros n c Hin. apply (Hr n). right. assumption. }
    exists ((PStr name, PFloat x) :: items).
    cbn [extract_items]. rewrite py_get_raw. cbn [bind].
    rewrite Hx. cbn [bind]. rewrite Hitems. reflexivity.
Qed.

Lemma extract_items_get fields d :
  NoDup (map fst fields) ->
  forall items, extract_items fields (PDict d) = Ok items ->
    (forall name, ~ In name (map fst fields) -> dict_get (PStr name) items = None) /\
    (forall name code, In (name, code) fields ->
       exists x, dict_get (PStr name) items = Some (PFloat x) /\
                 safe_float (raw d code) = Ok x).
Proof.
  induction fields as [| [n c] fields IH]; intros Hnd items Hex.
  - inversion Hex. split; [reflexivity | contradiction].
  - cbn [extract_items] in Hex. rewrite py_get_raw in Hex. cbn [bind] in Hex.
    inversion Hnd as [| ? ? Hnotin Hnd']. subst.
    destruct (safe_float (raw d c)) as [x|] eqn:Hx; [|discriminate].
    cbn [bind] in Hex.
    destruct (extract_items fields (PDict d)) as [rest|] eqn:Hrest; [|discriminate].
    cbn [bind] in Hex. inversion Hex. subst items.
    destruct (IH Hnd' rest eq_refl) as [IHnone IHsome].
    split.
    + intros name Hname. simpl. rewrite key_eqb_str.
      destruct (String.eqb name n) eqn:E.
      * apply String.eqb_eq in E. subst. exfalso. apply Hname. left. reflexivity.
      * apply IHnone. intros Hin. apply Hname. right. assumption.
    + intros name code [Heq | Hin].
      * inversion Heq. subst. exists x. simpl. rewrite key_eqb_str, String.eqb_refl.
        split; [reflexivity | assumption].
      * simpl. rewrite key_eqb_str.
        destruct (String.eqb name n) eqn:E.
        -- apply String.eqb_eq in E. subst. exfalso. apply Hnotin.
           apply (in_map fst) in Hin. assumption.
        -- apply IHsome. assumption.
Qed.

Lemma base_names_distinct : NoDup (map fst BASE_METRICS).
Proof. apply distinct_NoDup. vm_compute. reflexivity. Qed.

Lemma base_name_fresh name code :
  In (name, code) BASE_METRICS -> String.eqb name "Bank" = false /\ String.eqb name "Date" = false.
Proof.
  intros Hin. apply (in_map fst) in Hin. cbn [fst] in Hin.
  split.
  - destruct (String.eqb name "Bank") eqn:E; [|reflexivity].
    apply String.eqb_eq in E. subst name. exfalso. revert Hin.
    apply existsb_eqb_In. vm_compute. reflexivity.
  - destruct (String.eqb name "Date") eqn:E; [|reflexivity].
    apply String.eqb_eq in E. subst name. exfalso. revert Hin.
    apply existsb_eqb_In. vm_compute. reflexivity.
Qed.

(** A row holds each base metric as the float that [safe_float] made of
    the raw field. *)
Lemma extract_basic_metrics_cells bank_name d row :
  _extract_basic_metrics bank_name (PDict d) = Ok row ->
  forall name code, In (name, code) BASE_METRICS ->
    exists x, dict_get (PStr name) row = Some (PFloat x) /\
              safe_float (raw d code) = Ok x.
Proof.
  unfold _extract_basic_metrics. rewrite py_get_raw. cbn [bind].
  destruct (extract_items BASE_METRICS (PDict d)) as [items|] eqn:Hitems;
    cbn [bind]; [|discriminate].
  intros Hrow name code Hin. inversion Hrow. subst row.
  destruct (extract_items_get _ _ base_names_distinct _ Hitems) as [_ Hsome].
  destruct (Hsome name code Hin) as (x & Hget & Hx).
  destruct (base_name_fresh name code Hin) as [Hb Hd].
  exists x. split; [|assumption].
  simpl. rewrite !key_eqb_str, Hb, Hd. assumption.
Qed.

(** C3, as stated, fails: the text [nan] is a float literal, so the
    cell of the field is a NaN. *)
Lemma base_metrics_finite_counterexample :
  ~ base_metrics_finite (PStr "Goldman Sachs Bank USA") nan_record.
Proof.
  intros (row & Hrow & Hall).
  destruct (Hall "Total Assets" "ASSET") as (x & Hget & Hfin).
  { left. reflexivity. }
  vm_compute in Hrow. inversion Hrow. subst row.
  vm_compute in Hget. inversion Hget. subst x. discriminate.
Qed.

(** C3, amended: for every raw record in which no base field holds an
    integer beyond the range of a float or a text with a character
    outside ASCII, base extraction returns a row in which every base
    metric is a float, never the null marker: the value [safe_float]
    gives for the raw field, [0.0] where the conversion raises (absent,
    null, text that is no number, container), and finite unless the raw
    value is itself a NaN or an infinity, as a float or spelt in a
    text. *)
Theorem base_metrics_are_floats (bank_name : pyval) (financial : dict) :
  (forall name code, In (name, code) BASE_METRICS ->
     in_float_range (raw financial code) = true) ->
  exists row,
    _extract_basic_metrics bank_name (PDict financial) = Ok row /\
    forall name code, In (name, code) BASE_METRICS ->
      exists x,
        dict_get (PStr name) row = Some (PFloat x) /\
        safe_float (raw financial code) = Ok x /\
        (forall e, py_float (raw financial code) = Raise e -> x = Float.zero) /\
        (spells_finite (raw financial code) = true -> Float.is_finite x = true).
Proof.
  intros Hr.
  destruct (extract_items_ok BASE_METRICS financial Hr) as (items & Hitems).
  exists ((PStr "Bank", bank_name) :: (PStr "Date", raw financial "REPDTE") :: items).
  assert (_extract_basic_metrics bank_name (PDict financial)
          = Ok ((PStr "Bank", bank_name) :: (PStr "Date", raw financial "REPDTE") :: items))
    as Hrow.
  { unfold _extract_basic_metrics. rewrite py_get_raw. cbn [bind].
    rewrite Hitems. reflexivity. }
  split; [assumption|].
  intros name code Hin.
  destruct (extract_basic_metrics_cells _ _ _ Hrow name code Hin) as (x & Hget & Hx).
  destruct (safe_float_ok (raw financial code) (Hr name code Hin)) as (x' & Hx' & Hfin & Hzero).
  assert (x' = x) by congruence. subst x'.
  exists x. auto.
Qed.

Lemma base_metrics_are_floats_witness :
  exists row,
    _extract_basic_metrics (PStr "Truist Bank") (PDict mixed_record) = Ok row /\
    forall name code, In (name, code) BASE_METRICS ->
      exists x,
        dict_get (PStr name) row = Some (PFloat x) /\
        safe_float (raw mixed_record code) = Ok x /\
        (forall e, py_float (raw mixed_record code) = Raise e -> x = Float.zero) /\
        (spells_finite (raw mixed_record code) = true -> Float.is_finite x = true).
Proof.
  apply (base_metrics_are_floats (PStr "Truist Bank") mixed_record).
  intros name code Hin. cbn [BASE_METRICS In] in Hin.
  repeat (destruct Hin as [Hin | Hin]; [inversion Hin; reflexivity |]).
  contradiction.
Defined.

End Extraction.

(** ** Capital base and capital ratios *)

Section Capital.

Import BankMetricsCalculator Examples.

Lemma metric_float metrics name x :
  dict_get (PStr name) metrics = Some (PFloat x) -> metric metrics name = Ok x.
Proof. unfold metric. intros ->. reflexivity. Qed.

(** C4: when the five cells of the capital base are floats and the
    report date [REPDTE] is a calendar date in the form YYYYMMDD, then
    from 1 January 2019 on the transition amount is
    [ct1badj - eq + eqpp] and the capital base
    [tier1 + acl - transition amount]; before that date the transition
    amount is [0] and the capital base [tier1 + acl], whatever the three
    inputs are.  With 100, 90 and 5 the amount is 15. *)
Theorem capital_base_by_date (metrics : dict) (financial : pyval) (s : string) (d : date)
    (ct1badj eq eqpp tier1 acl : float) :
  dict_get (PStr "Common Equity Tier 1 Before Adjustments") metrics = Some (PFloat ct1badj) ->
  dict_get (PStr "Bank Equity Capital") metrics = Some (PFloat eq) ->
  dict_get (PStr "Perpetual Preferred Stock") metrics = Some (PFloat eqpp) ->
  dict_get (PStr "Tier 1 (Core) Capital") metrics = Some (PFloat tier1) ->
  dict_get (PStr "Allowance for Credit Loss") metrics = Some (PFloat acl) ->
  py_get financial "REPDTE" = Ok (PStr s) ->
  parse_yyyymmdd s = Some d ->
  (date_leb CECL_EFFECTIVE d = true ->
     _calculate_capital_base metrics financial =
       Ok (PFloat (Float.add (Float.sub ct1badj eq) eqpp),
           Float.sub (Float.add tier1 acl) (Float.add (Float.sub ct1badj eq) eqpp)))
  /\ (date_ltb d CECL_EFFECTIVE = true ->
     _calculate_capital_base metrics financial = Ok (PInt 0, Float.add tier1 acl))
  /\ Float.add (Float.sub (Float.of_Z 100) (Float.of_Z 90)) (Float.of_Z 5) = Float.of_Z 15.
Proof.
  intros H1 H2 H3 H4 H5 Hraw Hd.
  assert (forall b, date_leb CECL_EFFECTIVE d = b ->
            _calculate_capital_base metrics financial =
              if b then Ok (PFloat (Float.add (Float.sub ct1badj eq) eqpp),
                            Float.sub (Float.add tier1 acl)
                                      (Float.add (Float.sub ct1badj eq) eqpp))
              else Ok (PInt 0, Float.add tier1 acl)) as Hrun.
  { intros b Hb. unfold _calculate_capital_base.
    rewrite (metric_float _ _ _ H1), (metric_float _ _ _ H2), (metric_float _ _ _ H3),
      (metric_float _ _ _ H4), (metric_float _ _ _ H5).
    cbn [bind]. rewrite Hraw. cbn [bind to_datetime]. rewrite Hd. cbn [bind].
    rewrite Hb. destruct b; reflexivity. }
  split; [|split].
  - intros Hle. apply (Hrun true Hle).
  - intros Hlt. apply (Hrun false).
    unfold date_leb, date_ltb in *. apply Z.leb_gt. apply Z.ltb_lt. assumption.
  - vm_compute. reflexivity.
Qed.

Lemma capital_base_by_date_witness :
  _calculate_capital_base
    (capital_cells (Float.of_Z 100) (Float.of_Z 90) (Float.of_Z 5)
                   (Float.of_Z 2000000) (Float.of_Z 30000))
    (PDict [(PStr "REPDTE", PStr "20190331")])
  = Ok (PFloat (Float.of_Z 15), Float.of_Z 2029985)
  /\
  _calculate_capital_base
    (capital_cells (Float.of_Z 100) (Float.of_Z 90) (Float.of_Z 5)
                   (Float.of_Z 2000000) (Float.of_Z 30000))
    (PDict [(PStr "REPDTE", PStr "20181231")])
  = Ok (PInt 0, Float.of_Z 2030000).
Proof.
  split.
  - apply (proj1 (capital_base_by_date
      (capital_cells (Float.of_Z 100) (Float.of_Z 90) (Float.of_Z 5)
                     (Float.of_Z 2000000) (Float.of_Z 30000))
      (PDict [(PStr "REPDTE", PStr "20190331")]) "20190331" (mkdate 2019 3 31)
      (Float.of_Z 100) (Float.of_Z 90) (Float.of_Z 5) (Float.of_Z 2000000) (Float.of_Z 30000)
      eq_refl eq_refl eq_refl eq_refl eq_refl eq_refl eq_refl)).
    reflexivity.
  - apply (proj1 (proj2 (capital_base_by_date
      (capital_cells (Float.of_Z 100) (Float.of_Z 90) (Float.of_Z 5)
                     (Float.of_Z 2000000) (Float.of_Z 30000))
      (PDict [(PStr "REPDTE", PStr "20181231")]) "20181231" (mkdate 2018 12 31)
      (Float.of_Z 100) (Float.of_Z 90) (Float.of_Z 5) (Float.of_Z 2000000) (Float.of_Z 30000)
      eq_refl eq_refl eq_refl eq_refl eq_refl eq_refl eq_refl))).
    reflexivity.
Defined.

Lemma leb_not_gtb x y : Float.leb x y = true -> Float.gtb x y = false.
Proof. apply SFleb_not_gt. Qed.

(** C5: when the capital base is at most 1,000,000 the five capital
    ratios and the commercial real estate ratio are all the null marker
    [None], which is neither zero nor a NaN; when it is above, each is
    [(numerator / capital_base) * 100], the numerator of the commercial
    real estate ratio being the sum of its four loan categories. *)
Theorem capital_ratios_floor (metrics : dict) (capital_base : float) :
  (Float.leb capital_base CAPITAL_FLOOR = true ->
     exists metrics',
       _calculate_capital_ratios metrics capital_base = Ok metrics' /\
       forall name, In name CAPITAL_RATIOS ->
         dict_get (PStr name) metrics' = Some PNone)
  /\
  (Float.gtb capital_base CAPITAL_FLOOR = true ->
     forall re recons mf nonres comre ci ag cc : float,
       dict_get (PStr "Real Estate Loans") metrics = Some (PFloat re) ->
       dict_get (PStr "RE Construction and Land Development") metrics = Some (PFloat recons) ->
       dict_get (PStr "Multifamily") metrics = Some (PFloat mf) ->
       dict_get (PStr "Loans to Nonresidential Properties") metrics = Some (PFloat nonres) ->
       dict_get (PStr "Commercial Real Estate Loans not Secured by Real Estate") metrics
         = Some (PFloat comre) ->
       dict_get (PStr "Commercial and Industrial Loans") metrics = Some (PFloat ci) ->
       dict_get (PStr "Agriculture Loans") metrics = Some (PFloat ag) ->
       dict_get (PStr "Credit Cards") metrics = Some (PFloat cc) ->
       exists metrics',
         _calculate_capital_ratios metrics capital_base = Ok metrics' /\
         dict_get (PStr "Real Estate Loans to Tier 1 + ACL") metrics'
           = Some (PFloat (pct re capital_base)) /\
         dict_get (PStr "RE Construction and Land Development to Tier 1 + ACL") metrics'
           = Some (PFloat (pct recons capital_base)) /\
         dict_get (PStr "C&I Loans to Tier 1 + ACL") metrics'
           = Some (PFloat (pct ci capital_base)) /\
         dict_get (PStr "Agriculture Loans to Tier 1 + ACL") metrics'
           = Some (PFloat (pct ag capital_base)) /\
         dict_get (PStr "Credit Cards to Tier 1 + ACL") metrics'
           = Some (PFloat (pct cc capital_base)) /\
         dict_get (PStr "Commercial RE to Tier 1 + ACL") metrics'
           = Some (PFloat (pct (Float.add (Float.add (Float.add recons mf) nonres) comre)
                               capital_base))).
Proof.
  split.
  - intros Hle. unfold _calculate_capital_ratios.
    rewrite (leb_not_gtb _ _ Hle).
    eexists. split; [reflexivity|].
    intros name Hin. cbn [CAPITAL_RATIOS In] in Hin. cbn [fold_left CAPITAL_RATIOS].
    repeat (destruct Hin as [Hin | Hin]; [subst name; get_put; reflexivity |]).
    contradiction.
  - intros Hgt re recons mf nonres comre ci ag cc Hre Hrecons Hmf Hnonres Hcomre Hci Hag Hcc.
    unfold _calculate_capital_ratios. rewrite Hgt.
    unfold metric. get_put.
    rewrite Hre. cbn [bind]. get_put.
    rewrite Hrecons. cbn [bind]. get_put.
    rewrite Hci. cbn [bind]. get_put.
    rewrite Hag. cbn [bind]. get_put.
    rewrite Hcc. cbn [bind]. get_put.
    rewrite Hrecons, Hmf, Hnonres, Hcomre. cbn [bind].
    eexists. split; [reflexivity|].
    repeat split; get_put; reflexivity.
Qed.

Lemma capital_ratios_floor_witness :
  (exists metrics',
     _calculate_capital_ratios
       (loan_cells (Float.of_Z 500) (Float.of_Z 100) (Float.of_Z 50) (Float.of_Z 25)
                   (Float.of_Z 25) (Float.of_Z 300) (Float.of_Z 10) (Float.of_Z 40))
       (Float.of_Z 1000000) = Ok metrics' /\
     forall name, In name CAPITAL_RATIOS -> dict_get (PStr name) metrics' = Some PNone)
  /\
  (exists metrics',
     _calculate_capital_ratios
       (loan_cells (Float.of_Z 500) (Float.of_Z 100) (Float.of_Z 50) (Float.of_Z 25)
                   (Float.of_Z 25) (Float.of_Z 300) (Float.of_Z 10) (Float.of_Z 40))
       (Float.of_Z 2000000) = Ok metrics' /\
     dict_get (PStr "Real Estate Loans to Tier 1 + ACL") metrics'
       = Some (PFloat (Float.of_decimal false 25 (-3))) /\
     dict_get (PStr "Commercial RE to Tier 1 + ACL") metrics'
       = Some (PFloat (Float.of_decimal false 1 (-2)))).
Proof.
  split.
  - apply (proj1 (capital_ratios_floor _ (Float.of_Z 1000000))). reflexivity.
  - destruct (proj2 (capital_ratios_floor
        (loan_cells (Float.of_Z 500) (Float.of_Z 100) (Float.of_Z 50) (Float.of_Z 25)
                    (Float.of_Z 25) (Float.of_Z 300) (Float.of_Z 10) (Float.of_Z 40))
        (Float.of_Z 2000000)) eq_refl
        (Float.of_Z 500) (Float.of_Z 100) (Float.of_Z 50) (Float.of_Z 25)
        (Float.of_Z 25) (Float.of_Z 300) (Float.of_Z 10) (Float.of_Z 40)
        eq_refl eq_refl eq_refl eq_refl eq_refl eq_refl eq_refl eq_refl)
      as (m & Hm & Hre & _ & _ & _ & _ & Hcre).
    exists m. repeat split; assumption.
Defined.

End Capital.

(** ** Sorting and report dates *)

Section Chronology.

Import BankMetricsCalculator Examples.

Lemma sort_by_ascending {K A} (ltb : K -> K -> bool) (l : list (K * A)) :
  ascending ltb l -> sort_by ltb l = l.
Proof.
  induction l as [| x l IH]; [reflexivity|].
  intros Hasc. cbn [sort_by].
  destruct l as [| y l']; [reflexivity|].
  destruct Hasc as [Hxy Hasc]. rewrite (IH Hasc).
  cbn [insert_by]. rewrite Hxy. reflexivity.
Qed.

Lemma digits_value_bound cs :
  forallb FloatOfString.is_digit cs = true ->
  forall acc, acc * 10 ^ Z.of_nat (List.length cs) <= digits_value acc cs
              < (acc + 1) * 10 ^ Z.of_nat (List.length cs).
Proof.
  induction cs as [| c cs IH]; intros Hd acc.
  - cbn. lia.
  - cbn [forallb] in Hd. apply andb_true_iff in Hd as [Hc Hcs].
    cbn [digits_value fold_left List.length]. fold (digits_value (10 * acc + FloatOfString.digit_val c) cs).
    specialize (IH Hcs (10 * acc + FloatOfString.digit_val c)).
    assert (0 <= FloatOfString.digit_val c <= 9) as Hv.
    { unfold FloatOfString.is_digit in Hc. unfold FloatOfString.digit_val.
      apply andb_true_iff in Hc as [H1 H2].
      apply Nat.leb_le in H1, H2. lia. }
    rewrite Nat2Z.inj_succ, Z.pow_succ_r by lia.
    assert (0 < 10 ^ Z.of_nat (List.length cs)) by (apply Z.pow_pos_nonneg; lia).
    nia.
Qed.

Lemma ascii_compare_lt c d :
  Ascii.compare c d = Lt -> FloatOfString.digit_val c < FloatOfString.digit_val d.
Proof.
  unfold Ascii.compare, FloatOfString.digit_val, nat_of_ascii. intros H.
  rewrite Nnat.N2Nat.inj_compare in H. apply Nat.compare_lt_iff in H. lia.
Qed.

(** On texts of digits of one length, the order of texts is the order of
    the numbers. *)
Lemma compare_digits_lt s : forall t acc,
  List.length (list_ascii_of_string s) = List.length (list_ascii_of_string t) ->
  forallb FloatOfString.is_digit (list_ascii_of_string s) = true ->
  forallb FloatOfString.is_digit (list_ascii_of_string t) = true ->
  String.compare s t = Lt ->
  digits_value acc (list_ascii_of_string s) < digits_value acc (list_ascii_of_string t).
Proof.
  induction s as [| c s IH]; intros [| d t] acc Hlen Hs Ht Hcmp;
    try discriminate.
  cbn [list_ascii_of_string forallb List.length] in *. injection Hlen as Hlen.
  apply andb_true_iff in Hs as [Hc Hs]. apply andb_true_iff in Ht as [Hd Ht].
  cbn [String.compare] in Hcmp.
  cbn [digits_value fold_left].
  fold (digits_value (10 * acc + FloatOfString.digit_val c) (list_ascii_of_string s)).
  fold (digits_value (10 * acc + FloatOfString.digit_val d) (list_ascii_of_string t)).
  destruct (Ascii.compare c d) eqn:E; try discriminate.
  - apply Ascii.compare_eq_iff in E. subst d. apply IH; assumption.
  - apply ascii_compare_lt in E.
    pose proof (digits_value_bound _ Hs (10 * acc + FloatOfString.digit_val c)) as B1.
    pose proof (digits_value_bound _ Ht (10 * acc + FloatOfString.digit_val d)) as B2.
    rewrite Hlen in B1.
    assert (0 < 10 ^ Z.of_nat (List.length (list_ascii_of_string t)))
      by (apply Z.pow_pos_nonneg; lia).
    nia.
Qed.

(** A parsed report date is the number its text writes. *)
Lemma parse_yyyymmdd_ord s d :
  parse_yyyymmdd s = Some d ->
  List.length (list_ascii_of_string s) = 8%nat /\
  forallb FloatOfString.is_digit (list_ascii_of_string s) = true /\
  date_ord d = digits_value 0 (list_ascii_of_string s).
Proof.
  unfold parse_yyyymmdd. fold (digits_value 0 (list_ascii_of_string s)).
  set (n := digits_value 0 (list_ascii_of_string s)).
  destruct (List.length (list_ascii_of_string s) =? 8)%nat eqn:Hlen; [|discriminate].
  destruct (forallb FloatOfString.is_digit (list_ascii_of_string s)) eqn:Hdig; [|discriminate].
  cbn [andb].
  match goal with |- (if ?c then _ else _) = _ -> _ => destruct c; [|discriminate] end.
  intros H. inversion H. subst d. clear H.
  apply Nat.eqb_eq in Hlen. repeat split; try assumption.
  unfold date_ord. cbn [year month day].
  pose proof (Z.div_mod n 100 ltac:(lia)) as H1.
  pose proof (Z.div_mod (n / 100) 100 ltac:(lia)) as H2.
  replace (n / 10000) with (n / 100 / 100) by (rewrite Z.div_div by lia; reflexivity).
  lia.
Qed.

(** Later dates have later texts. *)
Lemma later_date_later_text s t d e :
  parse_yyyymmdd s = Some d -> parse_yyyymmdd t = Some e ->
  date_ltb d e = true -> String.ltb t s = false.
Proof.
  intros Hs Ht Hlt.
  destruct (parse_yyyymmdd_ord _ _ Hs) as (Ls & Ds & Os).
  destruct (parse_yyyymmdd_ord _ _ Ht) as (Lt' & Dt & Ot).
  unfold String.ltb. destruct (String.compare t s) eqn:E; try reflexivity.
  exfalso.
  pose proof (compare_digits_lt t s 0 ltac:(congruence) Dt Ds E) as H.
  unfold date_ltb in Hlt. apply Z.ltb_lt in Hlt. lia.
Qed.

(** On date texts the order of texts is the order of dates. *)
Lemma ltb_texts_dates s t d e :
  parse_yyyymmdd s = Some d -> parse_yyyymmdd t = Some e ->
  String.ltb s t = (date_ord d <? date_ord e).
Proof.
  intros Hs Ht.
  destruct (parse_yyyymmdd_ord _ _ Hs) as (Ls & Ds & Os).
  destruct (parse_yyyymmdd_ord _ _ Ht) as (Lt' & Dt & Ot).
  rewrite Os, Ot. unfold String.ltb.
  destruct (String.compare s t) eqn:E; symmetry.
  - apply String.compare_eq_iff in E. subst t. apply Z.ltb_irrefl.
  - apply Z.ltb_lt. apply compare_digits_lt; try assumption. congruence.
  - apply Z.ltb_ge. apply Z.lt_le_incl.
    apply compare_digits_lt; try assumption; [congruence|].
    rewrite String.compare_antisym, E. reflexivity.
Qed.

(** The stable sort puts a list whose keys are distinct in the one order
    in which the keys increase. *)
Lemma increasing_app_inv {X} (mu : X -> Z) (a : list X) : forall x b,
  increasing mu (a ++ x :: b) ->
  Forall (fun y => mu y < mu x) a /\ Forall (fun y => mu x < mu y) b /\
  increasing mu (a ++ b).
Proof.
  induction a as [| y a IH]; intros x b H; cbn [app increasing] in *.
  - destruct H as [H1 H2]. repeat split; [constructor | assumption | assumption].
  - destruct H as [H1 H2]. destruct (IH x b H2) as (Ha & Hb & Hab).
    apply Forall_app in H1 as [H1a H1b]. inversion H1b as [| ? ? Hyx Hyb]. subst.
    repeat split.
    + constructor; assumption.
    + assumption.
    + apply Forall_app. split; assumption.
    + assumption.
Qed.

Lemma insert_by_increasing {K A} (ltb : K -> K -> bool) (mu : K -> Z)
    (x : K * A) (a : list (K * A)) : forall b,
  (forall y, In y a \/ In y b -> ltb (fst y) (fst x) = (mu (fst y) <? mu (fst x))) ->
  Forall (fun y => mu (fst y) < mu (fst x)) a ->
  Forall (fun y => mu (fst x) < mu (fst y)) b ->
  insert_by ltb x (a ++ b) = (a ++ x :: b)%list.
Proof.
  induction a as [| y a IH]; intros b Hagree Ha Hb; cbn [app].
  - destruct b as [| y b]; [reflexivity|]. cbn [insert_by].
    rewrite (Hagree y) by (right; left; reflexivity).
    inversion Hb as [| ? ? Hy _]. subst.
    destruct (mu (fst y) <? mu (fst x)) eqn:E; [apply Z.ltb_lt in E; lia | reflexivity].
  - cbn [insert_by]. rewrite (Hagree y) by (left; left; reflexivity).
    inversion Ha as [| ? ? Hy Ha']. subst.
    apply Z.ltb_lt in Hy. rewrite Hy. f_equal.
    apply IH; try assumption.
    intros z [Hz | Hz]; apply Hagree; [left; right; assumption | right; assumption].
Qed.

Lemma sort_by_permutation {K A} (ltb : K -> K -> bool) (mu : K -> Z)
    (l : list (K * A)) : forall l',
  Permutation l l' ->
  increasing (fun x => mu (fst x)) l' ->
  (forall x y, In x l' -> In y l' -> ltb (fst x) (fst y) = (mu (fst x) <? mu (fst y))) ->
  sort_by ltb l = l'.
Proof.
  induction l as [| x l IH]; intros l' Hperm Hinc Hagree.
  - apply Permutation_nil in Hperm. subst. reflexivity.
  - assert (In x l') as Hin by (apply (Permutation_in _ Hperm); left; reflexivity).
    apply in_split in Hin as (a & b & ->).
    apply Permutation_cons_app_inv in Hperm.
    destruct (increasing_app_inv _ a x b Hinc) as (Ha & Hb & Hab).
    cbn [sort_by]. rewrite (IH (a ++ b)%list Hperm Hab).
    + apply (insert_by_increasing ltb mu); try assumption.
      intros y Hy. apply Hagree.
      * apply in_or_app. destruct Hy; [left; assumption | right; right; assumption].
      * apply in_or_app. right. left. reflexivity.
    + intros y z Hy Hz. apply Hagree; apply in_or_app.
      * apply in_app_or in Hy. destruct Hy; [left | right; right]; assumption.
      * apply in_app_or in Hz. destruct Hz; [left | right; right]; assumption.
Qed.

Lemma date_ltb_asym d e : date_ltb d e = true -> date_ltb e d = false.
Proof. unfold date_ltb. intros H. apply Z.ltb_lt in H. apply Z.ltb_ge. lia. Qed.

End Chronology.

(** ** One row of the metrics table *)

Section Rows.

Import BankMetricsCalculator Examples.

Lemma convertible_fields d name code :
  convertible (PDict d) = true -> In (name, code) BASE_METRICS ->
  in_float_range (raw d code) = true.
Proof.
  cbn [convertible]. intros H Hin.
  rewrite forallb_forall in H. apply (H (name, code) Hin).
Qed.

Lemma non_owner_occupied_ok d :
  convertible (PDict d) = true -> exists x, non_owner_occupied (PDict d) = Ok x.
Proof.
  intros Hc. unfold non_owner_occupied. rewrite !py_get_raw. cbn [bind].
  destruct (safe_float_ok (raw d "LNRECONS")) as (a & -> & _).
  { apply (convertible_fields d "RE Construction and Land Development" _ Hc).
    cbn. tauto. }
  destruct (safe_float_ok (raw d "LNREMULT")) as (b & -> & _).
  { apply (convertible_fields d "Multifamily" _ Hc). cbn. tauto. }
  destruct (safe_float_ok (raw d "LNRENROT")) as (c & -> & _).
  { apply (convertible_fields d "Non-OOC Nonresidential Properties Loans" _ Hc).
    cbn. tauto. }
  destruct (safe_float_ok (raw d "LNCOMRE")) as (e & -> & _).
  { apply (convertible_fields d
             "Commercial Real Estate Loans not Secured by Real Estate" _ Hc).
    cbn. tauto. }
  cbn [bind]. eauto.
Qed.

Lemma cre_growth_rate_early metrics sorted_financials i current c :
  (i < 12)%nat -> non_owner_occupied current = Ok c ->
  _calculate_cre_growth_rate metrics sorted_financials i current
  = Ok (dict_put (PStr GROWTH_RATE) PNone metrics).
Proof.
  intros Hi Hc. unfold _calculate_cre_growth_rate. rewrite Hc. cbn [bind].
  destruct (12 <=? i)%nat eqn:E; [apply Nat.leb_le in E; lia | reflexivity].
Qed.

Lemma cre_growth_rate_late metrics sorted_financials i current old c o :
  (12 <= i)%nat -> nth_error sorted_financials (i - 12) = Some old ->
  non_owner_occupied current = Ok c -> non_owner_occupied old = Ok o ->
  _calculate_cre_growth_rate metrics sorted_financials i current
  = Ok (dict_put (PStr GROWTH_RATE) (growth_value c o) metrics).
Proof.
  intros Hi Hold Hc Ho. unfold _calculate_cre_growth_rate. rewrite Hc. cbn [bind].
  apply Nat.leb_le in Hi. rewrite Hi, Hold, Ho. cbn [bind].
  unfold growth_value. destruct (Float.gtb o GROWTH_FLOOR); reflexivity.
Qed.

Lemma capital_base_total metrics d s dte ct1badj eq eqpp tier1 acl :
  dict_get (PStr "Common Equity Tier 1 Before Adjustments") metrics = Some (PFloat ct1badj) ->
  dict_get (PStr "Bank Equity Capital") metrics = Some (PFloat eq) ->
  dict_get (PStr "Perpetual Preferred Stock") metrics = Some (PFloat eqpp) ->
  dict_get (PStr "Tier 1 (Core) Capital") metrics = Some (PFloat tier1) ->
  dict_get (PStr "Allowance for Credit Loss") metrics = Some (PFloat acl) ->
  raw d "REPDTE" = PStr s -> parse_yyyymmdd s = Some dte ->
  exists cecl cb, _calculate_capital_base metrics (PDict d) = Ok (cecl, cb).
Proof.
  intros H1 H2 H3 H4 H5 Hraw Hd. unfold _calculate_capital_base.
  rewrite (metric_float _ _ _ H1), (metric_float _ _ _ H2), (metric_float _ _ _ H3),
    (metric_float _ _ _ H4), (metric_float _ _ _ H5).
  cbn [bind]. rewrite py_get_raw, Hraw. cbn [bind to_datetime]. rewrite Hd. cbn [bind].
  destruct (date_leb CECL_EFFECTIVE dte); eauto.
Qed.

(** The capital ratios are computed whenever the loan cells are floats,
    and leave the cells of other names as they are. *)
Lemma capital_ratios_total metrics cb re recons mf nonres comre ci ag cc :
  dict_get (PStr "Real Estate Loans") metrics = Some (PFloat re) ->
  dict_get (PStr "RE Construction and Land Development") metrics = Some (PFloat recons) ->
  dict_get (PStr "Multifamily") metrics = Some (PFloat mf) ->
  dict_get (PStr "Loans to Nonresidential Properties") metrics = Some (PFloat nonres) ->
  dict_get (PStr "Commercial Real Estate Loans not Secured by Real Estate") metrics
    = Some (PFloat comre) ->
  dict_get (PStr "Commercial and Industrial Loans") metrics = Some (PFloat ci) ->
  dict_get (PStr "Agriculture Loans") metrics = Some (PFloat ag) ->
  dict_get (PStr "Credit Cards") metrics = Some (PFloat cc) ->
  exists metrics',
    _calculate_capital_ratios metrics cb = Ok metrics' /\
    forall name, existsb (String.eqb name) CAPITAL_RATIOS = false ->
      dict_get (PStr name) metrics' = dict_get (PStr name) metrics.
Proof.
  intros Hre Hrecons Hmf Hnonres Hcomre Hci Hag Hcc.
  assert (forall name v m, existsb (String.eqb name) CAPITAL_RATIOS = false ->
            forall r, In r CAPITAL_RATIOS ->
              dict_get (PStr name) (dict_put (PStr r) v m) = dict_get (PStr name) m) as Hframe.
  { intros name v m Hname r Hr. apply dict_get_put_str_other.
    destruct (String.eqb r name) eqn:E; [|reflexivity].
    apply String.eqb_eq in E. subst r. exfalso. revert Hr. apply existsb_eqb_In.
    assumption. }
  unfold _calculate_capital_ratios.
  destruct (Float.gtb cb CAPITAL_FLOOR).
  - unfold metric. get_put.
    rewrite Hre. cbn [bind]. get_put.
    rewrite Hrecons. cbn [bind]. get_put.
    rewrite Hci. cbn [bind]. get_put.
    rewrite Hag. cbn [bind]. get_put.
    rewrite Hcc. cbn [bind]. get_put.
    rewrite Hrecons, Hmf, Hnonres, Hcomre. cbn [bind].
    eexists. split; [reflexivity|].
    intros name Hname.
    rewrite !Hframe by (assumption || (cbn; tauto)). reflexivity.
  - eexists. split; [reflexivity|].
    intros name Hname. cbn [fold_left CAPITAL_RATIOS].
    rewrite !Hframe by (assumption || (cbn; tauto)). reflexivity.
Qed.

Lemma in_base name code :
  existsb (fun nc => String.eqb (fst nc) name && String.eqb (snd nc) code) BASE_METRICS = true ->
  In (name, code) BASE_METRICS.
Proof.
  intros H. apply existsb_exists in H as ([n c] & Hin & Heq).
  apply andb_true_iff in Heq as [H1 H2]. cbn [fst snd] in *.
  apply String.eqb_eq in H1, H2. subst. assumption.
Qed.

Ltac base_field := apply in_base; vm_compute; reflexivity.

(** Up to the growth rate, the row of a convertible record with a report
    date is computed without an exception. *)
Lemma metrics_row_shape bank_name d s dte :
  convertible (PDict d) = true ->
  raw d "REPDTE" = PStr s -> parse_yyyymmdd s = Some dte ->
  exists m acl nco,
    dict_get (PStr "Date") m = Some (PStr s) /\
    dict_get (PStr "Allowance for Credit Loss") m = Some (PFloat acl) /\
    dict_get (PStr "Total Loans and Leases Net Charge-Offs Quarterly") m
      = Some (PFloat nco) /\
    forall sorted_financials i,
      metrics_row bank_name sorted_financials i (PDict d) =
      bind (_calculate_cre_growth_rate m sorted_financials i (PDict d))
           _calculate_charge_off_metrics.
Proof.
  intros Hc Hraw Hd.
  assert (forall name code, In (name, code) BASE_METRICS ->
            in_float_range (raw d code) = true) as Hr.
  { intros name code. apply convertible_fields. assumption. }
  destruct (extract_items_ok BASE_METRICS d Hr) as (items & Hitems).
  set (row0 := (PStr "Bank", bank_name) :: (PStr "Date", raw d "REPDTE") :: items).
  assert (_extract_basic_metrics bank_name (PDict d) = Ok row0) as Hrow0.
  { unfold _extract_basic_metrics. rewrite py_get_raw. cbn [bind].
    rewrite Hitems. reflexivity. }
  pose proof (extract_basic_metrics_cells _ _ _ Hrow0) as Hcell.
  destruct (Hcell "Common Equity Tier 1 Before Adjustments" "CT1BADJ") as (ct1badj & C1 & _);
    [base_field|].
  destruct (Hcell "Bank Equity Capital" "EQ") as (eq & C2 & _); [base_field|].
  destruct (Hcell "Perpetual Preferred Stock" "EQPP") as (eqpp & C3 & _); [base_field|].
  destruct (Hcell "Tier 1 (Core) Capital" "RBCT1J") as (tier1 & C4 & _); [base_field|].
  destruct (Hcell "Allowance for Credit Loss" "LNATRES") as (acl & C5 & _); [base_field|].
  destruct (Hcell "Total Loans and Leases Net Charge-Offs Quarterly" "NTLNLSQ")
    as (nco & C6 & _); [base_field|].
  destruct (Hcell "Real Estate Loans" "LNRE") as (re & L1 & _); [base_field|].
  destruct (Hcell "RE Construction and Land Development" "LNRECONS")
    as (recons & L2 & _); [base_field|].
  destruct (Hcell "Multifamily" "LNREMULT") as (mf & L3 & _); [base_field|].
  destruct (Hcell "Loans to Nonresidential Properties" "LNRENRES")
    as (nonres & L4 & _); [base_field|].
  destruct (Hcell "Commercial Real Estate Loans not Secured by Real Estate" "LNCOMRE")
    as (comre & L5 & _); [base_field|].
  destruct (Hcell "Commercial and Industrial Loans" "LNCI") as (ci & L6 & _); [base_field|].
  destruct (Hcell "Agriculture Loans" "LNAG") as (ag & L7 & _); [base_field|].
  destruct (Hcell "Credit Cards" "LNCRCD") as (cc & L8 & _); [base_field|].
  assert (dict_get (PStr "Date") row0 = Some (PStr s)) as HDate.
  { unfold row0. cbn [dict_get]. rewrite !key_eqb_str. cbn. rewrite Hraw. reflexivity. }
  destruct (capital_base_total row0 d s dte _ _ _ _ _ C1 C2 C3 C4 C5 Hraw Hd)
    as (cecl & cb & Hcb).
  set (m1 := dict_put (PStr "CECL Transition Amount") cecl row0).
  destruct (capital_ratios_total m1 cb re recons mf nonres comre ci ag cc)
    as (m2 & Hm2 & Hframe);
    try (unfold m1; get_put; assumption).
  exists m2, acl, nco. repeat split.
  - rewrite Hframe by (vm_compute; reflexivity). unfold m1. get_put. assumption.
  - rewrite Hframe by (vm_compute; reflexivity). unfold m1. get_put. assumption.
  - rewrite Hframe by (vm_compute; reflexivity). unfold m1. get_put. assumption.
  - intros sorted_financials i. unfold metrics_row.
    rewrite Hrow0. cbn [bind]. rewrite Hcb. cbn [bind]. fold m1.
    rewrite Hm2. cbn [bind]. reflexivity.
Qed.

Lemma charge_off_total m acl nco :
  dict_get (PStr "Allowance for Credit Loss") m = Some (PFloat acl) ->
  dict_get (PStr "Total Loans and Leases Net Charge-Offs Quarterly") m = Some (PFloat nco) ->
  exists v,
    _calculate_charge_off_metrics m
    = Ok (dict_put (PStr "Net Charge-Offs / Allowance for Credit Loss") v m).
Proof.
  intros Ha Hn. unfold _calculate_charge_off_metrics, metric.
  rewrite Ha. cbn [bind]. destruct (Float.gtb acl (Float.of_Z 1000)).
  - rewrite Hn. cbn [bind]. eauto.
  - eauto.
Qed.

(** The row of a record: its date cell is the text of [REPDTE], its
    growth cell what the growth step stores. *)
Lemma metrics_row_spec bank_name d s dte sorted_financials i g :
  convertible (PDict d) = true ->
  raw d "REPDTE" = PStr s -> parse_yyyymmdd s = Some dte ->
  (forall m, _calculate_cre_growth_rate m sorted_financials i (PDict d)
             = Ok (dict_put (PStr GROWTH_RATE) g m)) ->
  exists row,
    metrics_row bank_name sorted_financials i (PDict d) = Ok row /\
    dict_get (PStr "Date") row = Some (PStr s) /\
    dict_get (PStr GROWTH_RATE) row = Some g.
Proof.
  intros Hc Hraw Hd Hg.
  destruct (metrics_row_shape bank_name d s dte Hc Hraw Hd)
    as (m & acl & nco & HDate & Hacl & Hnco & Hrow).
  destruct (charge_off_total (dict_put (PStr GROWTH_RATE) g m) acl nco) as (v & Hv);
    try (get_put; assumption).
  eexists. rewrite Hrow, Hg. cbn [bind]. rewrite Hv.
  split; [reflexivity|]. split; get_put; [assumption | reflexivity].
Qed.

End Rows.

(** ** The rows of one bank *)

Section BankRows.

Import BankMetricsCalculator Examples.

Lemma record_date_inv r dte :
  record_date r = Some dte ->
  exists d s,
    r = PDict d /\ raw d "REPDTE" = PStr s /\ parse_yyyymmdd s = Some dte /\
    text_of r = s /\ date_of r = dte /\ py_getitem r "REPDTE" = Ok (PStr s).
Proof.
  intros H. assert (date_of r = dte) as Hdate by (unfold date_of; rewrite H; reflexivity).
  revert H Hdate. unfold record_date, text_of.
  destruct r as [| | | | | | d]; try discriminate.
  rewrite py_get_raw. unfold raw, py_getitem.
  destruct (dict_get (PStr "REPDTE") d) as [v|] eqn:E; try discriminate.
  destruct v as [| | | | s | |]; try discriminate.
  intros H Hdate. exists d, s. unfold raw. rewrite E.
  repeat split; try reflexivity; assumption.
Qed.

Lemma convertible_dict r : convertible r = true -> exists d, r = PDict d.
Proof. destruct r; try discriminate. eauto. Qed.

Lemma chronological_cons r l :
  chronological (r :: l) = true ->
  exists dte,
    record_date r = Some dte /\ chronological l = true /\
    match l with
    | [] => True
    | r' :: _ => exists dte', record_date r' = Some dte' /\ date_ltb dte dte' = true
    end.
Proof.
  cbn [chronological]. destruct (record_date r) as [dte|]; [|discriminate].
  intros H. apply andb_true_iff in H as [H1 H2].
  exists dte. repeat split; [assumption|].
  destruct l as [| r' l']; [exact I|].
  destruct (record_date r') as [dte'|]; [|discriminate]. eauto.
Qed.

Lemma chronological_dated l :
  chronological l = true -> forall r, In r l -> exists dte, record_date r = Some dte.
Proof.
  induction l as [| x l IH]; intros Hc r Hin; [contradiction|].
  destruct (chronological_cons _ _ Hc) as (dte & Hd & Hl & _).
  destruct Hin as [-> | Hin]; eauto.
Qed.

Lemma keyed_dated l :
  (forall r, In r l -> exists dte, record_date r = Some dte) ->
  keyed_by_REPDTE l = Ok (map (fun r => (PStr (text_of r), r)) l).
Proof.
  induction l as [| r l IH]; intros Hd; [reflexivity|].
  destruct (Hd r (or_introl eq_refl)) as (dte & Hdte).
  destruct (record_date_inv _ _ Hdte) as (d & s & _ & _ & _ & Ht & _ & Hk).
  cbn [keyed_by_REPDTE map]. rewrite Hk, IH, Ht; [reflexivity|].
  intros r' Hin. apply Hd. right. assumption.
Qed.

Lemma text_keys_map l :
  text_keys (map (fun r => (PStr (text_of r), r)) l)
  = Some (map (fun r => (text_of r, r)) l).
Proof.
  induction l as [| r l IH]; [reflexivity|].
  cbn [map text_keys]. rewrite IH. reflexivity.
Qed.

Lemma date_of_text r dte :
  record_date r = Some dte ->
  parse_yyyymmdd (text_of r) = Some dte /\
  date_ord (date_of r) = digits_value 0 (list_ascii_of_string (text_of r)).
Proof.
  intros H. destruct (record_date_inv _ _ H) as (d & s & _ & _ & Hs & Ht & Hd & _).
  rewrite Ht, Hd. split; [assumption|].
  apply (parse_yyyymmdd_ord _ _ Hs).
Qed.

(** Records in the order of their dates have increasing date texts. *)
Lemma chronological_increasing l :
  chronological l = true ->
  increasing (fun x => digits_value 0 (list_ascii_of_string (fst x)))
             (map (fun r => (text_of r, r)) l).
Proof.
  induction l as [| r l IH]; intros Hc; [exact I|].
  destruct (chronological_cons _ _ Hc) as (dte & Hd & Hl & Hnext).
  specialize (IH Hl). cbn [map increasing fst]. split; [|exact IH].
  destruct l as [| r' l']; [constructor|].
  destruct Hnext as (dte' & Hd' & Hlt).
  destruct (date_of_text _ _ Hd) as [_ Ho]. destruct (date_of_text _ _ Hd') as [_ Ho'].
  assert (date_of r = dte) as E by (unfold date_of; rewrite Hd; reflexivity).
  assert (date_of r' = dte') as E' by (unfold date_of; rewrite Hd'; reflexivity).
  unfold date_ltb in Hlt. apply Z.ltb_lt in Hlt. rewrite <- E, <- E', Ho, Ho' in Hlt.
  cbn [map increasing fst] in IH. destruct IH as [Hall _].
  constructor; [exact Hlt|].
  eapply Forall_impl; [|exact Hall]. cbn beta. intros y Hy. lia.
Qed.

(** Whatever the order of the records, the sort puts them in the order
    of their dates. *)
Lemma sorted_permutation financials periods :
  Permutation financials periods -> chronological periods = true ->
  sorted_by_REPDTE (PList financials) = Ok periods.
Proof.
  intros Hperm Hc.
  assert (forall r, In r financials -> exists dte, record_date r = Some dte) as Hdated.
  { intros r Hin. apply (chronological_dated _ Hc). apply (Permutation_in _ Hperm Hin). }
  unfold sorted_by_REPDTE. cbn [py_iter bind].
  rewrite (keyed_dated financials Hdated). cbn [bind].
  destruct financials as [| r [| r' l]].
  - apply Permutation_nil in Hperm. subst. reflexivity.
  - apply Permutation_length_1_inv in Hperm. subst. reflexivity.
  - set (fs := r :: r' :: l) in *.
    assert (match map (fun r0 => (PStr (text_of r0), r0)) fs with
            | [] | [_] => Ok fs
            | _ => match text_keys (map (fun r0 => (PStr (text_of r0), r0)) fs) with
                   | Some t => Ok (map snd (sort_by String.ltb t))
                   | None => Raise NotModelled
                   end
            end = Ok periods) as H; [|exact H].
    rewrite text_keys_map.
    rewrite (sort_by_permutation String.ltb
               (fun s => digits_value 0 (list_ascii_of_string s))
               _ (map (fun r0 => (text_of r0, r0)) periods)).
    + rewrite map_map. cbn [snd]. rewrite map_id. reflexivity.
    + apply Permutation_map. assumption.
    + apply chronological_increasing. assumption.
    + intros x y Hx Hy. apply in_map_iff in Hx as (rx & <- & Hrx).
      apply in_map_iff in Hy as (ry & <- & Hry). cbn [fst].
      destruct (chronological_dated _ Hc rx Hrx) as (dx & Hdx).
      destruct (chronological_dated _ Hc ry Hry) as (dy & Hdy).
      destruct (date_of_text _ _ Hdx) as [Px Ox]. destruct (date_of_text _ _ Hdy) as [Py Oy].
      rewrite (ltb_texts_dates _ _ _ _ Px Py), <- Ox, <- Oy.
      unfold date_of. rewrite Hdx, Hdy. reflexivity.
Qed.

Lemma skipn_cons {A} (l : list A) : forall i x t,
  skipn i l = x :: t -> nth_error l i = Some x /\ skipn (S i) l = t.
Proof.
  induction l as [| y l IH]; intros [| i] x t H; cbn in *; try discriminate.
  - inversion H. split; reflexivity.
  - apply IH. assumption.
Qed.

Lemma bank_rows_spec bank_name sorted_financials :
  (forall r, In r sorted_financials ->
     convertible r = true /\ exists dte, record_date r = Some dte) ->
  forall todo i, skipn i sorted_financials = todo ->
  exists rows,
    bank_rows bank_name sorted_financials i todo = Ok rows /\
    Forall2 (fun r row => dict_get (PStr "Date") row = Some (PStr (text_of r))) todo rows /\
    forall j row, nth_error rows j = Some row ->
      exists g, dict_get (PStr GROWTH_RATE) row = Some g /\
                expected_growth sorted_financials (i + j) g.
Proof.
  intros Hall. induction todo as [| r todo IH]; intros i Hskip.
  - exists []. repeat split; [constructor|]. intros [| j] row H; discriminate.
  - destruct (skipn_cons _ _ _ _ Hskip) as [Hnth Hskip'].
    destruct (Hall r (nth_error_In _ _ Hnth)) as [Hconv (dte & Hdte)].
    destruct (record_date_inv _ _ Hdte) as (d & s & -> & Hraw & Hs & Ht & _).
    destruct (non_owner_occupied_ok d Hconv) as (c & Hc).
    assert (exists g,
              (forall m, _calculate_cre_growth_rate m sorted_financials i (PDict d)
                         = Ok (dict_put (PStr GROWTH_RATE) g m)) /\
              expected_growth sorted_financials i g) as (g & Hg & Hexp).
    { destruct (Nat.lt_ge_cases i 12) as [Hi | Hi].
      - exists PNone. split.
        + intros m. apply (cre_growth_rate_early m _ i _ c Hi Hc).
        + left. split; [assumption | reflexivity].
      - destruct (nth_error sorted_financials (i - 12)) as [old|] eqn:Hold.
        2:{ apply nth_error_None in Hold.
            assert (nth_error sorted_financials i <> None) as Hlen by congruence.
            apply nth_error_Some in Hlen. lia. }
        destruct (Hall old (nth_error_In _ _ Hold)) as [Hconv' _].
        destruct (convertible_dict _ Hconv') as (d' & ->).
        destruct (non_owner_occupied_ok d' Hconv') as (o & Ho).
        exists (growth_value c o). split.
        + intros m. apply (cre_growth_rate_late m _ i _ _ c o Hi Hold Hc Ho).
        + right. split; [assumption|]. exists (PDict d), (PDict d'), c, o. auto. }
    destruct (metrics_row_spec bank_name d s dte sorted_financials i g Hconv Hraw Hs Hg)
      as (row & Hrow & HDate & Hgrowth).
    destruct (IH (S i) Hskip') as (rows & Hrows & Hdates & Hgs).
    exists (row :: rows). cbn [bank_rows]. rewrite Hrow. cbn [bind].
    rewrite Hrows. cbn [bind]. split; [reflexivity|]. split.
    + constructor; [rewrite Ht; assumption | assumption].
    + intros [| j] row' Hj; cbn [nth_error] in Hj.
      * inversion Hj. subst row'. exists g. rewrite Nat.add_0_r. auto.
      * destruct (Hgs j row' Hj) as (g' & Hg' & Hexp').
        exists g'. rewrite Nat.add_succ_r. auto.
Qed.

(** The date column of rows made from records with report dates. *)
Lemma dated_rows todo rows :
  Forall2 (fun r row => dict_get (PStr "Date") row = Some (PStr (text_of r))) todo rows ->
  (forall r, In r todo -> exists dte, record_date r = Some dte) ->
  dated rows = Ok (combine (map date_of todo) rows).
Proof.
  induction 1 as [| r row todo rows Hrow Hrest IH]; intros Hd; [reflexivity|].
  destruct (Hd r (or_introl eq_refl)) as (dte & Hdte).
  destruct (record_date_inv _ _ Hdte) as (d & s & _ & _ & Hs & Ht & Hdo & _).
  cbn [dated map combine]. rewrite Hrow, Ht. cbn [to_datetime]. rewrite Hs. cbn [bind].
  rewrite IH by (intros r' Hin; apply Hd; right; assumption).
  cbn [bind]. rewrite Hdo. reflexivity.
Qed.

Lemma ascending_dates {A} (todo : list pyval) : forall rows : list A,
  List.length rows = List.length todo ->
  chronological todo = true ->
  ascending date_ltb (combine (map date_of todo) rows).
Proof.
  induction todo as [| r todo IH]; intros rows Hlen Hc; [exact I|].
  destruct rows as [| row rows]; [discriminate|].
  destruct (chronological_cons _ _ Hc) as (dte & Hd & Hl & Hnext).
  destruct todo as [| r' todo']; [destruct rows; [exact I | discriminate]|].
  destruct rows as [| row' rows']; [discriminate|].
  destruct Hnext as (dte' & Hd' & Hlt).
  specialize (IH (row' :: rows') ltac:(cbn in *; lia) Hl).
  cbn [map combine ascending fst] in *. split; [|exact IH].
  unfold date_of. rewrite Hd, Hd'. apply date_ltb_asym. assumption.
Qed.

End BankRows.
(** ** The cells of the data frame *)

Section Frame.

Import BankMetricsCalculator Examples.

Lemma key_eqb_str_inv s k : key_eqb (PStr s) k = true -> k = PStr s.
Proof.
  intros H. apply key_eqb_true in H as (h & Hs & Hk). cbn in Hs. inversion Hs. subst h.
  destruct k as [| b | z | f | t | l | d]; cbn in Hk; try discriminate.
  - destruct z as [| p | p]; cbn in Hk; try discriminate;
      unfold num_key in Hk; destruct (odd_part p 0); discriminate.
  - destruct f as [sg | sg | | sg m e]; try discriminate.
    unfold num_key in Hk. destruct (odd_part m e); discriminate.
  - inversion Hk. reflexivity.
Qed.

Lemma Forall2_nth_error_r {A B} (R : A -> B -> Prop) (l : list A) (l' : list B) :
  Forall2 R l l' ->
  forall k y, nth_error l' k = Some y -> exists x, nth_error l k = Some x /\ R x y.
Proof.
  induction 1 as [| x y l l' Hxy _ IH]; intros [| k] z Hk; cbn in Hk; try discriminate.
  - inversion Hk. subst. exists x. split; [reflexivity | assumption].
  - apply (IH k z Hk).
Qed.

Lemma Forall2_nth_error_l {A B} (R : A -> B -> Prop) (l : list A) (l' : list B) :
  Forall2 R l l' ->
  forall k x, nth_error l k = Some x -> exists y, nth_error l' k = Some y /\ R x y.
Proof.
  induction 1 as [| x y l l' Hxy _ IH]; intros [| k] z Hk; cbn in Hk; try discriminate.
  - inversion Hk. subst. exists y. split; [reflexivity | assumption].
  - apply (IH k z Hk).
Qed.

Lemma Forall2_trans_r {A B} (R : A -> B -> Prop) (Q : B -> B -> Prop) (l : list A) :
  forall l' l'',
  Forall2 R l l' -> Forall2 Q l' l'' ->
  (forall x y z, R x y -> Q y z -> R x z) ->
  Forall2 R l l''.
Proof.
  induction l as [| x l IH]; intros l' l'' H1 H2 Hstep.
  - inversion H1. subst. inversion H2. constructor.
  - inversion H1 as [| x' y lx l'0 Hxy Hrest]. subst.
    inversion H2 as [| y' z ly l''0 Hyz Hrest']. subst.
    constructor; [apply (Hstep x y z); assumption|].
    apply (IH l'0 l''0); assumption.
Qed.

(** A cell of one row of the frame, for a label that is a text: the
    cell of the dict, as a float when the column is one of floats. *)
Lemma frame_cell (all_metrics : list dict) name (row : dict) :
  dict_get (PStr name)
    (map (fun kv : pyval * pyval =>
            (fst kv,
             if negb (key_eqb (fst kv) (PStr "Bank")) &&
                of_floats (column all_metrics (fst kv))
             then as_float (snd kv) else snd kv)) row)
  = option_map
      (fun v => if negb (key_eqb (PStr name) (PStr "Bank")) &&
                   of_floats (column all_metrics (PStr name))
                then as_float v else v)
      (dict_get (PStr name) row).
Proof.
  induction row as [| [k v] row IH]; [reflexivity|].
  cbn [map dict_get fst snd].
  destruct (key_eqb (PStr name) k) eqn:Hk; [|exact IH].
  apply key_eqb_str_inv in Hk. subst k. reflexivity.
Qed.

Lemma frame_keys (all_metrics : list dict) (row : dict) :
  keys (map (fun kv : pyval * pyval =>
               (fst kv,
                if negb (key_eqb (fst kv) (PStr "Bank")) &&
                   of_floats (column all_metrics (fst kv))
                then as_float (snd kv) else snd kv)) row)
  = keys row.
Proof.
  unfold keys. rewrite map_map. reflexivity.
Qed.

Lemma frame_rows (all_metrics l : list dict) :
  Forall2 (fun row row' =>
             keys row' = keys row /\
             forall name,
               dict_get (PStr name) row'
               = option_map
                   (fun v => if negb (key_eqb (PStr name) (PStr "Bank")) &&
                                of_floats (column all_metrics (PStr name))
                             then as_float v else v)
                   (dict_get (PStr name) row))
          l
          (map (map (fun kv : pyval * pyval =>
                       (fst kv,
                        if negb (key_eqb (fst kv) (PStr "Bank")) &&
                           of_floats (column all_metrics (fst kv))
                        then as_float (snd kv) else snd kv))) l).
Proof.
  induction l as [| row l IH]; cbn [map]; constructor; [|exact IH].
  split; [apply frame_keys | intros name; apply frame_cell].
Qed.

(** The rows of the frame, against the dicts they are made of. *)
Lemma DataFrame_rows (all_metrics : list dict) :
  Forall2 (fun row row' =>
             keys row' = keys row /\
             forall name,
               dict_get (PStr name) row'
               = option_map
                   (fun v => if negb (key_eqb (PStr name) (PStr "Bank")) &&
                                of_floats (column all_metrics (PStr name))
                             then as_float v else v)
                   (dict_get (PStr name) row))
          all_metrics (DataFrame all_metrics).
Proof. apply frame_rows. Qed.

Lemma DataFrame_length (all_metrics : list dict) :
  List.length (DataFrame all_metrics) = List.length all_metrics.
Proof. unfold DataFrame. apply length_map. Qed.

(** A column with a text is not a column of floats. *)
Lemma of_floats_text cells s : In (PStr s) cells -> of_floats cells = false.
Proof.
  intros Hin. unfold of_floats.
  destruct (forallb _ cells) eqn:Hall; [|reflexivity].
  rewrite forallb_forall in Hall. specialize (Hall _ Hin). discriminate.
Qed.

(** A column of None only is not a column of floats. *)
Lemma of_floats_nulls cells : Forall (eq PNone) cells -> of_floats cells = false.
Proof.
  intros Hall. unfold of_floats.
  assert (existsb is_float cells = false /\ existsb is_int64 cells = false) as [-> ->].
  { induction Hall as [| v cells <- _ [IH1 IH2]]; [split; reflexivity|].
    cbn [existsb is_float is_int64 orb]. split; assumption. }
  apply andb_false_r.
Qed.

(** A column of None and floats is one of floats when it holds a float. *)
Lemma of_floats_rates cells :
  Forall (fun g => g = PNone \/ exists x, g = PFloat x) cells ->
  of_floats cells = existsb is_float cells.
Proof.
  intros Hall. unfold of_floats.
  assert (forallb (fun v => is_null v || is_int64 v || is_float v) cells = true
          /\ existsb is_int64 cells = false) as [-> ->].
  { induction Hall as [| v cells Hv _ [IH1 IH2]]; [split; reflexivity|].
    cbn [forallb existsb]. rewrite IH1, IH2.
    destruct Hv as [-> | (x & ->)]; split; reflexivity. }
  cbn [andb]. apply orb_false_r.
Qed.

Lemma column_cells (all_metrics : list dict) name (P : pyval -> Prop) :
  (forall row, In row all_metrics -> exists v, dict_get (PStr name) row = Some v /\ P v) ->
  Forall P (column all_metrics (PStr name)).
Proof.
  intros H. unfold column. apply Forall_forall. intros v Hin.
  apply in_map_iff in Hin as (row & <- & Hrow).
  destruct (H row Hrow) as (v & -> & Hv). exact Hv.
Qed.

(** The cells of a column that is not one of floats, and those of the
    column [Bank], are the values of the dicts. *)
Lemma DataFrame_kept (all_metrics : list dict) name :
  negb (key_eqb (PStr name) (PStr "Bank")) && of_floats (column all_metrics (PStr name))
  = false ->
  Forall2 (fun row row' => dict_get (PStr name) row' = dict_get (PStr name) row)
          all_metrics (DataFrame all_metrics).
Proof.
  intros Hkept. eapply Forall2_impl; [|apply DataFrame_rows].
  intros row row' [_ H]. cbv beta. rewrite (H name), Hkept.
  destruct (dict_get (PStr name) row); reflexivity.
Qed.

Lemma DataFrame_Bank (all_metrics : list dict) :
  Forall2 (fun row row' => keys row' = keys row /\
                           dict_get (PStr "Bank") row' = dict_get (PStr "Bank") row)
          all_metrics (DataFrame all_metrics).
Proof.
  eapply Forall2_impl; [|apply DataFrame_rows].
  intros row row' [Hk H]. split; [exact Hk|]. rewrite (H "Bank").
  destruct (dict_get (PStr "Bank") row); reflexivity.
Qed.

(** A column that holds a text in every row keeps its cells. *)
Lemma DataFrame_texts (all_metrics : list dict) name :
  (forall row, In row all_metrics -> exists s, dict_get (PStr name) row = Some (PStr s)) ->
  Forall2 (fun row row' => dict_get (PStr name) row' = dict_get (PStr name) row)
          all_metrics (DataFrame all_metrics).
Proof.
  intros Htext. destruct all_metrics as [| row l] eqn:Hl; [constructor|].
  rewrite <- Hl in *. apply DataFrame_kept.
  destruct (Htext row) as (s & Hs); [rewrite Hl; left; reflexivity|].
  rewrite (of_floats_text _ s); [apply andb_false_r|].
  unfold column. apply in_map_iff. exists row. rewrite Hs.
  split; [reflexivity | rewrite Hl; left; reflexivity].
Qed.

(** A column that holds None in every row keeps its cells. *)
Lemma DataFrame_nulls (all_metrics : list dict) name :
  (forall row, In row all_metrics -> dict_get (PStr name) row = Some PNone) ->
  forall row', In row' (DataFrame all_metrics) -> dict_get (PStr name) row' = Some PNone.
Proof.
  intros Hnull row' Hin.
  assert (Forall2 (fun row row' => dict_get (PStr name) row' = dict_get (PStr name) row)
                  all_metrics (DataFrame all_metrics)) as Hkept.
  { apply DataFrame_kept. rewrite of_floats_nulls; [apply andb_false_r|].
    apply (column_cells all_metrics name (eq PNone)).
    intros row Hrow. exists PNone. split; [apply Hnull; exact Hrow | reflexivity]. }
  apply In_nth_error in Hin as (k & Hk).
  destruct (Forall2_nth_error_r _ _ _ Hkept k row' Hk) as (row & Hrow & ->).
  apply Hnull. apply (nth_error_In _ _ Hrow).
Qed.

(** The cells [Date] of the frame are those of the dicts. *)
Lemma DataFrame_dates todo rows :
  Forall2 (fun r row => dict_get (PStr "Date") row = Some (PStr (text_of r))) todo rows ->
  Forall2 (fun r row => dict_get (PStr "Date") row = Some (PStr (text_of r)))
          todo (DataFrame rows).
Proof.
  intros Hdates.
  apply (Forall2_trans_r _ (fun row row' => dict_get (PStr "Date") row'
                                            = dict_get (PStr "Date") row) todo rows).
  - exact Hdates.
  - apply DataFrame_texts. intros row Hin.
    apply In_nth_error in Hin as (k & Hk).
    destruct (Forall2_nth_error_r _ _ _ Hdates k row Hk) as (r & _ & Hr). eauto.
  - intros r row row' H1 H2. rewrite H2. exact H1.
Qed.

(** The table of a dataset with a row. *)
Lemma calculate_metrics_rows financials_data (rows : list dict) :
  all_metrics financials_data = Ok rows ->
  rows <> [] ->
  calculate_metrics financials_data
  = do df <- dated (DataFrame rows); Ok (sort_by date_ltb df).
Proof.
  intros Hrows Hne. unfold calculate_metrics. rewrite Hrows. cbn [bind].
  destruct rows; [contradiction | reflexivity].
Qed.

End Frame.

(** ** The three-year growth rate *)

Section Growth.

Import BankMetricsCalculator Examples.

Lemma combine_fst_snd {A B} (l : list A) : forall l' : list B,
  List.length l = List.length l' ->
  map fst (combine l l') = l /\ map snd (combine l l') = l'.
Proof.
  induction l as [| x l IH]; intros [| y l'] Hlen; try discriminate.
  - split; reflexivity.
  - injection Hlen as Hlen. destruct (IH l' Hlen) as [H1 H2].
    cbn [combine map fst snd]. rewrite H1, H2. split; reflexivity.
Qed.

(** C2, as stated, fails: with an aggregate of exactly 1000 in period 0
    the base does not exceed the floor, and the growth rate of period 12
    is the null marker like that of the periods before, not 50.0. *)
Lemma cre_growth_counterexample :
  non_owner_occupied (nth 0 (cre_records "1000" "1500") PNone) = Ok (Float.of_Z 1000) /\
  non_owner_occupied (nth 12 (cre_records "1000" "1500") PNone) = Ok (Float.of_Z 1500) /\
  growth_column
    (calculate_metrics [(PStr "Truist Bank", PList (cre_records "1000" "1500"))])
  = repeat (Some PNone) 13 /\
  nth 12 (repeat (Some PNone) 13) None <> Some (PFloat (Float.of_Z 50)).
Proof.
  repeat split; try (vm_compute; reflexivity). discriminate.
Qed.

Lemma frame_column_of (all_metrics l : list dict) name :
  (forall row, In row l -> exists g, dict_get (PStr name) row = Some g) ->
  map (dict_get (PStr name)) l = map Some (column l (PStr name)) /\
  map (dict_get (PStr name))
      (map (map (fun kv : pyval * pyval =>
                   (fst kv,
                    if negb (key_eqb (fst kv) (PStr "Bank")) &&
                       of_floats (column all_metrics (fst kv))
                    then as_float (snd kv) else snd kv))) l)
  = map (fun g => Some (if negb (key_eqb (PStr name) (PStr "Bank")) &&
                           of_floats (column all_metrics (PStr name))
                        then as_float g else g))
        (column l (PStr name)).
Proof.
  induction l as [| row l IH]; intros Hkey; [split; reflexivity|].
  destruct (Hkey row (or_introl eq_refl)) as (g & Hg).
  destruct IH as [IH1 IH2]; [intros r Hin; apply Hkey; right; exact Hin|].
  change (column (row :: l) (PStr name))
    with (match dict_get (PStr name) row with
          | Some v => v
          | None => PFloat Float.nan
          end :: column l (PStr name)).
  cbn [map]. rewrite IH1, IH2, frame_cell, Hg. split; reflexivity.
Qed.

(** The cells of a column in which every dict has the key, in the
    frame. *)
Lemma frame_column (all_metrics : list dict) name :
  (forall row, In row all_metrics -> exists g, dict_get (PStr name) row = Some g) ->
  map (dict_get (PStr name)) all_metrics = map Some (column all_metrics (PStr name)) /\
  map (dict_get (PStr name)) (DataFrame all_metrics)
  = map (fun g => Some (if negb (key_eqb (PStr name) (PStr "Bank")) &&
                           of_floats (column all_metrics (PStr name))
                        then as_float g else g))
        (column all_metrics (PStr name)).
Proof. apply frame_column_of. Qed.

(** The growth rates of one bank whose records have distinct report
    dates ([periods] is the list in the order of the dates): the rates
    [cells] that the rows of [all_metrics] are due, and the column of the
    frame, in which they are floats when one of them is. *)
Lemma growth_of_one_bank (bank_name : pyval) (financials periods : list pyval) :
  Permutation financials periods ->
  periods <> [] ->
  chronological periods = true ->
  forallb convertible periods = true ->
  exists all rows cells,
    all_metrics [(bank_name, PList financials)] = Ok all /\
    calculate_metrics [(bank_name, PList financials)] = Ok rows /\
    map fst rows = map date_of periods /\
    List.length cells = List.length periods /\
    (forall k g, nth_error cells k = Some g -> expected_growth periods k g) /\
    map (dict_get (PStr GROWTH_RATE)) all = map Some cells /\
    map growth_rate rows
    = map (fun g => Some (if existsb is_float cells then as_float g else g)) cells.
Proof.
  intros Hperm Hne Hchron Hconv.
  assert (forall r, In r periods ->
            convertible r = true /\ exists dte, record_date r = Some dte) as Hall.
  { intros r Hin. split.
    - rewrite forallb_forall in Hconv. auto.
    - apply (chronological_dated _ Hchron r Hin). }
  destruct (bank_rows_spec bank_name periods Hall periods 0 eq_refl)
    as (rows0 & Hrows0 & Hdates & Hgrowth).
  pose proof (Forall2_length Hdates) as Hlen0.
  assert (all_metrics [(bank_name, PList financials)] = Ok rows0) as Hall_metrics.
  { cbn [all_metrics]. rewrite (sorted_permutation _ _ Hperm Hchron). cbn [bind].
    rewrite Hrows0. cbn [bind]. rewrite app_nil_r. reflexivity. }
  set (rows := combine (map date_of periods) (DataFrame rows0)).
  assert (calculate_metrics [(bank_name, PList financials)] = Ok rows) as Hrun.
  { rewrite (calculate_metrics_rows _ rows0 Hall_metrics).
    2:{ intros ->. destruct periods; [contradiction | discriminate]. }
    rewrite (dated_rows _ _ (DataFrame_dates _ _ Hdates))
      by (intros r Hin; apply Hall; assumption).
    cbn [bind]. rewrite sort_by_ascending; [reflexivity|].
    apply ascending_dates; [rewrite DataFrame_length; symmetry; assumption | assumption]. }
  destruct (combine_fst_snd (map date_of periods) (DataFrame rows0)) as [Hfst Hsnd].
  { rewrite length_map, DataFrame_length. assumption. }
  fold rows in Hfst, Hsnd.
  assert (forall row, In row rows0 -> exists g, dict_get (PStr GROWTH_RATE) row = Some g)
    as Hkey.
  { intros row Hin. apply In_nth_error in Hin as (j & Hj).
    destruct (Hgrowth j row Hj) as (g & Hg & _). eauto. }
  destruct (frame_column rows0 GROWTH_RATE Hkey) as [Hcells Hframe].
  set (cells := column rows0 (PStr GROWTH_RATE)) in *.
  assert (forall k g, nth_error cells k = Some g -> expected_growth periods k g) as Hexp.
  { intros k g Hk.
    assert (nth_error (map Some cells) k = Some (Some g)) as Hk'
      by (rewrite nth_error_map, Hk; reflexivity).
    rewrite <- Hcells, nth_error_map in Hk'.
    destruct (nth_error rows0 k) as [row|] eqn:Hrow; [|discriminate].
    destruct (Hgrowth k row Hrow) as (g' & Hg' & Hexp).
    cbn [option_map] in Hk'. rewrite Hg' in Hk'. inversion Hk'. subst g'. exact Hexp. }
  assert (of_floats cells = existsb is_float cells) as Hfloats.
  { apply of_floats_rates. apply Forall_forall. intros g Hin.
    apply In_nth_error in Hin as (k & Hk).
    destruct (Hexp k g Hk) as [[_ ->] | (_ & cur & old & c & o & _ & _ & _ & _ & ->)];
      [left; reflexivity|].
    unfold growth_value. destruct (Float.gtb o GROWTH_FLOOR); [right; eauto | left; reflexivity]. }
  exists rows0, rows, cells.
  split; [assumption|]. split; [assumption|]. split; [assumption|].
  split; [unfold cells, column; rewrite length_map; symmetry; assumption|].
  split; [assumption|]. split; [assumption|].
  assert (map growth_rate rows = map (dict_get (PStr GROWTH_RATE)) (map snd rows)) as ->
    by (rewrite map_map; reflexivity).
  unfold frame_row in *. rewrite Hsnd, Hframe, Hfloats. reflexivity.
Qed.

(** C2, amended: for one entity with 13 period records, given in any
    order, of 13 different report dates ([periods] is the list in the
    order of the dates) and with base fields in the range of [float],
    the row that the calculator builds for each of the periods 0 to 11
    has None as its growth rate; at period 12 the rate is
    [(current / base - 1) * 100] when the aggregate [base] of period 0
    exceeds 1000, and None otherwise.  In the data frame that
    [calculate_metrics] returns, the rows are in the order of the dates,
    and the column is one of floats as soon as it holds a rate: the
    periods 0 to 11 then read NaN; they read None when period 12 has no
    rate.  So a base of exactly 1000 gives None, and a base of 2000 with
    3000 at period 12 gives 50.0. *)
Theorem cre_growth_over_13_periods (bank_name : pyval) (financials periods : list pyval)
    (first last : pyval) (base current : float) :
  Permutation financials periods ->
  List.length periods = 13%nat ->
  chronological periods = true ->
  forallb convertible periods = true ->
  nth_error periods 0 = Some first ->
  nth_error periods 12 = Some last ->
  non_owner_occupied first = Ok base ->
  non_owner_occupied last = Ok current ->
  (exists all,
     all_metrics [(bank_name, PList financials)] = Ok all /\
     List.length all = 13%nat /\
     (forall k row, (k < 12)%nat -> nth_error all k = Some row ->
        dict_get (PStr GROWTH_RATE) row = Some PNone) /\
     (forall row, nth_error all 12 = Some row ->
        dict_get (PStr GROWTH_RATE) row = Some (growth_value current base)))
  /\ (exists rows,
     calculate_metrics [(bank_name, PList financials)] = Ok rows /\
     map fst rows = map date_of periods /\
     (forall k row, (k < 12)%nat -> nth_error rows k = Some row ->
        growth_rate row =
          Some (if Float.gtb base GROWTH_FLOOR then PFloat Float.nan else PNone)) /\
     (exists row, nth_error rows 12 = Some row /\
        growth_rate row =
          Some (if Float.gtb base GROWTH_FLOOR then
                  PFloat (Float.mul (Float.sub (Float.div current base) (Float.of_Z 1))
                                    (Float.of_Z 100))
                else PNone)))
  /\ growth_value (Float.of_Z 1500) (Float.of_Z 1000) = PNone
  /\ growth_value (Float.of_Z 3000) (Float.of_Z 2000) = PFloat (Float.of_Z 50).
Proof.
  intros Hperm Hlen Hchron Hconv Hfirst Hlast Hbase Hcur.
  assert (periods <> []) as Hne by (intros ->; discriminate).
  destruct (growth_of_one_bank bank_name financials periods Hperm Hne Hchron Hconv)
    as (all & rows & cells & Hall & Hrun & Hdates & Hlenc & Hexp & Hcells & Hframe).
  rewrite Hlen in Hlenc.
  assert (forall k g, (k < 12)%nat -> nth_error cells k = Some g -> g = PNone) as Hearly.
  { intros k g Hk Hg. destruct (Hexp k g Hg) as [[_ ->] | [Hge _]]; [reflexivity | lia]. }
  assert (nth_error cells 12 = Some (growth_value current base)) as Hlate.
  { destruct (nth_error cells 12) as [g|] eqn:Hg.
    2:{ apply nth_error_None in Hg. lia. }
    destruct (Hexp 12%nat g Hg) as [[Hlt _] | [_ Hlate]]; [lia|].
    destruct Hlate as (cur' & old' & c & o & Hc' & Ho' & Hnc & Hno & ->).
    cbn [Nat.sub] in Ho'.
    assert (cur' = last) by congruence. assert (old' = first) by congruence.
    subst cur' old'.
    assert (c = current) by congruence. assert (o = base) by congruence.
    subst c o. reflexivity. }
  assert (existsb is_float cells = Float.gtb base GROWTH_FLOOR) as Hfloat.
  { destruct (existsb is_float cells) eqn:Hex.
    - apply existsb_exists in Hex as (g & Hin & Hg).
      apply In_nth_error in Hin as (k & Hk).
      destruct (Nat.lt_ge_cases k 12) as [Hlt | Hge].
      + rewrite (Hearly k g Hlt Hk) in Hg. discriminate.
      + assert (k = 12%nat) as ->.
        { assert (nth_error cells k <> None) as Hin by congruence.
          apply nth_error_Some in Hin. lia. }
        rewrite Hlate in Hk. inversion Hk. subst g. unfold growth_value in Hg.
        destruct (Float.gtb base GROWTH_FLOOR); [reflexivity | discriminate].
    - destruct (Float.gtb base GROWTH_FLOOR) eqn:Hgt; [|reflexivity].
      assert (existsb is_float cells = true) as Hex'; [|congruence].
      apply existsb_exists.
      exists (growth_value current base). split; [apply (nth_error_In _ _ Hlate)|].
      unfold growth_value. rewrite Hgt. reflexivity. }
  assert (forall k row, nth_error all k = Some row ->
            exists g, nth_error cells k = Some g /\
                      dict_get (PStr GROWTH_RATE) row = Some g) as Hdict.
  { intros k row Hk.
    assert (nth_error (map (dict_get (PStr GROWTH_RATE)) all) k
            = Some (dict_get (PStr GROWTH_RATE) row)) as Hm
      by (rewrite nth_error_map, Hk; reflexivity).
    rewrite Hcells, nth_error_map in Hm.
    destruct (nth_error cells k) as [g|]; [|discriminate].
    exists g. split; [reflexivity|]. inversion Hm. reflexivity. }
  assert (forall k row, nth_error rows k = Some row ->
            exists g, nth_error cells k = Some g /\
                      growth_rate row
                      = Some (if Float.gtb base GROWTH_FLOOR then as_float g else g))
    as Hrow.
  { intros k row Hk.
    assert (nth_error (map growth_rate rows) k = Some (growth_rate row)) as Hm
      by (rewrite nth_error_map, Hk; reflexivity).
    rewrite Hframe, Hfloat, nth_error_map in Hm.
    destruct (nth_error cells k) as [g|]; [|discriminate].
    exists g. split; [reflexivity|]. inversion Hm. reflexivity. }
  split; [|split; [|split; vm_compute; reflexivity]].
  - exists all. split; [exact Hall|]. split; [|split].
    + pose proof (f_equal (@List.length (option pyval)) Hcells) as Hl.
      rewrite !length_map in Hl. lia.
    + intros k row Hk Hnth. destruct (Hdict k row Hnth) as (g & Hg & ->).
      rewrite (Hearly k g Hk Hg). reflexivity.
    + intros row Hnth. destruct (Hdict 12%nat row Hnth) as (g & Hg & ->).
      rewrite Hlate in Hg. inversion Hg. reflexivity.
  - exists rows. split; [exact Hrun|]. split; [exact Hdates|]. split.
    + intros k row Hk Hnth. destruct (Hrow k row Hnth) as (g & Hg & ->).
      rewrite (Hearly k g Hk Hg). destruct (Float.gtb base GROWTH_FLOOR); reflexivity.
    + destruct (nth_error rows 12) as [row|] eqn:Hnth.
      2:{ apply nth_error_None in Hnth.
          assert (List.length rows = 13%nat) as Hl.
          { pose proof (f_equal (@List.length date) Hdates) as Hl.
            rewrite !length_map in Hl. unfold frame_row in *. lia. }
          unfold frame_row in *.
          lia. }
      exists row. split; [reflexivity|].
      destruct (Hrow 12%nat row Hnth) as (g & Hg & ->).
      rewrite Hlate in Hg. inversion Hg. unfold growth_value.
      destruct (Float.gtb base GROWTH_FLOOR); reflexivity.
Qed.

Lemma cre_growth_over_13_periods_witness :
  exists rows,
    calculate_metrics [(PStr "Truist Bank", PList (rev (cre_records "2000" "3000")))]
      = Ok rows /\
    (forall k row, (k < 12)%nat -> nth_error rows k = Some row ->
       growth_rate row = Some (PFloat Float.nan)) /\
    (exists row, nth_error rows 12 = Some row /\
       growth_rate row = Some (PFloat (Float.of_Z 50))).
Proof.
  destruct (proj1 (proj2 (cre_growth_over_13_periods (PStr "Truist Bank")
                     (rev (cre_records "2000" "3000")) (cre_records "2000" "3000")
                     (nth 0 (cre_records "2000" "3000") PNone)
                     (nth 12 (cre_records "2000" "3000") PNone)
                     (Float.of_Z 2000) (Float.of_Z 3000)
                     (Permutation_sym (Permutation_rev (cre_records "2000" "3000")))
                     eq_refl eq_refl eq_refl eq_refl eq_refl eq_refl eq_refl)))
    as (rows & Hrun & _ & Hearly & Hlast).
  exists rows. split; [exact Hrun|]. split; [exact Hearly | exact Hlast].
Defined.

(** The growth column of the frame for a base of 2000 and 3000 at period
    12: twelve NaN, then 50.0. *)
Lemma cre_growth_frame_example :
  growth_column
    (calculate_metrics [(PStr "Truist Bank", PList (cre_records "2000" "3000"))])
  = (repeat (Some (PFloat Float.nan)) 12 ++ [Some (PFloat (Float.of_Z 50))])%list.
Proof. vm_compute. reflexivity. Qed.

End Growth.

(** ** The client under transport failures *)

Section Client.

Import FDICAPIClient BankDataRepository Examples.

Lemma get_data_failure endpoint filters fields w :
  transport_failure (answer w endpoint filters fields) = true ->
  get_data endpoint filters fields w = (Ok EMPTY_ENVELOPE, called w).
Proof.
  unfold answer, get_data, transport_failure, called.
  destruct (network w (calls w) _) as [| | status body]; try reflexivity.
  destruct (is_error_status status); [reflexivity|].
  destruct body; [discriminate | reflexivity].
Qed.

(** C7: when the request meets a transport-level failure (no answer in
    time, no connection, an error status, a body that is not JSON), no
    exception leaves the client: [get_data] returns the envelope with an
    empty data list, and [get_institutions] and [get_financials] return
    the empty list. *)
Theorem transport_failure_gives_empty (w : world) (endpoint : string)
    (filters : text) (fields : string) (cert : pyval) :
  (transport_failure (answer w endpoint filters fields) = true ->
     get_data endpoint filters fields w = (Ok (PDict [(PStr "data", PList [])]), called w))
  /\
  (transport_failure (answer w "institutions" filters fields) = true ->
     get_institutions filters fields w = (Ok (PList []), called w))
  /\
  (transport_failure (answer w "financials" (financial_filters cert filters) fields) = true ->
     get_financials cert filters fields w = (Ok (PList []), called w)).
Proof.
  repeat split; intros H.
  - apply get_data_failure. assumption.
  - unfold get_institutions, mbind. rewrite (get_data_failure _ _ _ _ H). reflexivity.
  - unfold get_financials, mbind. fold (financial_filters cert filters).
    rewrite (get_data_failure _ _ _ _ H). reflexivity.
Qed.

Lemma transport_failure_gives_empty_witness :
  get_data "institutions" [Lit "CERT:"; Fmt (PStr "628")] institution_fields silent_world
    = (Ok (PDict [(PStr "data", PList [])]), called silent_world)
  /\ get_institutions [Lit "CERT:"; Fmt (PStr "628")] institution_fields silent_world
    = (Ok (PList []), called silent_world)
  /\ get_financials (PStr "628") (date_filter "20200101" "20200331") financial_fields
       (blank_world (fun _ _ => Response 503 None))
    = (Ok (PList []), called (blank_world (fun _ _ => Response 503 None))).
Proof.
  split; [|split].
  - apply (proj1 (transport_failure_gives_empty silent_world "institutions"
                    [Lit "CERT:"; Fmt (PStr "628")] institution_fields PNone)).
    reflexivity.
  - apply (proj1 (proj2 (transport_failure_gives_empty silent_world "institutions"
                    [Lit "CERT:"; Fmt (PStr "628")] institution_fields PNone))).
    reflexivity.
  - apply (proj2 (proj2 (transport_failure_gives_empty
                    (blank_world (fun _ _ => Response 503 None)) "financials"
                    (date_filter "20200101" "20200331") financial_fields (PStr "628")))).
    reflexivity.
Defined.

End Client.

(** ** The cache *)

Section Cache.

Import FDICAPIClient BankDataRepository Examples.

Lemma fetch_data_miss bank_info start_date end_date w :
  cache_miss start_date end_date w = true ->
  fetch_data bank_info start_date end_date w = fetch_fresh bank_info start_date end_date w.
Proof.
  unfold cache_miss, fetch_data, mbind, load_cached_data.
  destruct (files w (get_cache_path start_date end_date)) as [| | | | v];
    try reflexivity; try discriminate.
  intros H. apply negb_true_iff in H. rewrite H. reflexivity.
Qed.

Lemma fetch_data_hit bank_info start_date end_date w v :
  files w (get_cache_path start_date end_date) = Json v -> truthy v = true ->
  fetch_data bank_info start_date end_date w = (Ok v, w).
Proof.
  intros Hf Hv. unfold fetch_data, mbind, load_cached_data. rewrite Hf, Hv. reflexivity.
Qed.

(** C10: when the cache file parses to a value that is false, such as
    the empty object, [fetch_data] does not return it but goes on to the
    fresh fetch; a parsed value that is true is returned at once, the
    world untouched, so without a request. *)
Theorem falsy_cache_is_a_miss (bank_info : list pyval) (start_date end_date : string)
    (w : world) (v : pyval) :
  files w (get_cache_path start_date end_date) = Json v ->
  (truthy v = false ->
     fetch_data bank_info start_date end_date w
     = fetch_fresh bank_info start_date end_date w)
  /\ (truthy v = true ->
     fetch_data bank_info start_date end_date w = (Ok v, w))
  /\ truthy (PDict []) = false.
Proof.
  intros Hf. split; [|split].
  - intros Hv. apply fetch_data_miss. unfold cache_miss. rewrite Hf, Hv. reflexivity.
  - intros Hv. apply (fetch_data_hit _ _ _ _ _ Hf Hv).
  - reflexivity.
Qed.

Lemma falsy_cache_is_a_miss_witness :
  fetch_data BANK_INFO "20200101" "20200331" (cached_world (PDict []))
  = fetch_fresh BANK_INFO "20200101" "20200331" (cached_world (PDict []))
  /\ fetch_data BANK_INFO "20200101" "20200331" (cached_world (PDict [(PStr "x", PNone)]))
  = (Ok (PDict [(PStr "x", PNone)]), cached_world (PDict [(PStr "x", PNone)])).
Proof.
  split.
  - apply (proj1 (falsy_cache_is_a_miss BANK_INFO "20200101" "20200331"
                    (cached_world (PDict [])) (PDict []) eq_refl)).
    reflexivity.
  - apply (proj1 (proj2 (falsy_cache_is_a_miss BANK_INFO "20200101" "20200331"
                    (cached_world (PDict [(PStr "x", PNone)]))
                    (PDict [(PStr "x", PNone)]) eq_refl))).
    reflexivity.
Defined.

End Cache.

(** ** The counter of failures *)

Section Failures.

Import FDICAPIClient BankDataRepository Examples.

Lemma same_store_refl w : same_store w w.
Proof. repeat split. Qed.

Lemma same_store_trans w1 w2 w3 :
  same_store w1 w2 -> same_store w2 w3 -> same_store w1 w3.
Proof.
  intros (F1 & D1 & R1) (F2 & D2 & R2). repeat split; congruence.
Qed.

Lemma get_data_store endpoint filters fields w :
  same_store w (snd (get_data endpoint filters fields w)).
Proof.
  unfold get_data.
  destruct (network w (calls w) _) as [| | status body]; [repeat split | repeat split |].
  destruct (is_error_status status); [repeat split|].
  destruct body; repeat split.
Qed.

Lemma get_institutions_store filters fields w :
  same_store w (snd (get_institutions filters fields w)).
Proof.
  unfold get_institutions, mbind, lift.
  pose proof (get_data_store "institutions" filters fields w) as H.
  destruct (get_data "institutions" filters fields w) as [[v | e] w']; exact H.
Qed.

Lemma get_financials_store cert filters fields w :
  same_store w (snd (get_financials cert filters fields w)).
Proof.
  unfold get_financials, mbind, lift.
  match goal with
  | |- context [get_data ?e ?f ?g w] =>
      pose proof (get_data_store e f g w) as H;
      destruct (get_data e f g w) as [[v | err] w']; exact H
  end.
Qed.

Lemma steady_ret {A} (a : A) : steady (ret a).
Proof. intros s. split; [reflexivity | apply same_store_refl]. Qed.

Lemma steady_lift {A} (r : result A) : steady (lift r).
Proof. intros s. split; [reflexivity | apply same_store_refl]. Qed.

Lemma steady_in_world {A} (c : M world A) :
  (forall w, same_store w (snd (c w))) -> steady (in_world c).
Proof.
  intros Hc s. unfold in_world. specialize (Hc (snd s)).
  destruct (c (snd s)). split; [reflexivity | exact Hc].
Qed.

Lemma steady_store_institution name bank_data :
  steady (store_institution name bank_data).
Proof.
  intros s. unfold store_institution.
  destruct (py_setitem name bank_data _); split; try reflexivity; apply same_store_refl.
Qed.

Lemma steady_store_financials name records :
  steady (store_financials name records).
Proof.
  intros s. unfold store_financials.
  destruct (py_setitem name records _); split; try reflexivity; apply same_store_refl.
Qed.

Lemma steady_bind {A B} (c : M (batch * world) A) (k : A -> M (batch * world) B) :
  steady c -> (forall a, steady (k a)) -> steady (mbind c k).
Proof.
  intros Hc Hk s. unfold mbind. specialize (Hc s).
  destruct (c s) as [[a | e] s']; cbn [snd fst] in *.
  - destruct Hc as [Hf Hs]. destruct (Hk a s') as [Hf' Hs'].
    split; [congruence | apply (same_store_trans _ _ _ Hs Hs')].
  - assumption.
Qed.

Ltac steady :=
  repeat first
    [ apply steady_ret
    | apply steady_lift
    | apply steady_in_world; intros ?;
      first [apply get_institutions_store | apply get_financials_store]
    | apply steady_store_institution
    | apply steady_store_financials
    | apply steady_bind; [| intros ?]
    | match goal with
      | |- steady (match ?x with _ => _ end) => destruct x
      end ].

(** The body of the inner [try] never touches the counter, the files or
    the disk. *)
Lemma fetch_bank_steady start_date end_date bank_item :
  steady (fetch_bank start_date end_date bank_item).
Proof. unfold fetch_bank. steady. Qed.

Lemma try_fetch_bank_failures start_date end_date s bank_item :
  (api_failures (fst s)
   <= api_failures (fst (try_fetch_bank start_date end_date s bank_item)))%nat
  /\ same_store (snd s) (snd (try_fetch_bank start_date end_date s bank_item)).
Proof.
  unfold try_fetch_bank.
  destruct (fetch_bank_steady start_date end_date bank_item s) as [H Hs].
  destruct (fetch_bank start_date end_date bank_item s) as [[u | e] s'];
    cbn [fst snd failed api_failures] in *; split; try lia; assumption.
Qed.

Lemma fetch_batch_failures bank_info start_date end_date : forall s,
  (api_failures (fst s)
   <= api_failures (fst (fetch_batch bank_info start_date end_date s)))%nat
  /\ same_store (snd s) (snd (fetch_batch bank_info start_date end_date s)).
Proof.
  unfold fetch_batch. induction bank_info as [| item l IH]; intros s; cbn [fold_left].
  - split; [lia | apply same_store_refl].
  - destruct (try_fetch_bank_failures start_date end_date s item) as [H1 S1].
    destruct (IH (try_fetch_bank start_date end_date s item)) as [H2 S2].
    split; [lia | apply (same_store_trans _ _ _ S1 S2)].
Qed.

(** The counter only grows along the retries: a retry clears the two
    dicts, not the counter. *)
Lemma retry_loop_failures bank_info start_date end_date remaining :
  forall retry_count s,
  (api_failures (fst s)
   <= api_failures (fst (retry_loop bank_info start_date end_date remaining retry_count s)))%nat
  /\ same_store (snd s)
       (snd (retry_loop bank_info start_date end_date remaining retry_count s)).
Proof.
  induction remaining as [| n IH]; intros retry_count s; cbn [retry_loop].
  - split; [lia | apply same_store_refl].
  - set (s0 := if (0 <? retry_count)%nat then (cleared (fst s), snd s) else s).
    assert (api_failures (fst s0) = api_failures (fst s) /\ snd s0 = snd s) as [H0 W0].
    { unfold s0. destruct (0 <? retry_count)%nat; split; reflexivity. }
    destruct (fetch_batch_failures bank_info start_date end_date s0) as [H1 S1].
    rewrite W0 in S1.
    destruct (institutions_data (fst (fetch_batch bank_info start_date end_date s0))).
    + destruct (IH (S retry_count) (fetch_batch bank_info start_date end_date s0))
        as [H2 S2].
      split; [lia | apply (same_store_trans _ _ _ S1 S2)].
    + split; [lia | assumption].
Qed.

End Failures.

(** ** The fallback data *)

Section Fallback.

Import FDICAPIClient BankDataRepository Examples.

Lemma keys_dict_put k v d : keys (dict_put k v d) = keys_put k (keys d).
Proof.
  unfold keys, keys_put. induction d as [| [k' v'] d IH]; [reflexivity|].
  cbn [dict_put map fst existsb].
  destruct (key_eqb k k'); cbn [map fst orb]; [reflexivity|].
  rewrite IH. destruct (existsb (key_eqb k) (map fst d)); reflexivity.
Qed.

Lemma dict_put_values (P : pyval -> Prop) k v d :
  Forall (fun kv => P (snd kv)) d -> P v ->
  Forall (fun kv => P (snd kv)) (dict_put k v d).
Proof.
  intros Hd Hv. induction Hd as [| [k' v'] d Hx Hd IH]; cbn [dict_put].
  - constructor; [assumption | constructor].
  - destruct (key_eqb k k'); constructor; assumption.
Qed.

Lemma dict_get_values (P : pyval -> Prop) k v d :
  Forall (fun kv => P (snd kv)) d -> dict_get k d = Some v -> P v.
Proof.
  induction 1 as [| [k' v'] d Hx Hd IH]; cbn [dict_get]; [discriminate|].
  destruct (key_eqb k k'); [|assumption].
  intros H. inversion H. subst. assumption.
Qed.

Lemma dict_get_of_keys k d :
  existsb (key_eqb k) (keys d) = true -> exists v, dict_get k d = Some v.
Proof.
  unfold keys. induction d as [| [k' v'] d IH]; cbn [map fst existsb dict_get];
    [discriminate|].
  destruct (key_eqb k k'); [eauto | assumption].
Qed.

Lemma fallback_record_ok bank_name base_assets start d w :
  exists record w',
    fallback_record bank_name base_assets start d w = (Ok record, w') /\
    text_of record = Calendar.strftime d /\ same_store w w'.
Proof.
  unfold fallback_record, mbind, uniform, ret.
  destruct (is_goldman bank_name); cbn; eexists; eexists;
    (split; [reflexivity | split; [reflexivity | repeat split]]).
Qed.

Lemma fallback_records_ok bank_name base_assets start quarters : forall w,
  exists records w',
    fallback_records bank_name base_assets start quarters w = (Ok records, w') /\
    map text_of records = map Calendar.strftime quarters /\ same_store w w'.
Proof.
  induction quarters as [| d quarters IH]; intros w.
  - exists [], w. repeat split.
  - destruct (fallback_record_ok bank_name base_assets start d w)
      as (record & w1 & Hrec & Htext & Hs1).
    destruct (IH w1) as (records & w2 & Hrecs & Htexts & Hs2).
    exists (record :: records), w2.
    cbn [fallback_records]. unfold mbind at 1. rewrite Hrec.
    unfold mbind at 1. rewrite Hrecs. cbn [ret map].
    rewrite Htext, Htexts.
    split; [reflexivity | split; [reflexivity | apply (same_store_trans _ _ _ Hs1 Hs2)]].
Qed.

Lemma timestamp_parsed s d : parse_yyyymmdd s = Some d -> timestamp s = Ok d.
Proof. unfold timestamp. cbn [to_datetime]. intros ->. reflexivity. Qed.

(** One bank of the fallback: its name is stored in both dicts, the
    financial records are one for each quarter end of the window. *)
Lemma fallback_bank_ok start_date end_date sd ed cert name inst fin w :
  parse_yyyymmdd start_date = Some sd -> parse_yyyymmdd end_date = Some ed ->
  Forall (fun kv => quarterly sd ed (snd kv)) fin ->
  exists inst' fin' w',
    fallback_bank start_date end_date (bank cert name) (inst, fin) w
      = (Ok (inst', fin'), w') /\
    keys inst' = keys_put (PStr name) (keys inst) /\
    keys fin' = keys_put (PStr name) (keys fin) /\
    Forall (fun kv => quarterly sd ed (snd kv)) fin' /\
    same_store w w'.
Proof.
  intros Hs He Hfin.
  set (base := if among (PStr name) LARGE_BANKS then 500000000000
               else if among (PStr name) MEDIUM_BANKS then 100000000000
                    else 50000000000).
  destruct (fallback_records_ok (PStr name) base sd (Calendar.date_range sd ed) w)
    as (records & w' & Hrecs & Htexts & Hsame).
  exists (dict_put (PStr name) (PDict [(PStr "NAME", PStr name); (PStr "CERT", PStr cert)]) inst),
         (dict_put (PStr name) (PList records) fin), w'.
  split; [|split; [apply keys_dict_put | split; [apply keys_dict_put | split]]].
  - unfold fallback_bank, bank. cbn [py_getitem dict_get key_eqb hash_key hkey_eqb String.eqb
      Ascii.eqb Bool.eqb lift mbind py_setitem bind].
    unfold mbind, lift. cbn [py_getitem]. cbn.
    rewrite (timestamp_parsed _ _ Hs), (timestamp_parsed _ _ He).
    match goal with
    | |- context [fallback_records ?a ?b ?c ?d ?e] =>
        change (fallback_records a b c d e)
          with (fallback_records (PStr name) base sd (Calendar.date_range sd ed) w)
    end.
    rewrite Hrecs. reflexivity.
  - apply dict_put_values; [assumption|]. exists records. split; [reflexivity | assumption].
  - assumption.
Qed.

Lemma fallback_banks_ok start_date end_date sd ed banks :
  parse_yyyymmdd start_date = Some sd -> parse_yyyymmdd end_date = Some ed ->
  Forall (fun b => exists cert name, b = bank cert name) banks ->
  forall inst fin w,
    Forall (fun kv => quarterly sd ed (snd kv)) fin ->
    exists inst' fin' w',
      fallback_banks start_date end_date banks (inst, fin) w = (Ok (inst', fin'), w') /\
      keys inst' = fold_left (fun ks b => keys_put (name_of b) ks) banks (keys inst) /\
      keys fin' = fold_left (fun ks b => keys_put (name_of b) ks) banks (keys fin) /\
      Forall (fun kv => quarterly sd ed (snd kv)) fin' /\
      same_store w w'.
Proof.
  intros Hs He. induction 1 as [| b banks (cert & name & ->) Hbanks IH];
    intros inst fin w Hfin.
  - exists inst, fin, w. repeat split. assumption.
  - destruct (fallback_bank_ok start_date end_date sd ed cert name inst fin w Hs He Hfin)
      as (inst1 & fin1 & w1 & Hbank & Hk1 & Hk2 & Hf1 & Hs1).
    destruct (IH inst1 fin1 w1 Hf1) as (inst2 & fin2 & w2 & Hrest & Hk3 & Hk4 & Hf2 & Hs2).
    exists inst2, fin2, w2.
    cbn [fallback_banks fold_left]. unfold mbind at 1. rewrite Hbank.
    cbv beta iota. split; [exact Hrest|].
    rewrite Hk3, Hk4, Hk1, Hk2.
    split; [reflexivity|]. split; [reflexivity|]. split; [assumption|].
    apply (same_store_trans _ _ _ Hs1 Hs2).
Qed.

Lemma BANK_INFO_banks : Forall (fun b => exists cert name, b = bank cert name) BANK_INFO.
Proof. unfold BANK_INFO. repeat constructor; eauto. Qed.

Lemma save_to_cache_written data start_date end_date w :
  disk w (get_cache_path start_date end_date) = WriteOk ->
  exists w',
    save_to_cache data start_date end_date w = (Ok tt, w') /\
    files w' (get_cache_path start_date end_date) = Json (Json.image (float_repr w) data) /\
    calls w' = calls w.
Proof.
  intros Hd. unfold save_to_cache. rewrite Hd. eexists. split; [reflexivity|].
  cbn [files write_file with_files calls]. rewrite String.eqb_refl. split; reflexivity.
Qed.

Lemma save_to_cache_ok data start_date end_date w :
  exists w',
    save_to_cache data start_date end_date w = (Ok tt, w') /\ calls w' = calls w.
Proof.
  unfold save_to_cache. destruct (disk w _); eexists; split; reflexivity.
Qed.

(** The fallback for a window of two calendar dates: both dicts have the
    names of [BANK_INFO] as their keys, in its order, and each bank has a
    record for every quarter end of the window.  The data set is then
    written to the cache. *)
Lemma generate_fallback_data_ok start_date end_date sd ed w :
  parse_yyyymmdd start_date = Some sd -> parse_yyyymmdd end_date = Some ed ->
  exists inst fin w1,
    _generate_fallback_data start_date end_date w
      = (Ok (dataset inst fin),
         snd (save_to_cache (dataset inst fin) start_date end_date w1)) /\
    keys inst = BANK_NAMES /\ keys fin = BANK_NAMES /\
    Forall (fun kv => quarterly sd ed (snd kv)) fin /\
    same_store w w1.
Proof.
  intros Hs He.
  destruct (fallback_banks_ok start_date end_date sd ed BANK_INFO Hs He BANK_INFO_banks
              [] [] w (Forall_nil _))
    as (inst & fin & w1 & Hrun & Hk1 & Hk2 & Hfin & Hsame).
  exists inst, fin, w1.
  split; [| split; [rewrite Hk1; vm_compute; reflexivity
                   | split; [rewrite Hk2; vm_compute; reflexivity
                            | split; assumption]]].
  unfold _generate_fallback_data. unfold mbind at 1.
  match goal with
  | |- context [fallback_banks ?a ?b ?c ?d ?e] =>
      replace (fallback_banks a b c d e) with (Ok (inst, fin), w1)
        by (symmetry; exact Hrun)
  end.
  cbn [fst snd]. unfold mbind.
  destruct (save_to_cache_ok (dataset inst fin) start_date end_date w1) as (w2 & -> & _).
  reflexivity.
Qed.

(** Every bank of [BANK_INFO] has its records in a dict with these keys. *)
Lemma bank_names_present d name :
  keys d = BANK_NAMES -> In name BANK_NAMES -> exists v, dict_get name d = Some v.
Proof.
  intros Hk Hin. apply dict_get_of_keys. rewrite Hk.
  cbn [BANK_NAMES In] in Hin.
  repeat (destruct Hin as [<- | Hin]; [vm_compute; reflexivity |]).
  contradiction.
Qed.

End Fallback.

(** ** The fallback threshold *)

Section Threshold.

Import FDICAPIClient BankDataRepository Examples.

Lemma retry_loop_first bank_info start_date end_date n s :
  retry_loop bank_info start_date end_date (S n) 0 s
  = match institutions_data (fst (fetch_batch bank_info start_date end_date s)) with
    | _ :: _ => fetch_batch bank_info start_date end_date s
    | [] => retry_loop bank_info start_date end_date n 1
              (fetch_batch bank_info start_date end_date s)
    end.
Proof. reflexivity. Qed.

Lemma first_pass_failures bank_info start_date end_date w :
  (api_failures (fst (fetch_batch bank_info start_date end_date (fresh_batch, w)))
   <= api_failures
        (fst (retry_loop bank_info start_date end_date max_retries 0 (fresh_batch, w))))%nat.
Proof.
  unfold max_retries. rewrite retry_loop_first.
  destruct (institutions_data
              (fst (fetch_batch bank_info start_date end_date (fresh_batch, w)))).
  - apply retry_loop_failures.
  - lia.
Qed.

(** Past the threshold the fresh fetch is the fallback. *)
Lemma fetch_fresh_fallback bank_info start_date end_date w :
  (List.length bank_info / 2
   < api_failures
       (fst (retry_loop bank_info start_date end_date max_retries 0 (fresh_batch, w))))%nat ->
  fetch_fresh bank_info start_date end_date w
  = _generate_fallback_data start_date end_date
      (snd (retry_loop bank_info start_date end_date max_retries 0 (fresh_batch, w))).
Proof.
  intros H. unfold fetch_fresh.
  destruct (retry_loop bank_info start_date end_date max_retries 0 (fresh_batch, w))
    as [b w1].
  cbn [fst snd] in *. apply Nat.ltb_lt in H. rewrite H. reflexivity.
Qed.



(** C1, as stated, fails: of a roster of three banks two are not
    resolved (their look-ups get no answer), which is no exception and is
    not counted; the threshold is not reached and the data set of the
    one resolved bank is returned, without the other two. *)
Lemma roster_of_three_counterexample :
  exists inst fin w',
    fetch_data roster_of_three "20200101" "20200630" (blank_world two_unresolved)
      = (Ok (dataset inst fin), w') /\
    api_failures (fst (retry_loop roster_of_three "20200101" "20200630" max_retries 0
                         (fresh_batch, blank_world two_unresolved))) = 0%nat /\
    keys inst = [PStr "Goldman Sachs Bank USA"] /\
    keys fin = [PStr "Goldman Sachs Bank USA"] /\
    dict_mem (PStr "JPMorgan Chase Bank, National Association") fin = false /\
    dict_mem (PStr "Bank of America, National Association") fin = false.
Proof.
  eexists. eexists. eexists.
  split; [vm_compute; reflexivity|].
  repeat split; vm_compute; reflexivity.
Qed.

(** C1, amended: for a roster of three, a cache miss and a window of two
    calendar dates, when two roster items end in an exception in the
    first pass the counter is above the threshold (one, half the roster)
    and [fetch_data] returns the fallback data: synthetic records, one
    for each quarter end of the window, for every bank of [BANK_INFO],
    whatever the roster was. *)
Theorem two_failures_of_three_give_fallback (bank_info : list pyval)
    (start_date end_date : string) (sd ed : date) (w : world) :
  List.length bank_info = 3%nat ->
  cache_miss start_date end_date w = true ->
  parse_yyyymmdd start_date = Some sd ->
  parse_yyyymmdd end_date = Some ed ->
  (2 <= api_failures
          (fst (fetch_batch bank_info start_date end_date (fresh_batch, w))))%nat ->
  exists inst fin w',
    fetch_data bank_info start_date end_date w = (Ok (dataset inst fin), w') /\
    keys inst = BANK_NAMES /\
    keys fin = BANK_NAMES /\
    forall name, In name BANK_NAMES ->
      exists v, dict_get name fin = Some v /\ quarterly sd ed v.
Proof.
  intros Hlen Hmiss Hs He Htwo.
  pose proof (first_pass_failures bank_info start_date end_date w) as Hle.
  assert (List.length bank_info / 2
          < api_failures
              (fst (retry_loop bank_info start_date end_date max_retries 0
                      (fresh_batch, w))))%nat as Hhalf.
  { rewrite Hlen. change (3 / 2)%nat with 1%nat. lia. }
  rewrite (fetch_data_miss _ _ _ _ Hmiss), (fetch_fresh_fallback _ _ _ _ Hhalf).
  destruct (generate_fallback_data_ok start_date end_date sd ed
              (snd (retry_loop bank_info start_date end_date max_retries 0 (fresh_batch, w)))
              Hs He)
    as (inst & fin & w1 & Hrun & Hk1 & Hk2 & Hfin & _).
  exists inst, fin. eexists. split; [exact Hrun|]. split; [assumption|].
  split; [assumption|].
  intros name Hin. destruct (bank_names_present fin name Hk2 Hin) as (v & Hv).
  exists v. split; [assumption|]. apply (dict_get_values _ _ _ _ Hfin Hv).
Qed.

Lemma two_failures_of_three_give_fallback_witness :
  exists inst fin w',
    fetch_data [PStr "Truist Bank"; PStr "First Example Bank"; PStr "Second Example Bank"]
      "20200101" "20200630" (blank_world recovering)
      = (Ok (dataset inst fin), w') /\
    keys inst = BANK_NAMES /\
    keys fin = BANK_NAMES /\
    forall name, In name BANK_NAMES ->
      exists v, dict_get name fin = Some v /\
                quarterly (mkdate 2020 1 1) (mkdate 2020 6 30) v.
Proof.
  apply (two_failures_of_three_give_fallback
           [PStr "Truist Bank"; PStr "First Example Bank"; PStr "Second Example Bank"]
           "20200101" "20200630" (mkdate 2020 1 1) (mkdate 2020 6 30)
           (blank_world recovering)).
  - reflexivity.
  - reflexivity.
  - reflexivity.
  - reflexivity.
  - vm_compute. lia.
Defined.

(** C8 fails on this input: the institution of the first bank is stored,
    then its financials raise (the data of the envelope is null and
    cannot be iterated); the failure is counted once, which is not above
    the threshold, and the data set returned has an institution without
    financials. *)
Lemma institution_without_financials :
  exists inst fin w',
    fetch_data roster_of_three "20200101" "20200630" (blank_world null_financials)
      = (Ok (dataset inst fin), w') /\
    api_failures (fst (retry_loop roster_of_three "20200101" "20200630" max_retries 0
                         (fresh_batch, blank_world null_financials))) = 1%nat /\
    keys inst = [ PStr "Goldman Sachs Bank USA";
                  PStr "JPMorgan Chase Bank, National Association";
                  PStr "Bank of America, National Association" ] /\
    keys fin = [ PStr "JPMorgan Chase Bank, National Association";
                 PStr "Bank of America, National Association" ] /\
    dict_mem (PStr "Goldman Sachs Bank USA") inst = true /\
    dict_mem (PStr "Goldman Sachs Bank USA") fin = false.
Proof.
  eexists. eexists. eexists.
  split; [vm_compute; reflexivity|].
  repeat split; vm_compute; reflexivity.
Qed.

End Threshold.

(** ** Fetching twice *)

Section Idempotence.

Import FDICAPIClient BankDataRepository Examples.

Lemma quiet_ret {A} (a : A) : quiet (ret a).
Proof. intros w. apply same_store_refl. Qed.

Lemma quiet_lift {A} (r : result A) : quiet (lift r).
Proof. intros w. apply same_store_refl. Qed.

Lemma quiet_uniform low high : quiet (uniform low high).
Proof. intros w. repeat split. Qed.

Lemma quiet_bind {A B} (c : M world A) (k : A -> M world B) :
  quiet c -> (forall a, quiet (k a)) -> quiet (mbind c k).
Proof.
  intros Hc Hk w. unfold mbind. specialize (Hc w).
  destruct (c w) as [[a | e] w']; cbn [snd] in *.
  - apply (same_store_trans _ _ _ Hc (Hk a w')).
  - assumption.
Qed.

Ltac quiet :=
  repeat first
    [ apply quiet_ret
    | apply quiet_lift
    | apply quiet_uniform
    | apply quiet_bind; [| intros ?]
    | match goal with
      | |- quiet (match ?x with _ => _ end) => destruct x
      | |- quiet (let '(_, _) := ?x in _) => destruct x
      end ].

Lemma fallback_record_quiet bank_name base_assets start d :
  quiet (fallback_record bank_name base_assets start d).
Proof. unfold fallback_record. quiet. Qed.

Lemma fallback_records_quiet bank_name base_assets start quarters :
  quiet (fallback_records bank_name base_assets start quarters).
Proof.
  induction quarters as [| d quarters IH]; cbn [fallback_records].
  - apply quiet_ret.
  - apply quiet_bind; [apply fallback_record_quiet | intros record].
    apply quiet_bind; [exact IH | intros records]. apply quiet_ret.
Qed.

Lemma fallback_bank_quiet start_date end_date bank_info acc :
  quiet (fallback_bank start_date end_date bank_info acc).
Proof.
  unfold fallback_bank. destruct acc as [inst fin].
  repeat first
    [ apply quiet_lift
    | apply quiet_ret
    | apply fallback_records_quiet
    | apply quiet_bind; [| intros ?] ].
Qed.

Lemma fallback_banks_quiet start_date end_date banks : forall acc,
  quiet (fallback_banks start_date end_date banks acc).
Proof.
  induction banks as [| b banks IH]; intros acc; cbn [fallback_banks].
  - apply quiet_ret.
  - apply quiet_bind; [apply fallback_bank_quiet | intros acc']. apply IH.
Qed.

(** What the fallback returns is a data set, written to the cache as
    the last step. *)
Lemma generate_fallback_data_inv start_date end_date w d w' :
  _generate_fallback_data start_date end_date w = (Ok d, w') ->
  exists inst fin w2,
    d = dataset inst fin /\ same_store w w2 /\
    w' = snd (save_to_cache d start_date end_date w2).
Proof.
  unfold _generate_fallback_data. unfold mbind at 1.
  pose proof (fallback_banks_quiet start_date end_date BANK_INFO ([], []) w) as Hq.
  destruct (fallback_banks start_date end_date BANK_INFO ([], []) w)
    as [[[inst fin] | e] w2]; [|discriminate].
  cbn [fst snd] in *. unfold mbind.
  destruct (save_to_cache_ok (dataset inst fin) start_date end_date w2) as (w3 & Hsave & _).
  rewrite Hsave. cbn [ret]. intros H. inversion H. subst.
  exists inst, fin, w2. rewrite Hsave. repeat split; try reflexivity; apply Hq.
Qed.

(** The same for the fresh fetch as a whole. *)
Lemma fetch_fresh_inv bank_info start_date end_date w d w' :
  fetch_fresh bank_info start_date end_date w = (Ok d, w') ->
  exists inst fin w2,
    d = dataset inst fin /\ same_store w w2 /\
    w' = snd (save_to_cache d start_date end_date w2).
Proof.
  unfold fetch_fresh.
  destruct (retry_loop_failures bank_info start_date end_date max_retries 0
              (fresh_batch, w)) as [_ Hstore].
  destruct (retry_loop bank_info start_date end_date max_retries 0 (fresh_batch, w))
    as [b w1].
  cbn [snd] in Hstore.
  destruct ((List.length bank_info / 2 <? api_failures b)%nat
            || negb (truthy (PDict (institutions_data b)))).
  - intros H. destruct (generate_fallback_data_inv _ _ _ _ _ H)
      as (inst & fin & w2 & Hd & Hs & Hw).
    exists inst, fin, w2. split; [assumption|]. split; [|assumption].
    apply (same_store_trans _ _ _ Hstore Hs).
  - unfold mbind.
    destruct (save_to_cache_ok (dataset (institutions_data b) (financials_data b))
                start_date end_date w1) as (w3 & Hsave & _).
    rewrite Hsave. cbn [ret]. intros H. inversion H. subst.
    exists (institutions_data b), (financials_data b), w1. rewrite Hsave.
    repeat split; try reflexivity; apply Hstore.
Qed.

Lemma image_dataset_truthy repr inst fin :
  truthy (Json.image repr (dataset inst fin)) = true.
Proof. reflexivity. Qed.

Section PyvalInduction.

Variable P : pyval -> Prop.
Hypothesis HNone : P PNone.
Hypothesis HBool : forall b, P (PBool b).
Hypothesis HInt : forall z, P (PInt z).
Hypothesis HFloat : forall f, P (PFloat f).
Hypothesis HStr : forall s, P (PStr s).
Hypothesis HList : forall l, Forall P l -> P (PList l).
Hypothesis HDict : forall d, Forall (fun kv => P (snd kv)) d -> P (PDict d).

(** Induction over a value, through its lists and dicts. *)
Fixpoint pyval_nested_ind (v : pyval) : P v :=
  match v with
  | PNone => HNone
  | PBool b => HBool b
  | PInt z => HInt z
  | PFloat f => HFloat f
  | PStr s => HStr s
  | PList l =>
      HList l ((fix go (l : list pyval) : Forall P l :=
                  match l with
                  | [] => Forall_nil _
                  | x :: l' => Forall_cons x (pyval_nested_ind x) (go l')
                  end) l)
  | PDict d =>
      HDict d ((fix go (d : list (pyval * pyval)) : Forall (fun kv => P (snd kv)) d :=
                  match d with
                  | [] => Forall_nil _
                  | (k, x) :: d' =>
                      Forall_cons (k, x) (pyval_nested_ind x) (go d')
                  end) d)
  end.

End PyvalInduction.

Lemma dict_put_fresh k v d :
  existsb (key_eqb k) (keys d) = false -> dict_put k v d = (d ++ [(k, v)])%list.
Proof.
  unfold keys. induction d as [| [k' v'] d IH]; cbn [map fst existsb dict_put app];
    [reflexivity|].
  destruct (key_eqb k k'); cbn [orb]; [discriminate|].
  intros H. rewrite (IH H). reflexivity.
Qed.

Lemma put_all_distinct d : forall acc,
  distinct_texts (keys d) = true ->
  (forall k, In k (keys d) -> existsb (key_eqb k) (keys acc) = false) ->
  fold_left (fun acc kv => dict_put (fst kv) (snd kv) acc) d acc = (acc ++ d)%list.
Proof.
  unfold keys. induction d as [| [k v] d IH]; intros acc Hd Hacc.
  - cbn. rewrite app_nil_r. reflexivity.
  - cbn [map fst distinct_texts] in Hd.
    apply andb_true_iff in Hd as [Hd Hrest]. apply andb_true_iff in Hd as [_ Hk].
    apply negb_true_iff in Hk.
    cbn [fold_left fst snd].
    rewrite dict_put_fresh by (apply Hacc; left; reflexivity).
    rewrite IH; [rewrite <- app_assoc; reflexivity | assumption |].
    intros k' Hin. unfold keys. rewrite map_app, existsb_app. cbn [map fst existsb].
    rewrite (Hacc k') by (right; assumption). cbn [orb]. rewrite orb_false_r.
    rewrite key_eqb_sym.
    destruct (key_eqb k k') eqn:E; [|reflexivity].
    assert (existsb (key_eqb k) (map fst d) = true) as Hex.
    { apply existsb_exists. exists k'. split; assumption. }
    congruence.
Qed.

Lemma distinct_texts_key repr d :
  distinct_texts (keys d) = true ->
  map (fun kv => match kv with (k, x) => (Json.key repr k, x) end) d = d.
Proof.
  unfold keys. induction d as [| [k v] d IH]; [reflexivity|].
  cbn [map fst distinct_texts]. intros H.
  apply andb_true_iff in H as [H Hrest]. apply andb_true_iff in H as [Hk _].
  rewrite (IH Hrest). destruct k; try discriminate. reflexivity.
Qed.

(** Writing a value in the shape of parsed JSON and reading it back gives
    the value. *)
Lemma image_text_keyed repr v : text_keyed v = true -> Json.image repr v = v.
Proof.
  induction v as [| b | z | f | s | l IH | d IH] using pyval_nested_ind;
    try reflexivity; intros H.
  - cbn [Json.image]. f_equal. cbn [text_keyed] in H.
    induction IH as [| x l Hx Hl IHl]; [reflexivity|].
    cbn [forallb] in H. apply andb_true_iff in H as [H1 H2].
    cbn [map]. rewrite (Hx H1), (IHl H2). reflexivity.
  - cbn [text_keyed] in H. apply andb_true_iff in H as [Hvals Hkeys].
    cbn [Json.image]. f_equal.
    assert (map (fun kv => match kv with (k, x) => (Json.key repr k, Json.image repr x) end) d
            = d) as Hmap.
    { rewrite <- (distinct_texts_key repr d Hkeys) at 2.
      clear Hkeys. induction IH as [| [k x] d Hx Hd IHd]; [reflexivity|].
      cbn [forallb] in Hvals. apply andb_true_iff in Hvals as [H1 H2].
      cbn [map snd] in *. rewrite (Hx H1), (IHd H2). reflexivity. }
    rewrite Hmap. rewrite (put_all_distinct d [] Hkeys); [reflexivity|].
    intros k _. reflexivity.
Qed.

(** C6: after a first invocation that missed the cache and wrote its
    result, a second invocation with the same dates, whatever its roster,
    returns at once what the cache file holds, the world untouched, so
    without a request: the first result as JSON reads it back, which is
    the first result itself when the keys of its dicts are distinct
    texts. *)
Theorem second_fetch_is_served_from_cache (bank_info bank_info' : list pyval)
    (start_date end_date : string) (w w1 : world) (d1 : pyval) :
  cache_miss start_date end_date w = true ->
  disk w (get_cache_path start_date end_date) = WriteOk ->
  fetch_data bank_info start_date end_date w = (Ok d1, w1) ->
  fetch_data bank_info' start_date end_date w1
    = (Ok (Json.image (float_repr w) d1), w1)
  /\ calls (snd (fetch_data bank_info' start_date end_date w1)) = calls w1
  /\ (text_keyed d1 = true ->
      fetch_data bank_info' start_date end_date w1 = (Ok d1, w1)).
Proof.
  intros Hmiss Hdisk Hfirst.
  rewrite (fetch_data_miss _ _ _ _ Hmiss) in Hfirst.
  destruct (fetch_fresh_inv _ _ _ _ _ _ Hfirst)
    as (inst & fin & w2 & -> & (Hfiles & Hdisk2 & Hrepr) & ->).
  destruct (save_to_cache_written (dataset inst fin) start_date end_date w2)
    as (w3 & Hsave & Hfile & _).
  { rewrite Hdisk2. assumption. }
  rewrite Hsave. cbn [snd]. rewrite Hrepr in Hfile.
  assert (fetch_data bank_info' start_date end_date w3
          = (Ok (Json.image (float_repr w) (dataset inst fin)), w3)) as Hsecond.
  { apply (fetch_data_hit _ _ _ _ _ Hfile). apply image_dataset_truthy. }
  split; [exact Hsecond|]. split.
  - rewrite Hsecond. reflexivity.
  - intros Hshape. rewrite Hsecond, (image_text_keyed _ _ Hshape). reflexivity.
Qed.

(** The first fetch ends in the fallback here (the API is silent); the
    second fetch, for another roster, returns the same data set and
    issues no request. *)
Lemma second_fetch_is_served_from_cache_witness :
  exists d1 w1,
    fetch_data BANK_INFO "20200101" "20200630" silent_world = (Ok d1, w1) /\
    fetch_data roster_of_two "20200101" "20200630" w1 = (Ok d1, w1) /\
    calls (snd (fetch_data roster_of_two "20200101" "20200630" w1)) = calls w1.
Proof.
  destruct (fetch_data BANK_INFO "20200101" "20200630" silent_world) as [r w1] eqn:Hrun.
  assert (exists d1, r = Ok d1 /\ text_keyed d1 = true) as (d1 & -> & Hshape).
  { assert (fst (fetch_data BANK_INFO "20200101" "20200630" silent_world) = r) as Hr
      by (rewrite Hrun; reflexivity).
    vm_compute in Hr. subst r. eexists. split; [reflexivity|]. vm_compute. reflexivity. }
  destruct (second_fetch_is_served_from_cache BANK_INFO roster_of_two
              "20200101" "20200630" silent_world w1 d1 eq_refl eq_refl Hrun)
    as (_ & Hcalls & Hsame).
  exists d1, w1. split; [reflexivity|]. split; [exact (Hsame Hshape) | exact Hcalls].
Defined.

End Idempotence.

(** ** The table of the calculator *)

Section Table.

Import BankMetricsCalculator Examples Shapes.

Lemma insert_by_perm {K A} (ltb : K -> K -> bool) (x : K * A) (l : list (K * A)) :
  Permutation (insert_by ltb x l) (x :: l).
Proof.
  induction l as [| y l IH]; cbn [insert_by]; [reflexivity|].
  destruct (ltb (fst y) (fst x)); [|reflexivity].
  rewrite IH. apply perm_swap.
Qed.

Lemma sort_by_perm {K A} (ltb : K -> K -> bool) (l : list (K * A)) :
  Permutation (sort_by ltb l) l.
Proof.
  induction l as [| x l IH]; cbn [sort_by]; [reflexivity|].
  rewrite insert_by_perm. constructor. exact IH.
Qed.

Lemma insert_by_sorted {K A} (ltb : K -> K -> bool) (mu : K -> Z)
    (x : K * A) (l : list (K * A)) :
  (forall a b, ltb a b = (mu a <? mu b)) ->
  ascending ltb l -> ascending ltb (insert_by ltb x l).
Proof.
  intros Hmu. induction l as [| y l IH]; intros Hasc; cbn [insert_by]; [exact I|].
  destruct (ltb (fst y) (fst x)) eqn:Hyx.
  - assert (ascending ltb l) as Hl by (destruct l; [exact I | apply Hasc]).
    specialize (IH Hl).
    destruct l as [| z l']; cbn [insert_by] in *.
    + split; [|exact I]. rewrite Hmu in *. lia.
    + destruct Hasc as [Hzy _].
      destruct (ltb (fst z) (fst x)) eqn:Hzx.
      * split; [exact Hzy | exact IH].
      * split; [|exact IH]. rewrite Hmu in *. lia.
  - split; [exact Hyx | exact Hasc].
Qed.

Lemma sort_by_sorted {K A} (ltb : K -> K -> bool) (mu : K -> Z) (l : list (K * A)) :
  (forall a b, ltb a b = (mu a <? mu b)) ->
  ascending ltb (sort_by ltb l).
Proof.
  intros Hmu. induction l as [| x l IH]; cbn [sort_by]; [exact I|].
  apply (insert_by_sorted ltb mu); assumption.
Qed.

Lemma usable_records l :
  forallb (fun r => convertible r && has_date r) l = true ->
  forall r, In r l -> convertible r = true /\ exists dte, record_date r = Some dte.
Proof.
  intros Hall r Hin. rewrite forallb_forall in Hall.
  specialize (Hall r Hin). apply andb_true_iff in Hall as [Hc Hd].
  split; [exact Hc|]. unfold has_date in Hd.
  destruct (record_date r) as [dte|]; [eauto | discriminate].
Qed.

(** Sorting by report date rearranges the records, whatever their order. *)
Lemma sorted_by_REPDTE_perm l :
  (forall r, In r l -> exists dte, record_date r = Some dte) ->
  exists sorted_financials,
    sorted_by_REPDTE (PList l) = Ok sorted_financials /\
    Permutation sorted_financials l.
Proof.
  intros Hd. unfold sorted_by_REPDTE. cbn [py_iter bind].
  rewrite (keyed_dated l Hd). cbn [bind].
  destruct l as [| a [| b l']].
  - exists []. split; reflexivity.
  - exists [a]. split; reflexivity.
  - set (l := a :: b :: l') in *.
    change (map (fun r => (PStr (text_of r), r)) l)
      with ((PStr (text_of a), a) :: (PStr (text_of b), b)
              :: map (fun r => (PStr (text_of r), r)) l').
    cbv iota beta.
    change ((PStr (text_of a), a) :: (PStr (text_of b), b)
              :: map (fun r => (PStr (text_of r), r)) l')
      with (map (fun r => (PStr (text_of r), r)) l).
    rewrite text_keys_map.
    eexists. split; [reflexivity|].
    rewrite (sort_by_perm String.ltb (map (fun r => (text_of r, r)) l)).
    rewrite map_map. cbn [snd]. rewrite map_id. reflexivity.
Qed.

Lemma all_metrics_usable financials_data :
  forallb (fun kv => usable (snd kv)) financials_data = true ->
  exists records rows,
    all_metrics financials_data = Ok rows /\
    Forall2 (fun r row => dict_get (PStr "Date") row = Some (PStr (text_of r)))
            records rows /\
    (forall r, In r records -> exists dte, record_date r = Some dte) /\
    List.length records = total_records financials_data.
Proof.
  induction financials_data as [| [bank_name financials] banks IH]; intros Hall.
  - exists [], []. repeat split; [constructor | intros r []].
  - cbn [forallb snd] in Hall. apply andb_true_iff in Hall as [Hu Hrest].
    destruct (IH Hrest) as (records & more & Hmore & Hdates & Hdated & Hlen).
    destruct financials as [| | | | | l |]; try discriminate.
    cbn [usable] in Hu. pose proof (usable_records l Hu) as Hl.
    destruct (sorted_by_REPDTE_perm l) as (sorted_financials & Hsort & Hperm);
      [intros r Hin; apply (Hl r Hin)|].
    assert (forall r, In r sorted_financials ->
              convertible r = true /\ exists dte, record_date r = Some dte) as Hs.
    { intros r Hin. apply Hl. apply (Permutation_in _ Hperm Hin). }
    destruct (bank_rows_spec bank_name sorted_financials Hs sorted_financials 0 eq_refl)
      as (rows & Hrows & Hrd & _).
    exists (sorted_financials ++ records)%list, (rows ++ more)%list.
    cbn [all_metrics]. rewrite Hsort. cbn [bind]. rewrite Hrows. cbn [bind].
    rewrite Hmore. cbn [bind].
    split; [reflexivity|]. split; [apply Forall2_app; assumption|].
    split.
    + intros r Hin. apply in_app_or in Hin as [Hin | Hin];
        [apply (Hs r Hin) | apply (Hdated r Hin)].
    + rewrite length_app, Hlen. unfold total_records. cbn [map list_sum snd record_count].
      rewrite (Permutation_length Hperm). reflexivity.
Qed.

Lemma combine_dates_read todo : forall rows,
  Forall2 (fun r row => dict_get (PStr "Date") row = Some (PStr (text_of r))) todo rows ->
  (forall r, In r todo -> exists dte, record_date r = Some dte) ->
  dates_read (combine (map date_of todo) rows).
Proof.
  induction todo as [| r todo IH]; intros rows HF Hd d row Hin.
  - destruct Hin.
  - inversion HF as [| r' row' todo' rows' Hrow Hrest]; subst.
    cbn [map combine] in Hin. destruct Hin as [Heq | Hin].
    + inversion Heq; subst. destruct (Hd r (or_introl eq_refl)) as (dte & Hdte).
      destruct (date_of_text r dte Hdte) as [Hp _].
      exists (text_of r). split; [exact Hrow|].
      unfold date_of. rewrite Hdte. exact Hp.
    + apply (IH rows' Hrest); [intros r0 H0; apply Hd; right; exact H0 | exact Hin].
Qed.

(** The table of a dataset of usable records: the rows of [all_metrics]
    with their dates, sorted by date. *)
Lemma calculate_metrics_table financials_data :
  forallb (fun kv => usable (snd kv)) financials_data = true ->
  (0 < total_records financials_data)%nat ->
  exists records rows,
    all_metrics financials_data = Ok rows /\
    Forall2 (fun r row => dict_get (PStr "Date") row = Some (PStr (text_of r)))
            records rows /\
    (forall r, In r records -> exists dte, record_date r = Some dte) /\
    List.length records = total_records financials_data /\
    calculate_metrics financials_data
    = Ok (sort_by date_ltb (combine (map date_of records) (DataFrame rows))).
Proof.
  intros Hall Hpos.
  destruct (all_metrics_usable financials_data Hall)
    as (records & rows & Hrows & Hdates & Hdated & Hlen).
  exists records, rows. repeat (split; [assumption|]).
  pose proof (Forall2_length Hdates) as Hl.
  rewrite (calculate_metrics_rows _ rows Hrows) by (intros ->; cbn in Hl; lia).
  rewrite (dated_rows records (DataFrame rows) (DataFrame_dates _ _ Hdates) Hdated).
  reflexivity.
Qed.

Lemma sorted_table_length records (rows : list dict) :
  List.length records = List.length rows ->
  List.length (sort_by date_ltb (combine (map date_of records) rows)) = List.length rows.
Proof.
  intros Hl. rewrite (Permutation_length (sort_by_perm date_ltb _)).
  rewrite length_combine, length_map. lia.
Qed.

(** X1.  For every dataset in which each bank has a list of records with
    a report date and base fields in the range of [float], in any order,
    and which has at least one record, [calculate_metrics] returns a
    table with one row for each record of each bank, in an order in which
    no row is followed by a row of an earlier date; the date of a row is
    the date its cell [Date] spells. *)
Theorem calculate_metrics_one_row_per_record financials_data :
  forallb (fun kv => usable (snd kv)) financials_data = true ->
  (0 < total_records financials_data)%nat ->
  exists table,
    calculate_metrics financials_data = Ok table /\
    List.length table = total_records financials_data /\
    ascending date_ltb table /\
    dates_read table.
Proof.
  intros Hall Hpos.
  destruct (calculate_metrics_table financials_data Hall Hpos)
    as (records & rows & Hrows & Hdates & Hdated & Hlen & Hrun).
  pose proof (Forall2_length Hdates) as Hl.
  rewrite <- (DataFrame_length rows) in Hl.
  eexists. split; [exact Hrun|]. unfold frame_row. split; [|split].
  - rewrite (sorted_table_length records _ Hl). lia.
  - apply (sort_by_sorted date_ltb date_ord). reflexivity.
  - intros d r Hin. apply (Permutation_in _ (sort_by_perm date_ltb _)) in Hin.
    exact (combine_dates_read records _ (DataFrame_dates _ _ Hdates) Hdated d r Hin).
Qed.

Lemma calculate_metrics_one_row_per_record_witness :
  exists table,
    calculate_metrics two_banks = Ok table /\
    List.length table = total_records two_banks /\
    ascending date_ltb table /\
    dates_read table.
Proof.
  apply (calculate_metrics_one_row_per_record two_banks);
    [vm_compute; reflexivity | vm_compute; lia].
Defined.

Lemma all_metrics_without_records financials_data :
  forallb (fun kv => no_records (snd kv)) financials_data = true ->
  all_metrics financials_data = Ok [].
Proof.
  induction financials_data as [| [bank_name financials] banks IH]; intros Hall;
    [reflexivity|].
  cbn [forallb snd] in Hall. apply andb_true_iff in Hall as [Hn Hrest].
  destruct financials as [| | | | | [| r l] |]; try discriminate.
  cbn [all_metrics]. rewrite (IH Hrest). reflexivity.
Qed.

(** X2.  When no bank of the dataset has a record (the dataset is empty,
    or every list of records is), [calculate_metrics] raises [KeyError]:
    the frame made of no row has no column [Date]. *)
Theorem calculate_metrics_without_records financials_data :
  forallb (fun kv => no_records (snd kv)) financials_data = true ->
  calculate_metrics financials_data = Raise KeyError.
Proof.
  intros Hall. unfold calculate_metrics.
  rewrite (all_metrics_without_records financials_data Hall). reflexivity.
Qed.

Lemma calculate_metrics_without_records_witness :
  calculate_metrics [(PStr "Truist Bank", PList []); (PStr "Citibank", PList [])]
  = Raise KeyError.
Proof.
  apply calculate_metrics_without_records. reflexivity.
Defined.

Lemma all_metrics_rearranged financials_data financials_data' :
  Forall2 rearranged financials_data financials_data' ->
  all_metrics financials_data = all_metrics financials_data'.
Proof.
  induction 1 as [| [k v] [k' v'] fd fd' (Hk & l & l' & periods & Hv & Hv' & Hp & Hp' & Hc)
                    Hrest IH]; [reflexivity|].
  cbn [fst snd] in *. subst k' v v'. cbn [all_metrics].
  rewrite (sorted_permutation l periods Hp Hc), (sorted_permutation l' periods Hp' Hc).
  rewrite IH. reflexivity.
Qed.

(** X16.  The order in which the records of a bank arrive does not
    matter: two datasets with the same banks, in the same order, whose
    lists hold the same records of distinct report dates in different
    orders, give the same result of [calculate_metrics]. *)
Theorem record_order_is_irrelevant financials_data financials_data' :
  Forall2 rearranged financials_data financials_data' ->
  calculate_metrics financials_data = calculate_metrics financials_data'.
Proof.
  intros H. unfold calculate_metrics. rewrite (all_metrics_rearranged _ _ H). reflexivity.
Qed.

Lemma record_order_is_irrelevant_witness :
  calculate_metrics [(PStr "Truist Bank", PList (cre_records "2000" "3000"))]
  = calculate_metrics [(PStr "Truist Bank", PList (rev (cre_records "2000" "3000")))].
Proof.
  apply record_order_is_irrelevant. constructor; [|constructor].
  split; [reflexivity|].
  exists (cre_records "2000" "3000"), (rev (cre_records "2000" "3000")),
         (cre_records "2000" "3000").
  split; [reflexivity|]. split; [reflexivity|]. split; [reflexivity|].
  split; [apply Permutation_sym, Permutation_rev | reflexivity].
Defined.

(** X20.  The growth rate looks back twelve records, not three years.
    For one bank with any number of records of distinct report dates and
    base fields in the range of [float], given in any order ([periods]
    is the list in the order of the dates), [calculate_metrics] returns
    the rows in that order.  The rate [g] that the calculator stores for
    the record at position [k] is None when [k < 12]; from position 12 on
    it is computed from the aggregates of the records at positions [k]
    and [k - 12] of [periods], whatever the dates of the two records are.
    The column of the frame holds these rates [cells] as they are when
    none of them is a float, and as floats, None reading NaN, when one
    is. *)
Theorem growth_looks_back_twelve_records (bank_name : pyval)
    (financials periods : list pyval) :
  Permutation financials periods ->
  periods <> [] ->
  chronological periods = true ->
  forallb convertible periods = true ->
  exists rows cells,
    calculate_metrics [(bank_name, PList financials)] = Ok rows /\
    map fst rows = map date_of periods /\
    List.length cells = List.length periods /\
    (forall k g, nth_error cells k = Some g -> expected_growth periods k g) /\
    forall k row, nth_error rows k = Some row ->
      exists g, nth_error cells k = Some g /\
                growth_rate row
                = Some (if existsb is_float cells then as_float g else g).
Proof.
  intros Hperm Hne Hchron Hconv.
  destruct (growth_of_one_bank bank_name financials periods Hperm Hne Hchron Hconv)
    as (all & rows & cells & _ & Hrun & Hdates & Hlen & Hexp & _ & Hframe).
  exists rows, cells. repeat (split; [assumption|]).
  intros k row Hk.
  assert (nth_error (map growth_rate rows) k = Some (growth_rate row)) as Hm
    by (rewrite nth_error_map, Hk; reflexivity).
  rewrite Hframe, nth_error_map in Hm.
  destruct (nth_error cells k) as [g|]; [|discriminate].
  exists g. split; [reflexivity|]. inversion Hm. reflexivity.
Qed.

Lemma growth_looks_back_twelve_records_witness :
  exists rows cells,
    calculate_metrics [(PStr "Truist Bank", PList (rev (cre_records "2000" "3000")))]
      = Ok rows /\
    map fst rows = map date_of (cre_records "2000" "3000") /\
    List.length cells = List.length (cre_records "2000" "3000") /\
    (forall k g, nth_error cells k = Some g ->
       expected_growth (cre_records "2000" "3000") k g) /\
    forall k row, nth_error rows k = Some row ->
      exists g, nth_error cells k = Some g /\
                growth_rate row
                = Some (if existsb is_float cells then as_float g else g).
Proof.
  apply (growth_looks_back_twelve_records (PStr "Truist Bank")
           (rev (cre_records "2000" "3000")) (cre_records "2000" "3000")).
  - apply Permutation_sym, Permutation_rev.
  - discriminate.
  - reflexivity.
  - reflexivity.
Defined.

Lemma keyed_by_REPDTE_missing pre d post :
  (forall r, In r pre -> exists k, py_getitem r "REPDTE" = Ok k) ->
  dict_get (PStr "REPDTE") d = None ->
  keyed_by_REPDTE (pre ++ PDict d :: post)%list = Raise KeyError.
Proof.
  intros Hpre Hd. induction pre as [| r pre IH]; cbn [app keyed_by_REPDTE].
  - cbn [py_getitem]. rewrite Hd. reflexivity.
  - destruct (Hpre r (or_introl eq_refl)) as (k & ->). cbn [bind].
    rewrite IH; [reflexivity|]. intros r' Hin. apply Hpre. right. exact Hin.
Qed.

(** X21.  One record without a report date aborts the whole table.  When
    the banks before it give their rows and the list of a bank holds a
    dict without the key [REPDTE] (after records that have one),
    [calculate_metrics] raises [KeyError], even when that record is the
    only record of its bank. *)
Theorem record_without_date_raises (before after : dict) (rows : list dict)
    (bank_name : pyval) (pre post : list pyval) (d : dict) :
  all_metrics before = Ok rows ->
  (forall r, In r pre -> exists k, py_getitem r "REPDTE" = Ok k) ->
  dict_get (PStr "REPDTE") d = None ->
  calculate_metrics
    (before ++ (bank_name, PList (pre ++ PDict d :: post)%list) :: after)%list
  = Raise KeyError.
Proof.
  intros Hbefore Hpre Hd. unfold calculate_metrics.
  assert (all_metrics
            (before ++ (bank_name, PList (pre ++ PDict d :: post)%list) :: after)%list
          = Raise KeyError) as ->; [|reflexivity].
  revert rows Hbefore. induction before as [| [k v] before IH]; intros rows Hbefore.
  - cbn [app all_metrics]. unfold sorted_by_REPDTE. cbn [py_iter bind].
    rewrite (keyed_by_REPDTE_missing pre d post Hpre Hd). reflexivity.
  - cbn [app all_metrics] in *.
    destruct (sorted_by_REPDTE v) as [sorted_financials | e]; [|discriminate].
    cbn [bind] in *.
    destruct (bank_rows k sorted_financials 0 sorted_financials) as [rows1 | e];
      [|discriminate].
    cbn [bind] in *.
    destruct (all_metrics before) as [more | e] eqn:Hmore; [|discriminate].
    rewrite (IH more eq_refl). reflexivity.
Qed.

Lemma record_without_date_raises_witness :
  calculate_metrics
    [ (PStr "Truist Bank", PList (cre_records "2000" "3000"));
      (PStr "Citibank", PList [PDict [(PStr "ASSET", PInt 1)]]) ]
  = Raise KeyError.
Proof.
  eapply (record_without_date_raises
            [(PStr "Truist Bank", PList (cre_records "2000" "3000"))] []
            _ (PStr "Citibank") [] [] [(PStr "ASSET", PInt 1)]).
  - vm_compute. reflexivity.
  - intros r [].
  - reflexivity.
Defined.

End Table.

(** ** The row of one record *)

Ltac base_cell := apply in_base; vm_compute; reflexivity.

Section RowContract.

Import BankMetricsCalculator Examples Shapes.

Lemma extract_items_keys fields d : forall items,
  extract_items fields (PDict d) = Ok items ->
  map fst items = map (fun nc => PStr (fst nc)) fields.
Proof.
  induction fields as [| [name code] fields IH]; intros items H.
  - inversion H. reflexivity.
  - cbn [extract_items] in H. rewrite py_get_raw in H. cbn [bind] in H.
    destruct (safe_float (raw d code)) as [x|e]; [|discriminate]. cbn [bind] in H.
    destruct (extract_items fields (PDict d)) as [rest|e]; [|discriminate].
    inversion H. cbn [map fst]. rewrite (IH rest eq_refl). reflexivity.
Qed.

Lemma dict_get_puts_other name kvs : forall m,
  existsb (String.eqb name) (map fst kvs) = false ->
  dict_get (PStr name) (puts kvs m) = dict_get (PStr name) m.
Proof.
  induction kvs as [| [k v] kvs IH]; intros m H; [reflexivity|].
  cbn [map fst existsb] in H. apply orb_false_iff in H as [Hk Hrest].
  unfold puts. cbn [fold_left fst snd]. fold (puts kvs (dict_put (PStr k) v m)).
  rewrite (IH _ Hrest). apply dict_get_put_str_other.
  rewrite String.eqb_sym. exact Hk.
Qed.

Lemma keys_puts kvs : forall m,
  keys (puts kvs m) = fold_left (fun ks name => keys_put (PStr name) ks) (map fst kvs) (keys m).
Proof.
  induction kvs as [| [k v] kvs IH]; intros m; [reflexivity|].
  unfold puts. cbn [fold_left fst snd map]. fold (puts kvs (dict_put (PStr k) v m)).
  rewrite IH, keys_dict_put. reflexivity.
Qed.

Lemma capital_ratios_puts metrics cb re recons mf nonres comre ci ag cc :
  dict_get (PStr "Real Estate Loans") metrics = Some (PFloat re) ->
  dict_get (PStr "RE Construction and Land Development") metrics = Some (PFloat recons) ->
  dict_get (PStr "Multifamily") metrics = Some (PFloat mf) ->
  dict_get (PStr "Loans to Nonresidential Properties") metrics = Some (PFloat nonres) ->
  dict_get (PStr "Commercial Real Estate Loans not Secured by Real Estate") metrics
    = Some (PFloat comre) ->
  dict_get (PStr "Commercial and Industrial Loans") metrics = Some (PFloat ci) ->
  dict_get (PStr "Agriculture Loans") metrics = Some (PFloat ag) ->
  dict_get (PStr "Credit Cards") metrics = Some (PFloat cc) ->
  _calculate_capital_ratios metrics cb
  = Ok (puts (ratio_cells re recons mf nonres comre ci ag cc cb) metrics).
Proof.
  intros Hre Hrecons Hmf Hnonres Hcomre Hci Hag Hcc.
  unfold _calculate_capital_ratios, ratio_cells.
  destruct (Float.gtb cb CAPITAL_FLOOR).
  - unfold metric. get_put.
    rewrite Hre. cbn [bind]. get_put.
    rewrite Hrecons. cbn [bind]. get_put.
    rewrite Hci. cbn [bind]. get_put.
    rewrite Hag. cbn [bind]. get_put.
    rewrite Hcc. cbn [bind]. get_put.
    rewrite Hrecons, Hmf, Hnonres, Hcomre. cbn [bind]. reflexivity.
  - reflexivity.
Qed.

Lemma charge_off_puts m acl nco :
  dict_get (PStr "Allowance for Credit Loss") m = Some (PFloat acl) ->
  dict_get (PStr "Total Loans and Leases Net Charge-Offs Quarterly") m = Some (PFloat nco) ->
  _calculate_charge_off_metrics m
  = Ok (dict_put (PStr CHARGE_OFF_RATIO) (charge_off_cell acl nco) m).
Proof.
  intros Hacl Hnco. unfold _calculate_charge_off_metrics, charge_off_cell, metric.
  rewrite Hacl. cbn [bind].
  destruct (Float.gtb acl (Float.of_Z 1000)); [|reflexivity].
  rewrite Hnco. reflexivity.
Qed.

Lemma ratio_cells_names re recons mf nonres comre ci ag cc cb :
  map fst (ratio_cells re recons mf nonres comre ci ag cc cb)
  = if Float.gtb cb CAPITAL_FLOOR then CAPITAL_RATIOS_ABOVE else CAPITAL_RATIOS.
Proof. unfold ratio_cells. destruct (Float.gtb cb CAPITAL_FLOOR); reflexivity. Qed.

Lemma base_name_not_derived name code :
  In (name, code) BASE_METRICS -> existsb (String.eqb name) DERIVED = false.
Proof.
  assert (forallb (fun nc => negb (existsb (String.eqb (fst nc)) DERIVED)) BASE_METRICS
          = true) as H by (vm_compute; reflexivity).
  rewrite forallb_forall in H. intros Hin. specialize (H _ Hin). cbn [fst] in H.
  apply negb_true_iff in H. exact H.
Qed.

Lemma not_derived_ratio name (cells : list (string * pyval)) :
  existsb (String.eqb name) DERIVED = false ->
  (map fst cells = CAPITAL_RATIOS \/ map fst cells = CAPITAL_RATIOS_ABOVE) ->
  existsb (String.eqb name) (map fst cells) = false.
Proof.
  intros H [-> | ->]; cbn [DERIVED CAPITAL_RATIOS CAPITAL_RATIOS_ABOVE existsb app] in *;
    repeat (apply orb_false_iff in H as [? H]);
    repeat (apply orb_false_iff; split); assumption || reflexivity.
Qed.

(** The row that [calculate_metrics] makes of one record. *)
Lemma metrics_row_contract bank_name d s dte sorted_financials i :
  convertible (PDict d) = true ->
  raw d "REPDTE" = PStr s -> parse_yyyymmdd s = Some dte ->
  base_usable sorted_financials i = true ->
  exists row acl nco,
    metrics_row bank_name sorted_financials i (PDict d) = Ok row /\
    safe_float (raw d "LNATRES") = Ok acl /\
    safe_float (raw d "NTLNLSQ") = Ok nco /\
    (keys row = row_columns CAPITAL_RATIOS \/ keys row = row_columns CAPITAL_RATIOS_ABOVE) /\
    dict_get (PStr "Bank") row = Some bank_name /\
    dict_get (PStr "Date") row = Some (PStr s) /\
    (forall name code, In (name, code) BASE_METRICS ->
       exists x, dict_get (PStr name) row = Some (PFloat x) /\
                 safe_float (raw d code) = Ok x) /\
    dict_get (PStr CHARGE_OFF_RATIO) row = Some (charge_off_cell acl nco) /\
    ratios_uniform row.
Proof.
  intros Hc Hraw Hd Hold.
  assert (forall name code, In (name, code) BASE_METRICS ->
            in_float_range (raw d code) = true) as Hr.
  { intros name code. apply convertible_fields. assumption. }
  destruct (extract_items_ok BASE_METRICS d Hr) as (items & Hitems).
  pose proof (extract_items_keys _ _ _ Hitems) as Hkeys.
  set (row0 := (PStr "Bank", bank_name) :: (PStr "Date", raw d "REPDTE") :: items).
  assert (_extract_basic_metrics bank_name (PDict d) = Ok row0) as Hrow0.
  { unfold _extract_basic_metrics. rewrite py_get_raw. cbn [bind].
    rewrite Hitems. reflexivity. }
  pose proof (extract_basic_metrics_cells _ _ _ Hrow0) as Hcell.
  destruct (Hcell "Common Equity Tier 1 Before Adjustments" "CT1BADJ") as (ct1badj & C1 & _);
    [base_cell|].
  destruct (Hcell "Bank Equity Capital" "EQ") as (eq & C2 & _); [base_cell|].
  destruct (Hcell "Perpetual Preferred Stock" "EQPP") as (eqpp & C3 & _); [base_cell|].
  destruct (Hcell "Tier 1 (Core) Capital" "RBCT1J") as (tier1 & C4 & _); [base_cell|].
  destruct (Hcell "Allowance for Credit Loss" "LNATRES") as (acl & C5 & Sacl); [base_cell|].
  destruct (Hcell "Total Loans and Leases Net Charge-Offs Quarterly" "NTLNLSQ")
    as (nco & C6 & Snco); [base_cell|].
  destruct (Hcell "Real Estate Loans" "LNRE") as (re & L1 & _); [base_cell|].
  destruct (Hcell "RE Construction and Land Development" "LNRECONS")
    as (recons & L2 & _); [base_cell|].
  destruct (Hcell "Multifamily" "LNREMULT") as (mf & L3 & _); [base_cell|].
  destruct (Hcell "Loans to Nonresidential Properties" "LNRENRES")
    as (nonres & L4 & _); [base_cell|].
  destruct (Hcell "Commercial Real Estate Loans not Secured by Real Estate" "LNCOMRE")
    as (comre & L5 & _); [base_cell|].
  destruct (Hcell "Commercial and Industrial Loans" "LNCI") as (ci & L6 & _); [base_cell|].
  destruct (Hcell "Agriculture Loans" "LNAG") as (ag & L7 & _); [base_cell|].
  destruct (Hcell "Credit Cards" "LNCRCD") as (cc & L8 & _); [base_cell|].
  assert (dict_get (PStr "Date") row0 = Some (PStr s)) as HDate.
  { unfold row0. cbn [dict_get]. rewrite !key_eqb_str. cbn. rewrite Hraw. reflexivity. }
  assert (dict_get (PStr "Bank") row0 = Some bank_name) as HBank.
  { unfold row0. cbn [dict_get]. rewrite !key_eqb_str. reflexivity. }
  destruct (capital_base_total row0 d s dte _ _ _ _ _ C1 C2 C3 C4 C5 Hraw Hd)
    as (cecl & cb & Hcb).
  set (m1 := dict_put (PStr "CECL Transition Amount") cecl row0).
  set (cells := ratio_cells re recons mf nonres comre ci ag cc cb).
  assert (_calculate_capital_ratios m1 cb = Ok (puts cells m1)) as Hm2.
  { apply capital_ratios_puts; unfold m1; get_put; assumption. }
  assert (map fst cells = CAPITAL_RATIOS \/ map fst cells = CAPITAL_RATIOS_ABOVE) as Hnames.
  { unfold cells. rewrite ratio_cells_names.
    destruct (Float.gtb cb CAPITAL_FLOOR); [right | left]; reflexivity. }
  assert (exists g, forall m, _calculate_cre_growth_rate m sorted_financials i (PDict d)
                              = Ok (dict_put (PStr GROWTH_RATE) g m)) as (g & Hg).
  { destruct (non_owner_occupied_ok d Hc) as (c & Hnoo).
    destruct (Nat.lt_ge_cases i 12) as [Hlt | Hge].
    - exists PNone. intros m. apply (cre_growth_rate_early _ _ _ _ c); assumption.
    - unfold base_usable in Hold. apply Nat.leb_le in Hge as Hge'. rewrite Hge' in Hold.
      destruct (nth_error sorted_financials (i - 12)) as [old|] eqn:Hnth; [|discriminate].
      pose proof Hold as Hco.
      destruct (convertible_dict old Hco) as (od & ->).
      destruct (non_owner_occupied_ok od Hco) as (o & Ho).
      exists (growth_value c o). intros m.
      apply (cre_growth_rate_late _ _ _ _ (PDict od)); assumption. }
  set (m2 := puts cells m1).
  set (m3 := dict_put (PStr GROWTH_RATE) g m2).
  assert (forall name, existsb (String.eqb name) DERIVED = false ->
            dict_get (PStr name) m3 = dict_get (PStr name) row0) as Hframe.
  { intros name Hname. pose proof (not_derived_ratio name cells Hname Hnames) as Hn.
    unfold m3, m2, m1.
    cbn [DERIVED CAPITAL_RATIOS existsb app] in Hname.
    repeat (apply orb_false_iff in Hname as [? Hname]).
    rewrite dict_get_put_str_other by (rewrite String.eqb_sym; assumption).
    rewrite dict_get_puts_other by exact Hn.
    rewrite dict_get_put_str_other by (rewrite String.eqb_sym; assumption).
    reflexivity. }
  assert (metrics_row bank_name sorted_financials i (PDict d)
          = Ok (dict_put (PStr CHARGE_OFF_RATIO) (charge_off_cell acl nco) m3)) as Hrow.
  { unfold metrics_row. rewrite Hrow0. cbn [bind]. rewrite Hcb. cbn [bind]. fold m1.
    rewrite Hm2. cbn [bind]. fold m2. rewrite Hg. cbn [bind]. fold m3.
    apply charge_off_puts; rewrite Hframe by (vm_compute; reflexivity); assumption. }
  exists (dict_put (PStr CHARGE_OFF_RATIO) (charge_off_cell acl nco) m3), acl, nco.
  split; [exact Hrow|]. split; [exact Sacl|]. split; [exact Snco|].
  split; [|split; [|split; [|split; [|split]]]].
  - rewrite keys_dict_put. unfold m3. rewrite keys_dict_put. unfold m2.
    rewrite keys_puts. unfold m1. rewrite keys_dict_put.
    unfold row0, keys. cbn [map fst]. rewrite Hkeys.
    destruct Hnames as [-> | ->]; [left | right]; vm_compute; reflexivity.
  - rewrite dict_get_put_str_other by (vm_compute; reflexivity).
    rewrite Hframe by (vm_compute; reflexivity). exact HBank.
  - rewrite dict_get_put_str_other by (vm_compute; reflexivity).
    rewrite Hframe by (vm_compute; reflexivity). exact HDate.
  - intros name code Hin. pose proof (base_name_not_derived name code Hin) as Hn.
    destruct (Hcell name code Hin) as (x & Hx & Sx). exists x. split; [|exact Sx].
    rewrite dict_get_put_str_other.
    + rewrite Hframe by exact Hn. exact Hx.
    + cbn [DERIVED CAPITAL_RATIOS existsb app] in Hn.
      repeat (apply orb_false_iff in Hn as [? Hn]). rewrite String.eqb_sym. assumption.
  - apply dict_get_put_str.
  - unfold ratios_uniform, cells, ratio_cells in *.
    destruct (Float.gtb cb CAPITAL_FLOOR); [right | left]; intros name Hin;
      cbn [CAPITAL_RATIOS In] in Hin;
      repeat (destruct Hin as [<- | Hin]); try contradiction;
      unfold m3, m2, puts; cbn [fold_left fst snd map CAPITAL_RATIOS];
      get_put; eauto.
Qed.

Lemma gtb_nan x y : Float.is_nan x = true -> Float.gtb x y = false.
Proof. destruct x; try discriminate. intros _. destruct y; reflexivity. Qed.

(** X3.  In the row that [calculate_metrics] makes of a record with a
    report date and base fields in the range of [float], the cell
    [Net Charge-Offs / Allowance for Credit Loss] is always filled: with
    the allowance [acl] and the net charge-offs [nco] that [safe_float]
    reads from the fields [LNATRES] and [NTLNLSQ], it is the float
    [(nco / acl) * 100] when [acl > 1000], and the integer [0], not the
    null marker, when [acl <= 1000] or [acl] is a NaN. *)
Theorem charge_off_ratio_in_row bank_name financial s dte sorted_financials i :
  convertible (PDict financial) = true ->
  raw financial "REPDTE" = PStr s -> parse_yyyymmdd s = Some dte ->
  base_usable sorted_financials i = true ->
  exists row acl nco,
    metrics_row bank_name sorted_financials i (PDict financial) = Ok row /\
    safe_float (raw financial "LNATRES") = Ok acl /\
    safe_float (raw financial "NTLNLSQ") = Ok nco /\
    (Float.gtb acl (Float.of_Z 1000) = true ->
       dict_get (PStr "Net Charge-Offs / Allowance for Credit Loss") row
       = Some (PFloat (Float.mul (Float.div nco acl) (Float.of_Z 100)))) /\
    (Float.leb acl (Float.of_Z 1000) = true \/ Float.is_nan acl = true ->
       dict_get (PStr "Net Charge-Offs / Allowance for Credit Loss") row
       = Some (PInt 0)).
Proof.
  intros Hc Hraw Hd Hold.
  destruct (metrics_row_contract bank_name financial s dte sorted_financials i Hc Hraw Hd Hold)
    as (row & acl & nco & Hrow & Sacl & Snco & _ & _ & _ & _ & Hcell & _).
  exists row, acl, nco. repeat (split; [assumption|]).
  change (PStr "Net Charge-Offs / Allowance for Credit Loss") with (PStr CHARGE_OFF_RATIO).
  rewrite Hcell. unfold charge_off_cell. split.
  - intros ->. reflexivity.
  - intros [Hle | Hnan].
    + rewrite (leb_not_gtb _ _ Hle). reflexivity.
    + rewrite (gtb_nan _ _ Hnan). reflexivity.
Qed.

Lemma charge_off_ratio_in_row_witness :
  exists row acl nco,
    metrics_row (PStr "Truist Bank") (cre_records "2000" "3000") 12 (PDict last_record)
    = Ok row /\
    safe_float (raw last_record "LNATRES") = Ok acl /\
    safe_float (raw last_record "NTLNLSQ") = Ok nco /\
    (Float.gtb acl (Float.of_Z 1000) = true ->
       dict_get (PStr "Net Charge-Offs / Allowance for Credit Loss") row
       = Some (PFloat (Float.mul (Float.div nco acl) (Float.of_Z 100)))) /\
    (Float.leb acl (Float.of_Z 1000) = true \/ Float.is_nan acl = true ->
       dict_get (PStr "Net Charge-Offs / Allowance for Credit Loss") row
       = Some (PInt 0)).
Proof.
  apply (charge_off_ratio_in_row (PStr "Truist Bank") last_record "20230331"
           (mkdate 2023 3 31) (cre_records "2000" "3000") 12);
    vm_compute; reflexivity.
Defined.

(** X4.  The row that [calculate_metrics] makes of a record with a report
    date and base fields in the range of [float] has exactly sixty cells:
    [Bank], [Date], the 49 base metrics, the CECL transition amount, the
    six capital ratios, the growth rate and the charge-off ratio, the six
    ratios in one of two orders.  [Bank] is the name it was given, [Date]
    the text of the report date, and every base metric still holds what
    [safe_float] made of its field: no derived metric overwrites one. *)
Theorem row_has_sixty_cells bank_name financial s dte sorted_financials i :
  convertible (PDict financial) = true ->
  raw financial "REPDTE" = PStr s -> parse_yyyymmdd s = Some dte ->
  base_usable sorted_financials i = true ->
  exists row,
    metrics_row bank_name sorted_financials i (PDict financial) = Ok row /\
    (keys row = row_columns CAPITAL_RATIOS \/ keys row = row_columns CAPITAL_RATIOS_ABOVE) /\
    List.length (keys row) = 60%nat /\
    dict_get (PStr "Bank") row = Some bank_name /\
    dict_get (PStr "Date") row = Some (PStr s) /\
    forall name code, In (name, code) BASE_METRICS ->
      exists x, dict_get (PStr name) row = Some (PFloat x) /\
                safe_float (raw financial code) = Ok x.
Proof.
  intros Hc Hraw Hd Hold.
  destruct (metrics_row_contract bank_name financial s dte sorted_financials i Hc Hraw Hd Hold)
    as (row & acl & nco & Hrow & _ & _ & Hkeys & HBank & HDate & Hbase & _ & _).
  exists row. split; [exact Hrow|].
  split; [exact Hkeys|].
  split; [destruct Hkeys as [-> | ->]; reflexivity|].
  repeat (split; [assumption|]). exact Hbase.
Qed.

Lemma row_has_sixty_cells_witness :
  exists row,
    metrics_row (PStr "Truist Bank") (cre_records "2000" "3000") 12 (PDict last_record)
    = Ok row /\
    (keys row = row_columns CAPITAL_RATIOS \/ keys row = row_columns CAPITAL_RATIOS_ABOVE) /\
    List.length (keys row) = 60%nat /\
    dict_get (PStr "Bank") row = Some (PStr "Truist Bank") /\
    dict_get (PStr "Date") row = Some (PStr "20230331") /\
    forall name code, In (name, code) BASE_METRICS ->
      exists x, dict_get (PStr name) row = Some (PFloat x) /\
                safe_float (raw last_record code) = Ok x.
Proof.
  apply (row_has_sixty_cells (PStr "Truist Bank") last_record "20230331"
           (mkdate 2023 3 31) (cre_records "2000" "3000") 12);
    vm_compute; reflexivity.
Defined.

(** X15.  In the row of a record with a report date and base fields in
    the range of [float], the six capital ratios are filled together:
    they are all the null marker or all floats, never a mixture. *)
Theorem capital_ratios_all_or_none bank_name financial s dte sorted_financials i :
  convertible (PDict financial) = true ->
  raw financial "REPDTE" = PStr s -> parse_yyyymmdd s = Some dte ->
  base_usable sorted_financials i = true ->
  exists row,
    metrics_row bank_name sorted_financials i (PDict financial) = Ok row /\
    ((forall name, In name CAPITAL_RATIOS -> dict_get (PStr name) row = Some PNone) \/
     (forall name, In name CAPITAL_RATIOS ->
        exists x, dict_get (PStr name) row = Some (PFloat x))).
Proof.
  intros Hc Hraw Hd Hold.
  destruct (metrics_row_contract bank_name financial s dte sorted_financials i Hc Hraw Hd Hold)
    as (row & acl & nco & Hrow & _ & _ & _ & _ & _ & _ & _ & Huni).
  exists row. split; [exact Hrow | exact Huni].
Qed.

Lemma capital_ratios_all_or_none_witness :
  exists row,
    metrics_row (PStr "Truist Bank") (cre_records "2000" "3000") 12 (PDict last_record)
    = Ok row /\
    ((forall name, In name CAPITAL_RATIOS -> dict_get (PStr name) row = Some PNone) \/
     (forall name, In name CAPITAL_RATIOS ->
        exists x, dict_get (PStr name) row = Some (PFloat x))).
Proof.
  apply (capital_ratios_all_or_none (PStr "Truist Bank") last_record "20230331"
           (mkdate 2023 3 31) (cre_records "2000" "3000") 12);
    vm_compute; reflexivity.
Defined.

End RowContract.

(** ** The cache files *)

Section CacheFiles.

Import FDICAPIClient BankDataRepository Examples Shapes.

Lemma append_inj_l p : forall a b, (p ++ a)%string = (p ++ b)%string -> a = b.
Proof.
  induction p as [| c p IH]; intros a b H; [exact H|].
  cbn [append] in H. inversion H. apply IH. assumption.
Qed.

Lemma append_length_inj a : forall a' b b',
  String.length a = String.length a' ->
  (a ++ b)%string = (a' ++ b')%string -> a = a' /\ b = b'.
Proof.
  induction a as [| c a IH]; intros [| c' a'] b b' Hlen H; try discriminate.
  - split; [reflexivity | exact H].
  - cbn [append] in H. inversion H. subst c'.
    cbn [String.length] in Hlen. apply Nat.succ_inj in Hlen.
    destruct (IH a' b b' Hlen) as [-> ->]; [assumption|]. split; reflexivity.
Qed.

Lemma append_length a : forall b,
  String.length (a ++ b) = (String.length a + String.length b)%nat.
Proof.
  induction a as [| c a IH]; intros b; [reflexivity|].
  cbn [append String.length]. rewrite IH. reflexivity.
Qed.

Lemma append_inj_r a a' t : (a ++ t)%string = (a' ++ t)%string -> a = a'.
Proof.
  intros H. assert (String.length a = String.length a') as Hlen.
  { pose proof (f_equal String.length H) as Hl. rewrite !append_length in Hl. lia. }
  destruct (append_length_inj a a' t t Hlen H) as [-> _]. reflexivity.
Qed.

(** The windows of two date texts of one length have different files. *)
Lemma get_cache_path_inj start_date end_date start_date' end_date' :
  String.length start_date = String.length start_date' ->
  get_cache_path start_date end_date = get_cache_path start_date' end_date' ->
  start_date = start_date' /\ end_date = end_date'.
Proof.
  intros Hlen H. unfold get_cache_path in H.
  do 3 apply append_inj_l in H.
  destruct (append_length_inj _ _ _ _ Hlen H) as [-> H'].
  apply append_inj_l in H'. apply append_inj_r in H'. split; [reflexivity | exact H'].
Qed.

Lemma save_to_cache_files data start_date end_date w p :
  p <> get_cache_path start_date end_date ->
  files (snd (save_to_cache data start_date end_date w)) p = files w p.
Proof.
  intros Hp. apply String.eqb_neq in Hp. unfold save_to_cache.
  destruct (disk w (get_cache_path start_date end_date)); cbn [snd];
    unfold write_file, with_files; cbn [files]; try rewrite Hp; reflexivity.
Qed.


(** X6.  The cache entries of two windows do not interfere: for date
    texts of one length (such as the eight characters of [YYYYMMDD]),
    saving data for one window leaves what [load_cached_data] returns for
    any other window as it was.  Without the condition on the lengths two
    windows can share a file. *)
Theorem windows_do_not_interfere (data : pyval)
    (start_date end_date start_date' end_date' : string) (w : world) :
  String.length start_date = String.length start_date' ->
  (start_date <> start_date' \/ end_date <> end_date') ->
  get_cache_path start_date end_date <> get_cache_path start_date' end_date'
  /\ fst (load_cached_data start_date' end_date'
            (snd (save_to_cache data start_date end_date w)))
     = fst (load_cached_data start_date' end_date' w)
  /\ get_cache_path "2020_01" "02" = get_cache_path "2020" "01_02".
Proof.
  intros Hlen Hdiff.
  assert (get_cache_path start_date' end_date' <> get_cache_path start_date end_date) as Hp.
  { intros H. symmetry in H. destruct (get_cache_path_inj _ _ _ _ Hlen H) as [H1 H2].
    destruct Hdiff as [Hd | Hd]; contradiction. }
  split; [intros H; apply Hp; symmetry; exact H|]. split; [|reflexivity].
  unfold load_cached_data.
  rewrite (save_to_cache_files data start_date end_date w _ Hp).
  destruct (files w (get_cache_path start_date' end_date')); reflexivity.
Qed.

Lemma windows_do_not_interfere_witness :
  get_cache_path "20200101" "20200331" <> get_cache_path "20200101" "20200630"
  /\ fst (load_cached_data "20200101" "20200630"
            (snd (save_to_cache (PDict [(PStr "x", PInt 1)]) "20200101" "20200331"
                    (cached_world (PDict [])))))
     = fst (load_cached_data "20200101" "20200630" (cached_world (PDict [])))
  /\ get_cache_path "2020_01" "02" = get_cache_path "2020" "01_02".
Proof.
  apply (windows_do_not_interfere (PDict [(PStr "x", PInt 1)])
           "20200101" "20200331" "20200101" "20200630" (cached_world (PDict []))).
  - reflexivity.
  - right. discriminate.
Defined.

End CacheFiles.

(** ** The fetch, item by item *)

Section Items.

Import FDICAPIClient BankDataRepository Examples Shapes.

Lemma later_refl w : later 0 w w.
Proof. split; [lia|]. split; [reflexivity | apply same_store_refl]. Qed.

Lemma later_trans n m w1 w2 w3 :
  later n w1 w2 -> later m w2 w3 -> later (n + m) w1 w3.
Proof.
  intros (C1 & N1 & S1) (C2 & N2 & S2). split; [lia|].
  split; [congruence | apply (same_store_trans _ _ _ S1 S2)].
Qed.

Lemma later_called w : later 1 w (called w).
Proof. split; [cbn; lia|]. repeat split. Qed.

Lemma get_data_world endpoint filters fields w :
  snd (get_data endpoint filters fields w) = called w.
Proof.
  unfold get_data.
  destruct (network w (calls w) _) as [| | status body]; try reflexivity.
  destruct (is_error_status status); [reflexivity|]. destruct body; reflexivity.
Qed.

Lemma get_institutions_world filters fields w :
  snd (get_institutions filters fields w) = called w.
Proof.
  unfold get_institutions, mbind, lift.
  pose proof (get_data_world "institutions" filters fields w) as H.
  destruct (get_data "institutions" filters fields w) as [[v | e] w']; exact H.
Qed.

Lemma get_financials_world cert filters fields w :
  snd (get_financials cert filters fields w) = called w.
Proof.
  unfold get_financials, mbind, lift.
  match goal with
  | |- context [get_data ?e ?f ?g w] =>
      pose proof (get_data_world e f g w) as H;
      destruct (get_data e f g w) as [[v | err] w']; exact H
  end.
Qed.

Lemma later_twice w : later 2 w (called (called w)).
Proof. apply (later_trans 1 1 _ _ _ (later_called w) (later_called (called w))). Qed.

Ltac stop_at :=
  eexists; eexists; eexists; eexists;
  split; [reflexivity|];
  first
    [ split; [apply later_refl|]; split; [lia | constructor]
    | split; [apply later_called|]; split; [lia | constructor]
    | split; [apply later_twice|]; split; [lia | constructor] ].

(** What one roster item does to the batch and to the world. *)
Lemma fetch_bank_cases start_date end_date bank_item b w :
  exists r b' w' n,
    fetch_bank start_date end_date bank_item (b, w) = (r, (b', w')) /\
    later n w w' /\ (n <= 2)%nat /\ item_effect b r b'.
Proof.
  unfold fetch_bank.
  destruct (lookup_filter bank_item) as [filters|]; [|stop_at].
  unfold mbind at 1, in_world at 1. cbn [fst snd].
  pose proof (get_institutions_world filters institution_fields w) as E.
  destruct (get_institutions filters institution_fields w) as [[institutions|e] w1];
    cbn [snd] in E; subst w1; [|stop_at].
  destruct (negb (truthy institutions)); [stop_at|].
  unfold mbind at 1, lift at 1.
  destruct (first_item institutions) as [bank|e]; [|stop_at].
  destruct bank as [| | | | | |d]; try stop_at.
  destruct (dict_get (PStr "data") d) as [bank_data|]; [|stop_at].
  unfold mbind at 1, lift at 1.
  destruct (py_contains bank_data "NAME") as [has_name|e]; [|stop_at].
  unfold mbind at 1.
  destruct has_name; [|stop_at].
  unfold lift at 1.
  destruct (py_contains bank_data "CERT") as [has_cert|e]; [|stop_at].
  destruct has_cert; cbn [andb]; [|stop_at].
  unfold mbind at 1, lift at 1.
  destruct (py_getitem bank_data "NAME") as [name|e]; [|stop_at].
  unfold mbind at 1, store_institution at 1, py_setitem, bind. cbn [fst snd].
  destruct (hash_key name) as [h|e] eqn:Hh; [|stop_at].
  cbn [institutions_data financials_data api_failures].
  unfold mbind at 1, lift at 1.
  destruct (py_getitem bank_data "CERT") as [cert|e]; [|stop_at].
  unfold mbind at 1, in_world at 1. cbn [fst snd].
  match goal with
  | |- context [get_financials ?c ?f ?g ?w0] =>
      pose proof (get_financials_world c f g w0) as E;
      destruct (get_financials c f g w0) as [[financials|e] w2]
  end; cbn [snd] in E; subst w2; [|stop_at].
  unfold mbind at 1, lift at 1.
  destruct (records_of financials) as [records|e]; [|stop_at].
  unfold mbind, lift, store_financials. cbn [fst snd].
  cbn [institutions_data financials_data api_failures].
  unfold py_setitem, bind. rewrite Hh.
  stop_at.
Qed.

Lemma dict_mem_cons k k0 v0 d :
  dict_mem k ((k0, v0) :: d) = key_eqb k k0 || dict_mem k d.
Proof. unfold dict_mem. cbn [dict_get]. destruct (key_eqb k k0); reflexivity. Qed.

Lemma dict_mem_put k k' v d :
  dict_mem k (dict_put k' v d) = key_eqb k k' || dict_mem k d.
Proof.
  induction d as [| [k0 v0] d IH]; cbn [dict_put].
  - rewrite dict_mem_cons. reflexivity.
  - destruct (key_eqb k' k0) eqn:E.
    + rewrite !dict_mem_cons. destruct (key_eqb k k') eqn:E'; [|reflexivity].
      rewrite (key_eqb_trans _ _ _ E' E). reflexivity.
    + rewrite !dict_mem_cons, IH.
      destruct (key_eqb k k0), (key_eqb k k'); reflexivity.
Qed.

Lemma dict_mem_keys k d : dict_mem k d = existsb (key_eqb k) (keys d).
Proof.
  induction d as [| [k0 v0] d IH]; [reflexivity|].
  rewrite dict_mem_cons, IH. reflexivity.
Qed.

Lemma item_effect_covered b r b' : item_effect b r b' -> covered b -> covered b'.
Proof.
  intros [r0 | e name bank_data | name bank_data records] Hb k;
    cbn [institutions_data financials_data]; [apply Hb | |].
  - intros Hk. rewrite dict_mem_put. rewrite (Hb k Hk). apply orb_true_r.
  - rewrite !dict_mem_put. intros Hk. apply orb_true_iff in Hk as [Hk | Hk].
    + rewrite Hk. reflexivity.
    + rewrite (Hb k Hk). apply orb_true_r.
Qed.

Lemma item_effect_failures b r b' : item_effect b r b' -> api_failures b' = api_failures b.
Proof. intros [r0 | e name bank_data | name bank_data records]; reflexivity. Qed.

(** One roster item: at most two requests, at most one failure more, and
    every bank with records keeps its institution entry. *)
Lemma try_fetch_bank_step start_date end_date s bank_item :
  exists n,
    later n (snd s) (snd (try_fetch_bank start_date end_date s bank_item)) /\
    (n <= 2)%nat /\
    (covered (fst s) -> covered (fst (try_fetch_bank start_date end_date s bank_item))).
Proof.
  destruct s as [b w]. unfold try_fetch_bank.
  destruct (fetch_bank_cases start_date end_date bank_item b w)
    as (r & b' & w' & n & Hrun & Hl & Hn & Heff).
  rewrite Hrun. exists n. cbn [fst snd].
  destruct r as [u | e]; cbn [fst snd]; (split; [exact Hl|]); (split; [exact Hn|]);
    intros Hc; pose proof (item_effect_covered _ _ _ Heff Hc) as Hc'; exact Hc'.
Qed.

Lemma fetch_batch_step bank_info start_date end_date : forall s,
  exists n,
    later n (snd s) (snd (fetch_batch bank_info start_date end_date s)) /\
    (n <= 2 * List.length bank_info)%nat /\
    (covered (fst s) -> covered (fst (fetch_batch bank_info start_date end_date s))).
Proof.
  unfold fetch_batch. induction bank_info as [| item l IH]; intros s; cbn [fold_left].
  - exists 0%nat. split; [apply later_refl|]. split; [lia | auto].
  - destruct (try_fetch_bank_step start_date end_date s item) as (n1 & L1 & B1 & C1).
    destruct (IH (try_fetch_bank start_date end_date s item)) as (n2 & L2 & B2 & C2).
    exists (n1 + n2)%nat. split; [apply (later_trans _ _ _ _ _ L1 L2)|].
    split; [cbn [List.length]; lia | auto].
Qed.

Lemma covered_cleared b : covered (cleared b).
Proof. intros k H. discriminate. Qed.

Lemma retry_loop_step bank_info start_date end_date remaining :
  forall retry_count s,
  exists n,
    later n (snd s)
      (snd (retry_loop bank_info start_date end_date remaining retry_count s)) /\
    (n <= 2 * List.length bank_info * remaining)%nat /\
    (covered (fst s) ->
     covered (fst (retry_loop bank_info start_date end_date remaining retry_count s))).
Proof.
  induction remaining as [| remaining IH]; intros retry_count s; cbn [retry_loop].
  - exists 0%nat. split; [apply later_refl|]. split; [lia | auto].
  - set (s0 := if (0 <? retry_count)%nat then (cleared (fst s), snd s) else s).
    assert (snd s0 = snd s) as Hw by (unfold s0; destruct (0 <? retry_count)%nat; reflexivity).
    assert (covered (fst s) -> covered (fst s0)) as Hc0.
    { unfold s0. destruct (0 <? retry_count)%nat; [intros _; apply covered_cleared | auto]. }
    destruct (fetch_batch_step bank_info start_date end_date s0) as (n1 & L1 & B1 & C1).
    rewrite Hw in L1.
    destruct (institutions_data (fst (fetch_batch bank_info start_date end_date s0))).
    + destruct (IH (S retry_count) (fetch_batch bank_info start_date end_date s0))
        as (n2 & L2 & B2 & C2).
      exists (n1 + n2)%nat. split; [apply (later_trans _ _ _ _ _ L1 L2)|].
      split; [lia | auto].
    + exists n1. split; [exact L1|]. split; [lia | auto].
Qed.

End Items.

(** ** The fetch as a whole *)

Section Fetch.

Import FDICAPIClient BankDataRepository Examples Shapes.

Lemma offline_ret {A} (a : A) : offline (ret a).
Proof. intros w. split; reflexivity. Qed.

Lemma offline_lift {A} (r : result A) : offline (lift r).
Proof. intros w. split; reflexivity. Qed.

Lemma offline_uniform low high : offline (uniform low high).
Proof. intros w. split; reflexivity. Qed.

Lemma offline_bind {A B} (c : M world A) (k : A -> M world B) :
  offline c -> (forall a, offline (k a)) -> offline (mbind c k).
Proof.
  intros Hc Hk w. unfold mbind. destruct (Hc w) as [C1 N1].
  destruct (c w) as [[a | e] w']; cbn [snd] in *.
  - destruct (Hk a w') as [C2 N2]. split; congruence.
  - split; assumption.
Qed.

Lemma offline_save data start_date end_date :
  offline (save_to_cache data start_date end_date).
Proof.
  intros w. unfold save_to_cache.
  destruct (disk w (get_cache_path start_date end_date)); split; reflexivity.
Qed.

Ltac offline :=
  repeat first
    [ apply offline_ret
    | apply offline_lift
    | apply offline_uniform
    | apply offline_save
    | apply offline_bind; [| intros ?]
    | match goal with
      | |- offline (match ?x with _ => _ end) => destruct x
      | |- offline (let '(_, _) := ?x in _) => destruct x
      end ].

Lemma fallback_record_offline bank_name base_assets start d :
  offline (fallback_record bank_name base_assets start d).
Proof. unfold fallback_record. offline. Qed.

Lemma fallback_records_offline bank_name base_assets start quarters :
  offline (fallback_records bank_name base_assets start quarters).
Proof.
  induction quarters as [| d quarters IH]; cbn [fallback_records].
  - apply offline_ret.
  - apply offline_bind; [apply fallback_record_offline | intros record].
    apply offline_bind; [exact IH | intros records]. apply offline_ret.
Qed.

Lemma fallback_bank_offline start_date end_date bank_info acc :
  offline (fallback_bank start_date end_date bank_info acc).
Proof.
  unfold fallback_bank. destruct acc as [inst fin].
  repeat first
    [ apply offline_lift
    | apply offline_ret
    | apply fallback_records_offline
    | apply offline_bind; [| intros ?] ].
Qed.

Lemma fallback_banks_offline start_date end_date banks : forall acc,
  offline (fallback_banks start_date end_date banks acc).
Proof.
  induction banks as [| b banks IH]; intros acc; cbn [fallback_banks].
  - apply offline_ret.
  - apply offline_bind; [apply fallback_bank_offline | intros acc']. apply IH.
Qed.

Lemma generate_fallback_data_offline start_date end_date :
  offline (_generate_fallback_data start_date end_date).
Proof.
  unfold _generate_fallback_data.
  apply offline_bind; [apply fallback_banks_offline | intros acc].
  apply offline_bind; [apply offline_save | intros u]. apply offline_ret.
Qed.

(** The fallback writes no file but that of its window. *)
Lemma generate_fallback_data_files start_date end_date w p :
  p <> get_cache_path start_date end_date ->
  files (snd (_generate_fallback_data start_date end_date w)) p = files w p.
Proof.
  intros Hp. unfold _generate_fallback_data. unfold mbind at 1.
  pose proof (fallback_banks_quiet start_date end_date BANK_INFO ([], []) w) as (Hf & _).
  destruct (fallback_banks start_date end_date BANK_INFO ([], []) w) as [[acc | e] w2];
    cbn [snd] in *; [|rewrite Hf; reflexivity].
  unfold mbind, ret.
  pose proof (save_to_cache_files (dataset (fst acc) (snd acc)) start_date end_date w2 p Hp)
    as Hs.
  destruct (save_to_cache (dataset (fst acc) (snd acc)) start_date end_date w2)
    as [[u | e] w3]; cbn [snd] in *; rewrite Hs, Hf; reflexivity.
Qed.

Lemma covered_fresh : covered fresh_batch.
Proof. intros k H. discriminate. Qed.

(** X7.  After a cache miss, for a window of two calendar dates,
    [fetch_data] returns a dataset that is never empty and in which every
    bank with financial records has an institution entry, whatever the
    roster and whatever the API answers.  (The converse fails: an
    institution can be left without records.) *)
Theorem fetched_records_have_institutions (bank_info : list pyval)
    (start_date end_date : string) (sd ed : date) (w : world) :
  cache_miss start_date end_date w = true ->
  parse_yyyymmdd start_date = Some sd ->
  parse_yyyymmdd end_date = Some ed ->
  exists inst fin w',
    fetch_data bank_info start_date end_date w = (Ok (dataset inst fin), w') /\
    inst <> [] /\
    forall k, dict_mem k fin = true -> dict_mem k inst = true.
Proof.
  intros Hmiss Hsd Hed. rewrite (fetch_data_miss _ _ _ _ Hmiss). unfold fetch_fresh.
  destruct (retry_loop_step bank_info start_date end_date max_retries 0 (fresh_batch, w))
    as (n & _ & _ & Hcov).
  specialize (Hcov covered_fresh).
  destruct (retry_loop bank_info start_date end_date max_retries 0 (fresh_batch, w))
    as [b w1].
  cbn [fst] in Hcov.
  destruct ((List.length bank_info / 2 <? api_failures b)%nat
            || negb (truthy (PDict (institutions_data b)))) eqn:Hcond.
  - destruct (generate_fallback_data_ok start_date end_date sd ed w1 Hsd Hed)
      as (inst & fin & w2 & Hrun & Hki & Hkf & _ & _).
    exists inst, fin. eexists. split; [exact Hrun|]. split.
    + intros ->. discriminate.
    + intros k. rewrite !dict_mem_keys, Hki, Hkf. auto.
  - apply orb_false_iff in Hcond as [_ Hinst]. apply negb_false_iff in Hinst.
    unfold mbind.
    destruct (save_to_cache_ok (dataset (institutions_data b) (financials_data b))
                start_date end_date w1) as (w3 & Hsave & _).
    rewrite Hsave. cbn [ret].
    exists (institutions_data b), (financials_data b), w3.
    split; [reflexivity|]. split; [|exact Hcov].
    intros Hnil. rewrite Hnil in Hinst. discriminate.
Qed.

Lemma fetched_records_have_institutions_witness :
  exists inst fin w',
    fetch_data roster_of_three "20200101" "20200630" (blank_world null_financials)
      = (Ok (dataset inst fin), w') /\
    inst <> [] /\
    forall k, dict_mem k fin = true -> dict_mem k inst = true.
Proof.
  apply (fetched_records_have_institutions roster_of_three "20200101" "20200630"
           (mkdate 2020 1 1) (mkdate 2020 6 30) (blank_world null_financials));
    reflexivity.
Defined.

Lemma fetch_fresh_footprint bank_info start_date end_date w :
  let w' := snd (fetch_fresh bank_info start_date end_date w) in
  (calls w <= calls w' <= calls w + 6 * List.length bank_info)%nat
  /\ network w' = network w
  /\ forall p, p <> get_cache_path start_date end_date -> files w' p = files w p.
Proof.
  cbv zeta. unfold fetch_fresh.
  destruct (retry_loop_step bank_info start_date end_date max_retries 0 (fresh_batch, w))
    as (n & (Hc & Hn & Hf & _) & Hle & _).
  destruct (retry_loop bank_info start_date end_date max_retries 0 (fresh_batch, w))
    as [b w1].
  cbn [fst snd] in *. unfold max_retries in Hle.
  destruct ((List.length bank_info / 2 <? api_failures b)%nat
            || negb (truthy (PDict (institutions_data b)))).
  - destruct (generate_fallback_data_offline start_date end_date w1) as [C N].
    split; [lia|]. split; [congruence|].
    intros p Hp. rewrite (generate_fallback_data_files _ _ _ _ Hp). rewrite Hf. reflexivity.
  - unfold mbind, ret.
    pose proof (offline_save (dataset (institutions_data b) (financials_data b))
                  start_date end_date w1) as [C N].
    pose proof (save_to_cache_files (dataset (institutions_data b) (financials_data b))
                  start_date end_date w1) as Hs.
    destruct (save_to_cache (dataset (institutions_data b) (financials_data b))
                start_date end_date w1) as [[u | e] w3]; cbn [snd] in *;
      (split; [lia|]); (split; [congruence|]);
      intros p Hp; rewrite (Hs p Hp), Hf; reflexivity.
Qed.

(** X8.  Whatever the roster, the dates, the cache and the answers of
    the API, [fetch_data] issues at most [6 * len(bank_info)] requests
    (two for a roster item, in at most three passes) and writes no file
    other than the cache file of its window. *)
Theorem fetch_data_footprint (bank_info : list pyval) (start_date end_date : string)
    (w : world) :
  let w' := snd (fetch_data bank_info start_date end_date w) in
  (calls w <= calls w' <= calls w + 6 * List.length bank_info)%nat
  /\ network w' = network w
  /\ forall p, p <> get_cache_path start_date end_date -> files w' p = files w p.
Proof.
  cbv zeta. unfold fetch_data, mbind, load_cached_data.
  pose proof (fetch_fresh_footprint bank_info start_date end_date w) as Hfresh.
  cbv zeta in Hfresh.
  destruct (files w (get_cache_path start_date end_date)) as [| | | | v];
    cbn [truthy snd]; try exact Hfresh;
    try (split; [lia|]; split; reflexivity).
  destruct (truthy v); [|exact Hfresh].
  cbn [ret snd]. split; [lia|]. split; reflexivity.
Qed.

Lemma api_down_later n w w' : api_down w -> later n w w' -> api_down w'.
Proof. intros H (_ & Hn & _) k rq. rewrite Hn. apply H. Qed.

Lemma get_institutions_down filters fields w :
  api_down w -> get_institutions filters fields w = (Ok (PList []), called w).
Proof.
  intros H. unfold get_institutions, mbind.
  rewrite (get_data_failure "institutions" filters fields w) by apply H.
  reflexivity.
Qed.

Lemma fetch_bank_down start_date end_date bank_item b w :
  api_down w ->
  fetch_bank start_date end_date bank_item (b, w)
  = (Ok tt, (b, if looked_up bank_item then called w else w)).
Proof.
  intros H. unfold fetch_bank, looked_up.
  destruct (lookup_filter bank_item) as [filters|]; [|reflexivity].
  unfold mbind at 1, in_world at 1. cbn [fst snd].
  rewrite (get_institutions_down _ _ _ H). reflexivity.
Qed.

Lemma fetch_batch_down bank_info start_date end_date b : forall w,
  api_down w ->
  exists w',
    fetch_batch bank_info start_date end_date (b, w) = (b, w') /\
    later (List.length (filter looked_up bank_info)) w w'.
Proof.
  unfold fetch_batch. induction bank_info as [| item l IH]; intros w H; cbn [fold_left].
  - exists w. split; [reflexivity | apply later_refl].
  - unfold try_fetch_bank at 2. rewrite (fetch_bank_down _ _ _ _ _ H).
    cbn [filter]. destruct (looked_up item).
    + destruct (IH (called w) (api_down_later _ _ _ H (later_called w))) as (w' & Hrun & Hl).
      exists w'. split; [exact Hrun|]. cbn [List.length].
      apply (later_trans 1 _ _ _ _ (later_called w) Hl).
    + exact (IH w H).
Qed.

Lemma retry_loop_down bank_info start_date end_date remaining : forall retry_count w,
  api_down w ->
  exists w',
    retry_loop bank_info start_date end_date remaining retry_count (fresh_batch, w)
    = (fresh_batch, w') /\
    later (remaining * List.length (filter looked_up bank_info)) w w'.
Proof.
  induction remaining as [| remaining IH]; intros retry_count w H; cbn [retry_loop].
  - exists w. split; [reflexivity | apply later_refl].
  - assert ((if (0 <? retry_count)%nat
             then (cleared (fst (fresh_batch, w)), snd (fresh_batch, w))
             else (fresh_batch, w)) = (fresh_batch, w)) as ->
      by (destruct (0 <? retry_count)%nat; reflexivity).
    destruct (fetch_batch_down bank_info start_date end_date fresh_batch w H)
      as (w1 & Hrun & L1).
    rewrite Hrun. cbn [fst institutions_data fresh_batch].
    destruct (IH (S retry_count) w1 (api_down_later _ _ _ H L1)) as (w2 & Hrun2 & L2).
    exists w2. split; [exact Hrun2|].
    apply (later_trans _ _ _ _ _ L1 L2).
Qed.

(** With the API down the fetch ends in the fallback, after three
    passes of look-ups that find nothing. *)
Lemma fetch_data_down bank_info start_date end_date w :
  cache_miss start_date end_date w = true ->
  api_down w ->
  exists w1,
    fetch_data bank_info start_date end_date w
    = _generate_fallback_data start_date end_date w1 /\
    later (3 * List.length (filter looked_up bank_info)) w w1 /\
    retry_loop bank_info start_date end_date max_retries 0 (fresh_batch, w)
    = (fresh_batch, w1).
Proof.
  intros Hmiss Hdown. rewrite (fetch_data_miss _ _ _ _ Hmiss). unfold fetch_fresh.
  destruct (retry_loop_down bank_info start_date end_date max_retries 0 w Hdown)
    as (w1 & Hloop & Hlater).
  exists w1. rewrite Hloop.
  cbn [fst snd fresh_batch api_failures institutions_data truthy negb].
  rewrite orb_true_r. split; [reflexivity|]. split; [exact Hlater | reflexivity].
Qed.

(** X9.  When the API is down (every request meets a time-out, a
    connection error, an error status or a body that is not JSON), a
    fetch after a cache miss makes three passes over the roster, sends in
    each pass one look-up for every roster item that is a text or a dict
    with a key [cert], counts no failure, and returns the fallback
    dataset of the nine banks of [BANK_INFO], with one record for each
    quarter end of the window. *)
Theorem api_down_gives_fallback (bank_info : list pyval)
    (start_date end_date : string) (sd ed : date) (w : world) :
  cache_miss start_date end_date w = true ->
  parse_yyyymmdd start_date = Some sd ->
  parse_yyyymmdd end_date = Some ed ->
  api_down w ->
  exists inst fin w',
    fetch_data bank_info start_date end_date w = (Ok (dataset inst fin), w') /\
    keys inst = BANK_NAMES /\
    keys fin = BANK_NAMES /\
    (forall name, In name BANK_NAMES ->
       exists v, dict_get name fin = Some v /\ quarterly sd ed v) /\
    calls w' = (calls w + 3 * List.length (filter looked_up bank_info))%nat /\
    api_failures
      (fst (retry_loop bank_info start_date end_date max_retries 0 (fresh_batch, w)))
    = 0%nat.
Proof.
  intros Hmiss Hsd Hed Hdown.
  destruct (fetch_data_down bank_info start_date end_date w Hmiss Hdown)
    as (w1 & Hfetch & (Hc & _) & Hloop).
  rewrite Hfetch, Hloop.
  destruct (generate_fallback_data_ok start_date end_date sd ed w1 Hsd Hed)
    as (inst & fin & w2 & Hrun & Hki & Hkf & Hq & _).
  destruct (generate_fallback_data_offline start_date end_date w1) as [Hcalls _].
  rewrite Hrun in Hcalls. cbn [snd] in Hcalls.
  exists inst, fin. eexists. split; [exact Hrun|].
  split; [exact Hki|]. split; [exact Hkf|]. split; [|split; [|reflexivity]].
  - intros name Hin. destruct (bank_names_present fin name Hkf Hin) as (v & Hv).
    exists v. split; [exact Hv|].
    apply (dict_get_values (quarterly sd ed) name v fin Hq Hv).
  - rewrite Hcalls, Hc. reflexivity.
Qed.

Lemma api_down_gives_fallback_witness :
  exists inst fin w',
    fetch_data [PStr "Truist Bank"; PInt 628; bank "6384" "PNC Bank, National Association"]
      "20200101" "20200630" silent_world = (Ok (dataset inst fin), w') /\
    keys inst = BANK_NAMES /\
    keys fin = BANK_NAMES /\
    (forall name, In name BANK_NAMES ->
       exists v, dict_get name fin = Some v /\
                 quarterly (mkdate 2020 1 1) (mkdate 2020 6 30) v) /\
    calls w' = 6%nat /\
    api_failures
      (fst (retry_loop
              [PStr "Truist Bank"; PInt 628; bank "6384" "PNC Bank, National Association"]
              "20200101" "20200630" max_retries 0 (fresh_batch, silent_world)))
    = 0%nat.
Proof.
  apply (api_down_gives_fallback
           [PStr "Truist Bank"; PInt 628; bank "6384" "PNC Bank, National Association"]
           "20200101" "20200630" (mkdate 2020 1 1) (mkdate 2020 6 30) silent_world);
    try reflexivity.
  intros n rq. reflexivity.
Defined.

Lemma fetch_batch_idle bank_info start_date end_date s :
  forallb (fun item => negb (looked_up item)) bank_info = true ->
  fetch_batch bank_info start_date end_date s = s.
Proof.
  unfold fetch_batch. revert s.
  induction bank_info as [| item l IH]; intros s Hall; [reflexivity|].
  cbn [forallb] in Hall. apply andb_true_iff in Hall as [Hitem Hrest].
  cbn [fold_left]. rewrite <- (IH s Hrest) at 2. f_equal.
  unfold try_fetch_bank, fetch_bank. unfold looked_up in Hitem.
  destruct (lookup_filter item); [discriminate|]. reflexivity.
Qed.

Lemma retry_loop_idle bank_info start_date end_date w :
  forallb (fun item => negb (looked_up item)) bank_info = true ->
  forall remaining retry_count,
    retry_loop bank_info start_date end_date remaining retry_count (fresh_batch, w)
    = (fresh_batch, w).
Proof.
  intros Hall. induction remaining as [| remaining IH]; intros retry_count;
    [reflexivity|].
  cbn [retry_loop].
  assert ((if (0 <? retry_count)%nat
           then (cleared (fst (fresh_batch, w)), snd (fresh_batch, w))
           else (fresh_batch, w)) = (fresh_batch, w)) as ->
    by (destruct (0 <? retry_count)%nat; reflexivity).
  rewrite (fetch_batch_idle _ _ _ _ Hall). cbn [fst institutions_data fresh_batch].
  apply IH.
Qed.

(** X23.  With nothing to look up there is no request.  When the roster
    is empty, or has only items that are neither a text nor a dict with a
    key [cert], a fetch after a cache miss issues no request at all and
    returns what [_generate_fallback_data] returns: the data of the nine
    banks of [BANK_INFO]. *)
Theorem idle_roster_gives_fallback (bank_info : list pyval)
    (start_date end_date : string) (w : world) :
  cache_miss start_date end_date w = true ->
  forallb (fun item => negb (looked_up item)) bank_info = true ->
  fetch_data bank_info start_date end_date w
  = _generate_fallback_data start_date end_date w
  /\ calls (snd (fetch_data bank_info start_date end_date w)) = calls w.
Proof.
  intros Hmiss Hall.
  assert (fetch_data bank_info start_date end_date w
          = _generate_fallback_data start_date end_date w) as Hrun.
  { rewrite (fetch_data_miss _ _ _ _ Hmiss). unfold fetch_fresh.
    rewrite (retry_loop_idle _ _ _ _ Hall).
    cbn [fst snd fresh_batch api_failures institutions_data truthy negb].
    rewrite orb_true_r. reflexivity. }
  split; [exact Hrun|]. rewrite Hrun.
  apply (generate_fallback_data_offline start_date end_date w).
Qed.

Lemma idle_roster_gives_fallback_witness :
  fetch_data [PInt 628; PDict [(PStr "name", PStr "Truist Bank")]]
    "20200101" "20200630" (blank_world two_unresolved)
  = _generate_fallback_data "20200101" "20200630" (blank_world two_unresolved)
  /\ calls (snd (fetch_data [PInt 628; PDict [(PStr "name", PStr "Truist Bank")]]
                   "20200101" "20200630" (blank_world two_unresolved)))
     = calls (blank_world two_unresolved).
Proof.
  apply (idle_roster_gives_fallback [PInt 628; PDict [(PStr "name", PStr "Truist Bank")]]
           "20200101" "20200630" (blank_world two_unresolved));
    reflexivity.
Defined.





(** X19.  Every field that the calculator reads from a record is one
    that the fetch asks the API for: the code of each base metric, and
    [REPDTE], are in the field list of the financial request. *)
Theorem requested_fields_cover_the_metrics :
  (forall name code, In (name, code) BankMetricsCalculator.BASE_METRICS ->
     In code requested_fields)
  /\ In "REPDTE" requested_fields
  /\ In "CERT" requested_fields.
Proof.
  split; [|split; [vm_compute; tauto | vm_compute; tauto]].
  intros name code Hin.
  assert (forallb (fun nc => existsb (String.eqb (snd nc)) requested_fields)
                  BankMetricsCalculator.BASE_METRICS = true) as H by (vm_compute; reflexivity).
  rewrite forallb_forall in H. specialize (H _ Hin). cbn [snd] in H.
  apply existsb_exists in H as (c & Hc & Heq). apply String.eqb_eq in Heq. subst. exact Hc.
Qed.

End Fetch.

(** ** The fallback data and the calculator *)

Section Synthetic.

Import FDICAPIClient BankDataRepository BankMetricsCalculator Examples Shapes.

Lemma date_eqb_eq a b : date_eqb a b = true -> a = b.
Proof.
  destruct a as [y m d], b as [y' m' d']. unfold date_eqb. cbn [year month day]. intros H.
  apply andb_true_iff in H as [H H3]. apply andb_true_iff in H as [H1 H2].
  apply Z.eqb_eq in H1, H2, H3. subst. reflexivity.
Qed.

Lemma parse_year_bounds s d : parse_yyyymmdd s = Some d -> 1678 <= year d <= 2261.
Proof.
  unfold parse_yyyymmdd.
  destruct ((List.length (list_ascii_of_string s) =? 8)%nat
            && forallb FloatOfString.is_digit (list_ascii_of_string s)); [|discriminate].
  match goal with
  | |- (if ?c then _ else _) = _ -> _ => destruct c eqn:Hc; [|discriminate]
  end.
  intros H. injection H as Hd. rewrite <- Hd. cbn [year].
  repeat (apply andb_true_iff in Hc as [Hc ?]).
  apply Z.leb_le in Hc. match goal with H : (_ <=? 2261) = true |- _ => apply Z.leb_le in H end.
  split; assumption.
Qed.

(** The quarter ends of the years that a timestamp can hold read back. *)
Lemma quarter_ends_read_back y q :
  1678 <= y <= 2261 -> In q (Calendar.quarter_ends y) ->
  parse_yyyymmdd (Calendar.strftime q) = Some q.
Proof.
  intros Hy Hq.
  assert (forallb (fun k => forallb reads_back (Calendar.quarter_ends (1678 + Z.of_nat k)))
                  (seq 0 584) = true) as Hall by (vm_compute; reflexivity).
  rewrite forallb_forall in Hall.
  specialize (Hall (Z.to_nat (y - 1678))).
  rewrite Z2Nat.id in Hall by lia. replace (1678 + (y - 1678)) with y in Hall by lia.
  assert (In (Z.to_nat (y - 1678)) (seq 0 584)) as Hin by (apply in_seq; lia).
  specialize (Hall Hin). rewrite forallb_forall in Hall. specialize (Hall q Hq).
  unfold reads_back in Hall.
  destruct (parse_yyyymmdd (Calendar.strftime q)) as [q'|]; [|discriminate].
  apply date_eqb_eq in Hall. subst. reflexivity.
Qed.

Lemma date_range_read_back start_date end_date sd ed q :
  parse_yyyymmdd start_date = Some sd -> parse_yyyymmdd end_date = Some ed ->
  In q (Calendar.date_range sd ed) ->
  parse_yyyymmdd (Calendar.strftime q) = Some q.
Proof.
  intros Hs He Hq. pose proof (parse_year_bounds _ _ Hs). pose proof (parse_year_bounds _ _ He).
  unfold Calendar.date_range in Hq. apply filter_In in Hq as [Hq _].
  apply in_flat_map in Hq as (k & Hk & Hq). apply in_seq in Hk.
  apply (quarter_ends_read_back (year sd + Z.of_nat k)); [lia | exact Hq].
Qed.

Lemma fallback_record_synthetic bank_name base_assets start d w :
  exists record w',
    fallback_record bank_name base_assets start d w = (Ok record, w') /\
    synthetic_record d record.
Proof.
  unfold fallback_record, mbind, uniform, ret.
  destruct (is_goldman bank_name); cbn [fst snd]; eexists; eexists;
    (split; [reflexivity | split; [reflexivity | split; reflexivity]]).
Qed.

Lemma fallback_records_synthetic bank_name base_assets start quarters : forall w,
  exists records w',
    fallback_records bank_name base_assets start quarters w = (Ok records, w') /\
    Forall2 synthetic_record quarters records.
Proof.
  induction quarters as [| d quarters IH]; intros w.
  - exists [], w. split; [reflexivity | constructor].
  - destruct (fallback_record_synthetic bank_name base_assets start d w)
      as (record & w1 & Hrec & Hsyn).
    destruct (IH w1) as (records & w2 & Hrecs & Hall).
    exists (record :: records), w2.
    cbn [fallback_records]. unfold mbind at 1. rewrite Hrec.
    unfold mbind at 1. rewrite Hrecs. cbn [ret].
    split; [reflexivity | constructor; assumption].
Qed.

Lemma fallback_bank_synthetic start_date end_date sd ed cert name inst fin w :
  parse_yyyymmdd start_date = Some sd -> parse_yyyymmdd end_date = Some ed ->
  Forall (fun kv => synthetic sd ed (snd kv)) fin ->
  exists inst' fin' w',
    fallback_bank start_date end_date (bank cert name) (inst, fin) w
      = (Ok (inst', fin'), w') /\
    keys inst' = keys_put (PStr name) (keys inst) /\
    keys fin' = keys_put (PStr name) (keys fin) /\
    Forall (fun kv => synthetic sd ed (snd kv)) fin'.
Proof.
  intros Hs He Hfin.
  set (base := if among (PStr name) LARGE_BANKS then 500000000000
               else if among (PStr name) MEDIUM_BANKS then 100000000000
                    else 50000000000).
  destruct (fallback_records_synthetic (PStr name) base sd (Calendar.date_range sd ed) w)
    as (records & w' & Hrecs & Hsyn).
  exists (dict_put (PStr name) (PDict [(PStr "NAME", PStr name); (PStr "CERT", PStr cert)]) inst),
         (dict_put (PStr name) (PList records) fin), w'.
  split; [|split; [apply keys_dict_put | split; [apply keys_dict_put |]]].
  - unfold fallback_bank, bank. cbn [py_getitem dict_get key_eqb hash_key hkey_eqb String.eqb
      Ascii.eqb Bool.eqb lift mbind py_setitem bind].
    unfold mbind, lift. cbn [py_getitem]. cbn.
    rewrite (timestamp_parsed _ _ Hs), (timestamp_parsed _ _ He).
    match goal with
    | |- context [fallback_records ?a ?b ?c ?d ?e] =>
        change (fallback_records a b c d e)
          with (fallback_records (PStr name) base sd (Calendar.date_range sd ed) w)
    end.
    rewrite Hrecs. reflexivity.
  - apply dict_put_values; [assumption|]. exists records. split; [reflexivity | assumption].
Qed.

Lemma fallback_banks_synthetic start_date end_date sd ed banks :
  parse_yyyymmdd start_date = Some sd -> parse_yyyymmdd end_date = Some ed ->
  Forall (fun b => exists cert name, b = bank cert name) banks ->
  forall inst fin w,
    Forall (fun kv => synthetic sd ed (snd kv)) fin ->
    exists inst' fin' w',
      fallback_banks start_date end_date banks (inst, fin) w = (Ok (inst', fin'), w') /\
      keys inst' = fold_left (fun ks b => keys_put (name_of b) ks) banks (keys inst) /\
      keys fin' = fold_left (fun ks b => keys_put (name_of b) ks) banks (keys fin) /\
      Forall (fun kv => synthetic sd ed (snd kv)) fin'.
Proof.
  intros Hs He. induction 1 as [| b banks (cert & name & ->) Hbanks IH];
    intros inst fin w Hfin.
  - exists inst, fin, w. repeat split. assumption.
  - destruct (fallback_bank_synthetic start_date end_date sd ed cert name inst fin w Hs He Hfin)
      as (inst1 & fin1 & w1 & Hbank & Hk1 & Hk2 & Hf1).
    destruct (IH inst1 fin1 w1 Hf1) as (inst2 & fin2 & w2 & Hrest & Hk3 & Hk4 & Hf2).
    exists inst2, fin2, w2.
    cbn [fallback_banks fold_left]. unfold mbind at 1. rewrite Hbank.
    cbv beta iota. split; [exact Hrest|].
    rewrite Hk3, Hk4, Hk1, Hk2.
    split; [reflexivity|]. split; [reflexivity | assumption].
Qed.

(** The fallback dataset: the nine banks, each with the synthetic records
    of the quarter ends of the window. *)
Lemma generate_fallback_data_synthetic start_date end_date sd ed w :
  parse_yyyymmdd start_date = Some sd -> parse_yyyymmdd end_date = Some ed ->
  exists inst fin w',
    _generate_fallback_data start_date end_date w = (Ok (dataset inst fin), w') /\
    keys inst = BANK_NAMES /\ keys fin = BANK_NAMES /\
    Forall (fun kv => synthetic sd ed (snd kv)) fin.
Proof.
  intros Hs He.
  destruct (fallback_banks_synthetic start_date end_date sd ed BANK_INFO Hs He
              BANK_INFO_banks [] [] w (Forall_nil _))
    as (inst & fin & w1 & Hrun & Hk1 & Hk2 & Hfin).
  destruct (save_to_cache_ok (dataset inst fin) start_date end_date w1) as (w2 & Hsave & _).
  exists inst, fin, w2.
  split; [| split; [rewrite Hk1; vm_compute; reflexivity
                   | split; [rewrite Hk2; vm_compute; reflexivity | assumption]]].
  unfold _generate_fallback_data. unfold mbind at 1.
  match goal with
  | |- context [fallback_banks ?a ?b ?c ?d ?e] =>
      replace (fallback_banks a b c d e) with (Ok (inst, fin), w1)
        by (symmetry; exact Hrun)
  end.
  cbn [fst snd]. unfold mbind. rewrite Hsave. reflexivity.
Qed.

Lemma synthetic_record_dated start_date end_date sd ed q r :
  parse_yyyymmdd start_date = Some sd -> parse_yyyymmdd end_date = Some ed ->
  In q (Calendar.date_range sd ed) -> synthetic_record q r ->
  record_date r = Some q.
Proof.
  intros Hs He Hq (_ & Ht & _).
  pose proof (date_range_read_back _ _ _ _ _ Hs He Hq) as Hback.
  unfold record_date. unfold text_of in Ht.
  destruct (py_get r "REPDTE") as [[| | | | s | |] | e];
    try (rewrite <- Ht in Hback; discriminate).
  rewrite Ht. exact Hback.
Qed.

Lemma Forall2_In_r {A B} (R : A -> B -> Prop) l l' :
  Forall2 R l l' -> forall y, In y l' -> exists x, In x l /\ R x y.
Proof.
  induction 1 as [| x y l l' Hxy Hrest IH]; intros z Hin; [destruct Hin|].
  destruct Hin as [<- | Hin]; [exists x; split; [left; reflexivity | exact Hxy]|].
  destruct (IH z Hin) as (x' & Hx' & Hr). exists x'. split; [right; exact Hx' | exact Hr].
Qed.

Lemma synthetic_usable start_date end_date sd ed v :
  parse_yyyymmdd start_date = Some sd -> parse_yyyymmdd end_date = Some ed ->
  synthetic sd ed v ->
  usable v = true /\ record_count v = List.length (Calendar.date_range sd ed) /\
  exists records, v = PList records /\
    forall r, In r records -> non_owner_occupied r = Ok Float.zero.
Proof.
  intros Hs He (records & -> & Hall). split; [|split].
  - cbn [usable]. apply forallb_forall. intros r Hin.
    destruct (Forall2_In_r _ _ _ Hall r Hin) as (q & Hq & Hsyn).
    pose proof (synthetic_record_dated _ _ _ _ _ _ Hs He Hq Hsyn) as Hd.
    unfold has_date. rewrite Hd. destruct Hsyn as (Hc & _). rewrite Hc. reflexivity.
  - cbn [record_count]. symmetry. apply (Forall2_length Hall).
  - exists records. split; [reflexivity|]. intros r Hin.
    destruct (Forall2_In_r _ _ _ Hall r Hin) as (q & _ & (_ & _ & Hn)). exact Hn.
Qed.

(** The rows of records whose aggregate is zero have no growth rate. *)
Lemma all_metrics_no_growth financials_data :
  forallb (fun kv => usable (snd kv)) financials_data = true ->
  (forall kv records r, In kv financials_data -> snd kv = PList records -> In r records ->
     non_owner_occupied r = Ok Float.zero) ->
  exists rows,
    all_metrics financials_data = Ok rows /\
    Forall (fun row => dict_get (PStr GROWTH_RATE) row = Some PNone) rows.
Proof.
  induction financials_data as [| [bank_name financials] banks IH]; intros Hall Hzero.
  - exists []. split; [reflexivity | constructor].
  - cbn [forallb snd] in Hall. apply andb_true_iff in Hall as [Hu Hrest].
    destruct (IH Hrest) as (more & Hmore & Hnone).
    { intros kv records r Hin. apply Hzero. right. exact Hin. }
    destruct financials as [| | | | | l |]; try discriminate.
    cbn [usable] in Hu. pose proof (usable_records l Hu) as Hl.
    destruct (sorted_by_REPDTE_perm l) as (sorted_financials & Hsort & Hperm);
      [intros r Hin; apply (Hl r Hin)|].
    assert (forall r, In r sorted_financials ->
              convertible r = true /\ exists dte, record_date r = Some dte) as Hs.
    { intros r Hin. apply Hl. apply (Permutation_in _ Hperm Hin). }
    destruct (bank_rows_spec bank_name sorted_financials Hs sorted_financials 0 eq_refl)
      as (rows & Hrows & _ & Hgrowth).
    exists (rows ++ more)%list.
    cbn [all_metrics]. rewrite Hsort. cbn [bind]. rewrite Hrows. cbn [bind].
    rewrite Hmore. cbn [bind]. split; [reflexivity|].
    apply Forall_app. split; [|exact Hnone].
    apply Forall_forall. intros row Hin.
    apply In_nth_error in Hin as (j & Hj).
    destruct (Hgrowth j row Hj) as (g & Hg & [[_ ->] | (_ & cur & old & c & o & _ & Hold & _ & Ho & ->)]);
      [exact Hg|].
    rewrite Hg. f_equal.
    assert (non_owner_occupied old = Ok Float.zero) as Hz.
    { apply (Hzero (bank_name, PList l) l old); [left; reflexivity | reflexivity |].
      apply (Permutation_in _ Hperm). apply (nth_error_In _ _ Hold). }
    rewrite Hz in Ho. inversion Ho. reflexivity.
Qed.

Lemma list_sum_constant {A} (f : A -> nat) n l :
  (forall x, In x l -> f x = n) -> list_sum (map f l) = (List.length l * n)%nat.
Proof.
  induction l as [| x l IH]; intros H; [reflexivity|].
  change (list_sum (map f (x :: l))) with (f x + list_sum (map f l))%nat.
  cbn [List.length]. rewrite (H x (or_introl eq_refl)), IH; [lia|].
  intros y Hy. apply H. right. exact Hy.
Qed.

Lemma synthetic_dataset start_date end_date sd ed fin :
  parse_yyyymmdd start_date = Some sd -> parse_yyyymmdd end_date = Some ed ->
  keys fin = BANK_NAMES ->
  Forall (fun kv => synthetic sd ed (snd kv)) fin ->
  forallb (fun kv => usable (snd kv)) fin = true /\
  total_records fin = (9 * List.length (Calendar.date_range sd ed))%nat /\
  (forall kv records r, In kv fin -> snd kv = PList records -> In r records ->
     non_owner_occupied r = Ok Float.zero).
Proof.
  intros Hs He Hk Hsyn. rewrite Forall_forall in Hsyn. split; [|split].
  - apply forallb_forall. intros kv Hin.
    apply (synthetic_usable _ _ _ _ _ Hs He (Hsyn kv Hin)).
  - unfold total_records.
    rewrite (list_sum_constant _ (List.length (Calendar.date_range sd ed))).
    + replace (List.length fin) with (List.length (keys fin))
        by (unfold keys; apply length_map).
      rewrite Hk. reflexivity.
    + intros kv Hin. apply (synthetic_usable _ _ _ _ _ Hs He (Hsyn kv Hin)).
  - intros kv records r Hin Hv Hr.
    destruct (synthetic_usable _ _ _ _ _ Hs He (Hsyn kv Hin))
      as (_ & _ & records' & Hv' & Hz).
    rewrite Hv in Hv'. inversion Hv'. subst records'. apply Hz. exact Hr.
Qed.

(** The table of a fallback dataset. *)
Lemma synthetic_table start_date end_date sd ed fin :
  parse_yyyymmdd start_date = Some sd -> parse_yyyymmdd end_date = Some ed ->
  keys fin = BANK_NAMES ->
  Forall (fun kv => synthetic sd ed (snd kv)) fin ->
  (Calendar.date_range sd ed = [] -> calculate_metrics fin = Raise KeyError) /\
  (Calendar.date_range sd ed <> [] ->
     exists table,
       calculate_metrics fin = Ok table /\
       List.length table = (9 * List.length (Calendar.date_range sd ed))%nat /\
       ascending date_ltb table /\
       no_growth table).
Proof.
  intros Hs He Hk Hsyn.
  destruct (synthetic_dataset _ _ _ _ _ Hs He Hk Hsyn) as (Husable & Htotal & Hzero).
  split.
  - intros Hq. unfold calculate_metrics.
    rewrite (all_metrics_without_records fin); [reflexivity|].
    apply forallb_forall. intros kv Hin. rewrite Forall_forall in Hsyn.
    destruct (Hsyn kv Hin) as (records & -> & Hall). rewrite Hq in Hall.
    inversion Hall. reflexivity.
  - intros Hq.
    assert (0 < total_records fin)%nat as Hpos.
    { rewrite Htotal. destruct (Calendar.date_range sd ed); [contradiction | cbn; lia]. }
    destruct (calculate_metrics_table fin Husable Hpos)
      as (records & rows & Hrows & Hdates & Hdated & Hlen & Hrun).
    destruct (all_metrics_no_growth fin Husable Hzero) as (rows' & Hrows' & Hnone).
    rewrite Hrows in Hrows'. inversion Hrows'. subst rows'.
    pose proof (Forall2_length Hdates) as Hl.
    rewrite <- (DataFrame_length rows) in Hl.
    eexists. split; [exact Hrun|]. unfold frame_row. split; [|split].
    + rewrite (sorted_table_length records _ Hl). lia.
    + apply (sort_by_sorted date_ltb date_ord). reflexivity.
    + intros row Hin. apply (Permutation_in _ (sort_by_perm date_ltb _)) in Hin.
      destruct row as [d row]. apply in_combine_r in Hin.
      rewrite Forall_forall in Hnone.
      exact (DataFrame_nulls rows GROWTH_RATE Hnone row Hin).
Qed.

(** X10.  The fallback data always feed the calculator.  For a window of
    two calendar dates [_generate_fallback_data] returns a dataset whose
    financial records [calculate_metrics] turns into a table of nine rows
    for each quarter end of the window, ordered by date, in which the
    growth rate of every row is the null marker (the synthetic records
    carry none of the four fields of the aggregate).  When the window
    holds no quarter end, [calculate_metrics] raises [KeyError] on the
    dataset. *)
Theorem fallback_data_make_a_table (start_date end_date : string) (sd ed : date)
    (w : world) :
  parse_yyyymmdd start_date = Some sd ->
  parse_yyyymmdd end_date = Some ed ->
  exists inst fin w',
    _generate_fallback_data start_date end_date w = (Ok (dataset inst fin), w') /\
    (Calendar.date_range sd ed = [] -> calculate_metrics fin = Raise KeyError) /\
    (Calendar.date_range sd ed <> [] ->
       exists table,
         calculate_metrics fin = Ok table /\
         List.length table = (9 * List.length (Calendar.date_range sd ed))%nat /\
         ascending date_ltb table /\
         no_growth table).
Proof.
  intros Hs He.
  destruct (generate_fallback_data_synthetic start_date end_date sd ed w Hs He)
    as (inst & fin & w' & Hrun & _ & Hk & Hsyn).
  exists inst, fin, w'. split; [exact Hrun|].
  exact (synthetic_table _ _ _ _ _ Hs He Hk Hsyn).
Qed.

Lemma fallback_data_make_a_table_witness :
  exists inst fin w',
    _generate_fallback_data "20200101" "20200630" silent_world
      = (Ok (dataset inst fin), w') /\
    (Calendar.date_range (mkdate 2020 1 1) (mkdate 2020 6 30) = [] ->
       calculate_metrics fin = Raise KeyError) /\
    (Calendar.date_range (mkdate 2020 1 1) (mkdate 2020 6 30) <> [] ->
       exists table,
         calculate_metrics fin = Ok table /\
         List.length table
         = (9 * List.length (Calendar.date_range (mkdate 2020 1 1) (mkdate 2020 6 30)))%nat /\
         ascending date_ltb table /\
         no_growth table).
Proof.
  apply (fallback_data_make_a_table "20200101" "20200630" (mkdate 2020 1 1)
           (mkdate 2020 6 30) silent_world); reflexivity.
Defined.

End Synthetic.

(** ** The service *)

Section Service.

Import FDICAPIClient BankDataRepository BankMetricsCalculator BankDataService.
Import Examples Shapes.

Lemma bank_rows_contract bank_name sorted_financials :
  (forall r, In r sorted_financials ->
     convertible r = true /\ exists dte, record_date r = Some dte) ->
  forall todo i, skipn i sorted_financials = todo ->
  exists rows,
    bank_rows bank_name sorted_financials i todo = Ok rows /\
    Forall (row_shaped [bank_name]) rows.
Proof.
  intros Hs. induction todo as [| r todo IH]; intros i Hskip.
  - exists []. split; [reflexivity | constructor].
  - destruct (skipn_cons _ _ _ _ Hskip) as [Hnth Hrest].
    destruct (Hs r (nth_error_In _ _ Hnth)) as [Hc (dte & Hd)].
    destruct (record_date_inv _ _ Hd) as (d & s & -> & Hraw & Hparse & _).
    assert (base_usable sorted_financials i = true) as Hbase.
    { unfold base_usable. destruct (12 <=? i)%nat eqn:Hi; [|reflexivity].
      apply Nat.leb_le in Hi.
      assert (i < List.length sorted_financials)%nat as Hlt
        by (apply nth_error_Some; rewrite Hnth; discriminate).
      destruct (nth_error sorted_financials (i - 12)) as [old|] eqn:Hold.
      - apply (Hs old (nth_error_In _ _ Hold)).
      - apply nth_error_None in Hold. lia. }
    destruct (metrics_row_contract bank_name d s dte sorted_financials i Hc Hraw Hparse Hbase)
      as (row & _ & _ & Hrow & _ & _ & Hkeys & HBank & _).
    destruct (IH (S i) Hrest) as (rows & Hrows & Hall).
    exists (row :: rows). cbn [bank_rows]. rewrite Hrow. cbn [bind]. rewrite Hrows.
    split; [reflexivity|]. constructor; [|exact Hall].
    split; [exact Hkeys|]. exists bank_name. split; [left; reflexivity | exact HBank].
Qed.

Lemma row_shaped_more banks banks' row :
  (forall b, In b banks -> In b banks') -> row_shaped banks row -> row_shaped banks' row.
Proof.
  intros Hsub (Hk & b & Hb & Hcell). split; [exact Hk|]. exists b. split; [auto | exact Hcell].
Qed.

Lemma all_metrics_contract financials_data :
  forallb (fun kv => usable (snd kv)) financials_data = true ->
  exists rows,
    all_metrics financials_data = Ok rows /\
    Forall (row_shaped (keys financials_data)) rows.
Proof.
  induction financials_data as [| [bank_name financials] banks IH]; intros Hall.
  - exists []. split; [reflexivity | constructor].
  - cbn [forallb snd] in Hall. apply andb_true_iff in Hall as [Hu Hrest].
    destruct (IH Hrest) as (more & Hmore & Hshape).
    destruct financials as [| | | | | l |]; try discriminate.
    cbn [usable] in Hu. pose proof (usable_records l Hu) as Hl.
    destruct (sorted_by_REPDTE_perm l) as (sorted_financials & Hsort & Hperm);
      [intros r Hin; apply (Hl r Hin)|].
    assert (forall r, In r sorted_financials ->
              convertible r = true /\ exists dte, record_date r = Some dte) as Hs.
    { intros r Hin. apply Hl. apply (Permutation_in _ Hperm Hin). }
    destruct (bank_rows_contract bank_name sorted_financials Hs sorted_financials 0 eq_refl)
      as (rows & Hrows & Hr).
    exists (rows ++ more)%list.
    cbn [all_metrics]. rewrite Hsort. cbn [bind]. rewrite Hrows. cbn [bind].
    rewrite Hmore. cbn [bind]. split; [reflexivity|].
    apply Forall_app. split.
    + apply (Forall_impl (row_shaped (keys ((bank_name, PList l) :: banks)))) with (2 := Hr).
      intros row. apply row_shaped_more. intros b [<- | []]. left. reflexivity.
    + apply (Forall_impl (row_shaped (keys ((bank_name, PList l) :: banks)))) with (2 := Hshape).
      intros row. apply row_shaped_more. intros b Hb. right. exact Hb.
Qed.

(** Every bank with a record has a row. *)
Lemma all_metrics_covers financials_data :
  forallb (fun kv => usable (snd kv)) financials_data = true ->
  exists rows,
    all_metrics financials_data = Ok rows /\
    forall k v, In (k, v) financials_data -> (0 < record_count v)%nat ->
      exists row, In row rows /\ dict_get (PStr "Bank") row = Some k.
Proof.
  induction financials_data as [| [bank_name financials] banks IH]; intros Hall.
  - exists []. split; [reflexivity | intros k v []].
  - cbn [forallb snd] in Hall. apply andb_true_iff in Hall as [Hu Hrest].
    destruct (IH Hrest) as (more & Hmore & Hcover).
    destruct financials as [| | | | | l |]; try discriminate.
    cbn [usable] in Hu. pose proof (usable_records l Hu) as Hl.
    destruct (sorted_by_REPDTE_perm l) as (sorted_financials & Hsort & Hperm);
      [intros r Hin; apply (Hl r Hin)|].
    assert (forall r, In r sorted_financials ->
              convertible r = true /\ exists dte, record_date r = Some dte) as Hs.
    { intros r Hin. apply Hl. apply (Permutation_in _ Hperm Hin). }
    destruct (bank_rows_contract bank_name sorted_financials Hs sorted_financials 0 eq_refl)
      as (rows & Hrows & Hr).
    destruct (bank_rows_spec bank_name sorted_financials Hs sorted_financials 0 eq_refl)
      as (rows' & Hrows' & Hdates & _).
    rewrite Hrows in Hrows'. inversion Hrows'. subst rows'.
    pose proof (Forall2_length Hdates) as Hlen.
    exists (rows ++ more)%list.
    cbn [all_metrics]. rewrite Hsort. cbn [bind]. rewrite Hrows. cbn [bind].
    rewrite Hmore. cbn [bind]. split; [reflexivity|].
    intros k v [Heq | Hin] Hpos.
    + inversion Heq. subst k v. cbn [record_count] in Hpos.
      rewrite <- (Permutation_length Hperm), Hlen in Hpos.
      destruct rows as [| row rows0]; [cbn in Hpos; lia|].
      exists row. split; [left; reflexivity|].
      inversion Hr as [| r0 rs0 (_ & b & [<- | []] & Hb) _]. exact Hb.
    + destruct (Hcover k v Hin Hpos) as (row & Hrow & Hb).
      exists row. split; [apply in_or_app; right; exact Hrow | exact Hb].
Qed.

Lemma in_combine_dated {A B} (f : A -> B) (records : list A) : forall (rows : list dict) row,
  List.length records = List.length rows -> In row rows ->
  exists d, In (d, row) (combine (map f records) rows).
Proof.
  induction records as [| r records IH]; intros [| x rows] row Hlen Hin;
    try discriminate; [destruct Hin|].
  cbn [map combine]. destruct Hin as [<- | Hin].
  - exists (f r). left. reflexivity.
  - cbn [List.length] in Hlen. apply Nat.succ_inj in Hlen.
    destruct (IH rows row Hlen Hin) as (d & Hd). exists d. right. exact Hd.
Qed.

Lemma count_app {A} (f : A -> bool) (l l' : list A) :
  List.length (filter f (l ++ l')) = (List.length (filter f l) + List.length (filter f l'))%nat.
Proof. rewrite filter_app, length_app. reflexivity. Qed.

Lemma count_all {A} (f : A -> bool) (l : list A) :
  Forall (fun x => f x = true) l -> List.length (filter f l) = List.length l.
Proof.
  induction 1 as [| x l Hx Hl IH]; [reflexivity|].
  cbn [filter]. rewrite Hx. cbn [List.length]. rewrite IH. reflexivity.
Qed.

Lemma count_none {A} (f : A -> bool) (l : list A) :
  Forall (fun x => f x = false) l -> List.length (filter f l) = 0%nat.
Proof.
  induction 1 as [| x l Hx Hl IH]; [reflexivity|].
  cbn [filter]. rewrite Hx. exact IH.
Qed.

Lemma count_permutation {A} (f : A -> bool) (l l' : list A) :
  Permutation l l' -> List.length (filter f l) = List.length (filter f l').
Proof.
  induction 1 as [| x l l' Hp IH | x y l | l l' l'' H1 IH1 H2 IH2].
  - reflexivity.
  - cbn [filter]. destruct (f x); cbn [List.length]; rewrite IH; reflexivity.
  - cbn [filter]. destruct (f x), (f y); reflexivity.
  - rewrite IH1. exact IH2.
Qed.

Lemma count_combine {A} (f : dict -> bool) (dates : list A) : forall rows : list dict,
  List.length dates = List.length rows ->
  List.length (filter (fun row => f (snd row)) (combine dates rows))
  = List.length (filter f rows).
Proof.
  induction dates as [| d dates IH]; intros [| row rows] Hlen; try discriminate;
    [reflexivity|].
  cbn [combine filter snd]. cbn [List.length] in Hlen. apply Nat.succ_inj in Hlen.
  destruct (f row); cbn [List.length]; rewrite (IH rows Hlen); reflexivity.
Qed.

(** The rows of [all_metrics] that carry a bank's name are as many as
    the records under that name. *)
Lemma all_metrics_per_bank financials_data k :
  forallb (fun kv => usable (snd kv)) financials_data = true ->
  exists rows,
    all_metrics financials_data = Ok rows /\
    List.length (filter (of_bank k) rows) = records_under k financials_data.
Proof.
  induction financials_data as [| [bank_name financials] banks IH]; intros Hall.
  - exists []. split; reflexivity.
  - cbn [forallb snd] in Hall. apply andb_true_iff in Hall as [Hu Hrest].
    destruct (IH Hrest) as (more & Hmore & Hcount).
    destruct financials as [| | | | | l |]; try discriminate.
    cbn [usable] in Hu. pose proof (usable_records l Hu) as Hl.
    destruct (sorted_by_REPDTE_perm l) as (sorted_financials & Hsort & Hperm);
      [intros r Hin; apply (Hl r Hin)|].
    assert (forall r, In r sorted_financials ->
              convertible r = true /\ exists dte, record_date r = Some dte) as Hs.
    { intros r Hin. apply Hl. apply (Permutation_in _ Hperm Hin). }
    destruct (bank_rows_contract bank_name sorted_financials Hs sorted_financials 0 eq_refl)
      as (rows & Hrows & Hr).
    destruct (bank_rows_spec bank_name sorted_financials Hs sorted_financials 0 eq_refl)
      as (rows' & Hrows' & Hdates & _).
    rewrite Hrows in Hrows'. inversion Hrows'. subst rows'.
    pose proof (Forall2_length Hdates) as Hlen.
    exists (rows ++ more)%list.
    cbn [all_metrics]. rewrite Hsort. cbn [bind]. rewrite Hrows. cbn [bind].
    rewrite Hmore. cbn [bind]. split; [reflexivity|].
    rewrite count_app, Hcount. unfold records_under.
    change (list_sum (map ?f ((bank_name, PList l) :: banks)))
      with ((if key_eqb bank_name k then List.length l else 0) + list_sum (map f banks))%nat.
    f_equal.
    assert (Forall (fun row => of_bank k row = key_eqb bank_name k) rows) as Hbank.
    { apply (Forall_impl _ (P := row_shaped [bank_name])); [|exact Hr].
      intros row (_ & b & [<- | []] & Hb). unfold of_bank. rewrite Hb. reflexivity. }
    destruct (key_eqb bank_name k).
    + rewrite (count_all _ _ Hbank). rewrite <- Hlen. apply (Permutation_length Hperm).
    + apply (count_none _ _ Hbank).
Qed.

Lemma records_under_distinct financials_data : forall k v,
  distinct_texts (keys financials_data) = true ->
  In (k, v) financials_data ->
  records_under k financials_data = record_count v.
Proof.
  induction financials_data as [| [k0 v0] fd IH]; intros k v Hd Hin; [destruct Hin|].
  cbn [keys map fst distinct_texts] in Hd.
  apply andb_true_iff in Hd as [Hd Hrest]. apply andb_true_iff in Hd as [Htext Hfresh].
  apply negb_true_iff in Hfresh.
  unfold records_under.
  change (list_sum (map ?f ((k0, v0) :: fd)))
    with ((if key_eqb k0 k then record_count v0 else 0) + list_sum (map f fd))%nat.
  fold (records_under k fd).
  destruct Hin as [Heq | Hin].
  - inversion Heq. subst k0 v0. destruct k; try discriminate.
    rewrite key_eqb_str, String.eqb_refl.
    assert (records_under (PStr s) fd = 0%nat) as ->; [|lia].
    unfold records_under. clear IH Hrest Heq Htext.
    induction fd as [| [k1 v1] fd IHfd]; [reflexivity|].
    cbn [keys map fst existsb] in Hfresh. apply orb_false_iff in Hfresh as [H1 H2].
    change (list_sum (map ?f ((k1, v1) :: fd)))
      with ((if key_eqb k1 (PStr s) then record_count v1 else 0) + list_sum (map f fd))%nat.
    rewrite key_eqb_sym, H1. apply IHfd. exact H2.
  - assert (key_eqb k0 k = false) as ->.
    { destruct (key_eqb k0 k) eqn:E; [|reflexivity].
      assert (existsb (key_eqb k0) (keys fd) = true) as Hex.
      { apply existsb_exists. exists k. split; [|exact E].
        unfold keys. apply in_map_iff. exists (k, v). split; [reflexivity | exact Hin]. }
      unfold keys in Hex. rewrite Hex in Hfresh. discriminate. }
    rewrite (IH k v Hrest Hin). reflexivity.
Qed.

Lemma labels_step cols ks :
  (cols = row_columns CAPITAL_RATIOS \/ cols = row_columns CAPITAL_RATIOS_ABOVE) ->
  (ks = row_columns CAPITAL_RATIOS \/ ks = row_columns CAPITAL_RATIOS_ABOVE) ->
  fold_left add_label ks cols = cols.
Proof. intros [-> | ->] [-> | ->]; vm_compute; reflexivity. Qed.

Lemma labels_first ks :
  (ks = row_columns CAPITAL_RATIOS \/ ks = row_columns CAPITAL_RATIOS_ABOVE) ->
  fold_left add_label ks [] = ks.
Proof. intros [-> | ->]; vm_compute; reflexivity. Qed.

(** The columns of a frame of rows of the calculator are those of its
    first row. *)
Lemma labels_shaped banks row rows :
  Forall (row_shaped banks) (row :: rows) ->
  labels (row :: rows) = row_columns CAPITAL_RATIOS \/
  labels (row :: rows) = row_columns CAPITAL_RATIOS_ABOVE.
Proof.
  intros Hall. inversion Hall as [| r rs (Hrow & _) Hrest]; subst.
  unfold labels. cbn [fold_left]. rewrite (labels_first _ Hrow).
  clear Hall. revert Hrest. generalize (keys row) Hrow. clear Hrow.
  induction rows as [| r rows IH]; intros cols Hcols Hrest; cbn [fold_left];
    [exact Hcols|].
  inversion Hrest as [| r0 rs0 (Hr & _) Hrest']; subst.
  rewrite (labels_step _ _ Hcols Hr). apply IH; assumption.
Qed.

(** The rows of the frame keep the keys and the cell [Bank] of the
    dicts. *)
Lemma DataFrame_shaped banks (rows : list dict) :
  Forall (row_shaped banks) rows -> Forall (row_shaped banks) (DataFrame rows).
Proof.
  intros Hshape. apply Forall_forall. intros row' Hin.
  apply In_nth_error in Hin as (i & Hi).
  destruct (Forall2_nth_error_r _ _ _ (DataFrame_Bank rows) i row' Hi)
    as (row & Hrow & Hkeys & HBank).
  rewrite Forall_forall in Hshape.
  destruct (Hshape row (nth_error_In _ _ Hrow)) as (Hk & bank_name & Hb & Hcell).
  split; [rewrite Hkeys; exact Hk|].
  exists bank_name. split; [exact Hb | rewrite HBank; exact Hcell].
Qed.

Lemma DataFrame_covers (rows : list dict) k :
  (exists row, In row rows /\ dict_get (PStr "Bank") row = Some k) ->
  exists row, In row (DataFrame rows) /\ dict_get (PStr "Bank") row = Some k.
Proof.
  intros (row & Hin & Hcell). apply In_nth_error in Hin as (i & Hi).
  destruct (Forall2_nth_error_l _ _ _ (DataFrame_Bank rows) i row Hi)
    as (row' & Hrow' & _ & HBank).
  exists row'. split; [apply (nth_error_In _ _ Hrow') | rewrite HBank; exact Hcell].
Qed.

Lemma count_Forall2 {A} (f : A -> bool) (l l' : list A) :
  Forall2 (fun x y => f y = f x) l l' ->
  List.length (filter f l') = List.length (filter f l).
Proof.
  induction 1 as [| x y l l' Hxy _ IH]; [reflexivity|].
  cbn [filter]. rewrite Hxy. destruct (f x); cbn [List.length]; rewrite IH; reflexivity.
Qed.

Lemma DataFrame_count k (rows : list dict) :
  List.length (filter (of_bank k) (DataFrame rows))
  = List.length (filter (of_bank k) rows).
Proof.
  apply count_Forall2. eapply Forall2_impl; [|apply DataFrame_Bank].
  intros row row' [_ HBank]. unfold of_bank. rewrite HBank. reflexivity.
Qed.

Lemma arranged_columns cols :
  (cols = row_columns CAPITAL_RATIOS \/ cols = row_columns CAPITAL_RATIOS_ABOVE) ->
  existsb (key_eqb (PStr "Bank")) cols = true /\
  filter (fun col => existsb (key_eqb col) cols) (map PStr metric_order)
  = map PStr metric_order /\
  filter (fun col => negb (existsb (key_eqb col) (map PStr metric_order))) cols = [].
Proof. intros [-> | ->]; repeat split; vm_compute; reflexivity. Qed.

Lemma get_metrics_data_unfold start_date end_date w w' inst fin :
  fetch_data BANK_INFO start_date end_date w = (Ok (dataset inst fin), w') ->
  inst <> [] ->
  get_metrics_data start_date end_date w
  = match calculate_metrics fin with
    | Ok table =>
        let df_columns :=
          match all_metrics fin with
          | Ok rows => labels rows
          | Raise _ => []
          end in
        if existsb (key_eqb (PStr "Bank")) df_columns then
          let available_columns :=
            filter (fun col => existsb (key_eqb col) df_columns) (map PStr metric_order) in
          let extra_columns :=
            filter (fun col => negb (existsb (key_eqb col) available_columns)) df_columns in
          (Ok (mkframe (available_columns ++ extra_columns)
                 (map (selected (available_columns ++ extra_columns))
                      (map renamed table))), w')
        else (Raise KeyError, w')
    | Raise e => (Raise e, w')
    end.
Proof.
  intros Hfetch Hinst.
  unfold get_metrics_data. unfold mbind at 1. rewrite Hfetch.
  unfold dataset at 1. unfold mbind at 1, lift at 1.
  cbn [py_getitem dict_get]. rewrite !key_eqb_str. cbn [String.eqb Ascii.eqb Bool.eqb].
  destruct inst as [| i0 inst]; [contradiction|]. cbn [truthy negb].
  unfold dataset. unfold mbind at 1, lift at 1.
  cbn [py_getitem dict_get]. rewrite !key_eqb_str. cbn [String.eqb Ascii.eqb Bool.eqb].
  unfold mbind, lift.
  destruct (calculate_metrics fin) as [table | e]; [|reflexivity].
  cbv zeta.
  destruct (existsb (key_eqb (PStr "Bank"))
              match all_metrics fin with Ok rows => labels rows | Raise _ => [] end);
    reflexivity.
Qed.

(** What [get_metrics_data] makes of a dataset that the fetch returns. *)
Lemma get_metrics_data_of_dataset start_date end_date w w' inst fin :
  fetch_data BANK_INFO start_date end_date w = (Ok (dataset inst fin), w') ->
  inst <> [] ->
  forallb (fun kv => usable (snd kv)) fin = true ->
  match calculate_metrics fin with
  | Ok table =>
      exists rows,
        all_metrics fin = Ok rows /\ Forall (row_shaped (keys fin)) rows /\
        get_metrics_data start_date end_date w
        = (Ok (mkframe (map PStr metric_order)
                 (map (selected (map PStr metric_order)) (map renamed table))), w')
  | Raise e => get_metrics_data start_date end_date w = (Raise e, w')
  end.
Proof.
  intros Hfetch Hinst Husable.
  destruct (all_metrics_contract fin Husable) as (rows & Hrows & Hshape).
  rewrite (get_metrics_data_unfold _ _ _ _ _ _ Hfetch Hinst).
  destruct (calculate_metrics fin) as [table | e] eqn:Hcalc; [|reflexivity].
  exists rows. split; [exact Hrows|]. split; [exact Hshape|].
  rewrite Hrows. cbv zeta.
  destruct rows as [| row rows].
  { unfold calculate_metrics in Hcalc. rewrite Hrows in Hcalc. discriminate. }
  destruct (arranged_columns _ (labels_shaped _ _ _ Hshape)) as (HBank & Hav & Hex).
  rewrite HBank, Hav, Hex. rewrite app_nil_r. reflexivity.
Qed.

Lemma bank_column_arranged cols table :
  bank_column (mkframe cols (map (selected (map PStr metric_order)) (map renamed table)))
  = map (fun row => display_name (cell (snd row) (PStr "Bank"))) table.
Proof.
  unfold bank_column. cbn [rows]. rewrite !map_map. apply map_ext. intros [d row].
  unfold selected, renamed. cbn [fst snd].
  change (map PStr metric_order) with (PStr "Bank" :: map PStr (tl metric_order)).
  cbn [map]. unfold cell at 1. cbn [dict_get]. rewrite key_eqb_str.
  change (String.eqb "Bank" "Bank") with true. cbv iota.
  unfold cell at 1. rewrite dict_get_put_str. reflexivity.
Qed.

Lemma ascending_map {K A B} (ltb : K -> K -> bool) (g : K * A -> K * B) (l : list (K * A)) :
  (forall x, fst (g x) = fst x) -> ascending ltb l -> ascending ltb (map g l).
Proof.
  intros Hg. induction l as [| x l IH]; [auto|].
  destruct l as [| y l']; [intros _; exact I|].
  intros [Hxy Hrest]. specialize (IH Hrest). cbn [map] in *.
  split; [rewrite !Hg; exact Hxy | exact IH].
Qed.

Lemma sorted_rows_shaped banks records (rows : list dict) b :
  Forall (row_shaped banks) rows ->
  In b (map (fun row : frame_row => display_name (cell (snd row) (PStr "Bank")))
          (sort_by date_ltb (combine (map date_of records) rows))) ->
  exists k, In k banks /\ b = display_name k.
Proof.
  intros Hshape Hin. apply in_map_iff in Hin as ([d row] & <- & Hin).
  apply (Permutation_in _ (sort_by_perm date_ltb _)) in Hin.
  apply in_combine_r in Hin. rewrite Forall_forall in Hshape.
  destruct (Hshape row Hin) as (_ & k & Hk & Hcell).
  exists k. split; [exact Hk|]. cbn [snd]. unfold cell. rewrite Hcell. reflexivity.
Qed.

(** The frame of a dataset of usable records that the fetch returns. *)
Lemma get_metrics_data_table start_date end_date w w' inst fin :
  fetch_data BANK_INFO start_date end_date w = (Ok (dataset inst fin), w') ->
  inst <> [] ->
  forallb (fun kv => usable (snd kv)) fin = true ->
  (0 < total_records fin)%nat ->
  exists f,
    get_metrics_data start_date end_date w = (Ok f, w') /\
    columns f = map PStr metric_order /\
    List.length (rows f) = total_records fin /\
    ascending date_ltb (rows f) /\
    (forall b, In b (bank_column f) -> exists k, In k (keys fin) /\ b = display_name k) /\
    (forall k v, In (k, v) fin -> (0 < record_count v)%nat ->
       In (display_name k) (bank_column f)).
Proof.
  intros Hfetch Hinst Husable Hpos.
  pose proof (get_metrics_data_of_dataset _ _ _ _ _ _ Hfetch Hinst Husable) as Hrun.
  destruct (calculate_metrics_table fin Husable Hpos)
    as (records & rows0 & Hrows & Hdates & Hdated & Hlen & Hcalc).
  rewrite Hcalc in Hrun. destruct Hrun as (rows1 & Hrows1 & Hshape & Hrun).
  rewrite Hrows in Hrows1. inversion Hrows1. subst rows1.
  destruct (all_metrics_covers fin Husable) as (rows2 & Hrows2 & Hcover).
  rewrite Hrows in Hrows2. inversion Hrows2. subst rows2.
  pose proof (Forall2_length Hdates) as Hl.
  rewrite <- (DataFrame_length rows0) in Hl.
  eexists. split; [exact Hrun|]. split; [reflexivity|]. split; [|split; [|split]].
  - cbn [rows]. rewrite !length_map. unfold frame_row.
    rewrite (sorted_table_length records _ Hl). lia.
  - cbn [rows]. rewrite map_map. apply ascending_map; [reflexivity|].
    apply (sort_by_sorted date_ltb date_ord). reflexivity.
  - intros b Hb. rewrite bank_column_arranged in Hb.
    exact (sorted_rows_shaped _ _ _ _ (DataFrame_shaped _ _ Hshape) Hb).
  - intros k v Hin Hcount. rewrite bank_column_arranged.
    destruct (DataFrame_covers rows0 k (Hcover k v Hin Hcount)) as (row & Hrow & Hb).
    destruct (in_combine_dated date_of records _ row Hl Hrow) as (d & Hd).
    apply in_map_iff. exists (d, row). split.
    + cbn [snd]. unfold cell. rewrite Hb. reflexivity.
    + apply (Permutation_in _ (Permutation_sym (sort_by_perm date_ltb _))). exact Hd.
Qed.

(** X22.  No row goes to another bank.  For a dataset of usable records
    whose keys are distinct texts, with at least one record in all, the
    table of [calculate_metrics] has, for every bank of the dataset, as
    many rows with the bank's name in the cell [Bank] as the bank has
    records. *)
Theorem rows_per_bank financials_data :
  forallb (fun kv => usable (snd kv)) financials_data = true ->
  distinct_texts (keys financials_data) = true ->
  (0 < total_records financials_data)%nat ->
  exists table,
    calculate_metrics financials_data = Ok table /\
    forall k v, In (k, v) financials_data -> rows_of_bank k table = record_count v.
Proof.
  intros Husable Hdistinct Hpos.
  destruct (calculate_metrics_table financials_data Husable Hpos)
    as (records & rows0 & Hrows & Hdates & Hdated & Hlen & Hcalc).
  pose proof (Forall2_length Hdates) as Hl.
  eexists. split; [exact Hcalc|]. intros k v Hin.
  destruct (all_metrics_per_bank financials_data k Husable) as (rows1 & Hrows1 & Hcount).
  rewrite Hrows in Hrows1. inversion Hrows1. subst rows1.
  unfold rows_of_bank.
  rewrite (count_permutation _ _ _ (sort_by_perm date_ltb _)).
  rewrite (count_combine (of_bank k))
    by (rewrite length_map, DataFrame_length; exact Hl).
  rewrite DataFrame_count, Hcount. apply records_under_distinct; assumption.
Qed.

Lemma rows_per_bank_witness :
  exists table,
    calculate_metrics three_banks = Ok table /\
    forall k v, In (k, v) three_banks -> rows_of_bank k table = record_count v.
Proof.
  apply (rows_per_bank three_banks); [vm_compute; reflexivity | reflexivity | vm_compute; lia].
Defined.

(** X11.  When the cache holds a dataset with at least one institution
    whose financial records all have a report date and base fields in the
    range of [float], [get_metrics_data] returns, without a request, a
    frame with exactly the sixty columns of [metric_order], in that
    order, with one row for each record, ordered by date, whose column
    [Bank] holds the display name of the bank ([BANK_NAME_MAPPING], the
    name itself for a bank that is not in it). *)
Theorem cached_dataset_gives_frame (start_date end_date : string) (inst fin : dict)
    (w : world) :
  files w (get_cache_path start_date end_date) = Json (dataset inst fin) ->
  inst <> [] ->
  forallb (fun kv => usable (snd kv)) fin = true ->
  (0 < total_records fin)%nat ->
  exists f,
    get_metrics_data start_date end_date w = (Ok f, w) /\
    columns f = map PStr metric_order /\
    List.length (columns f) = 60%nat /\
    List.length (rows f) = total_records fin /\
    ascending date_ltb (rows f) /\
    (forall b, In b (bank_column f) -> exists k, In k (keys fin) /\ b = display_name k) /\
    (forall k v, In (k, v) fin -> (0 < record_count v)%nat ->
       In (display_name k) (bank_column f)).
Proof.
  intros Hfile Hinst Husable Hpos.
  assert (fetch_data BANK_INFO start_date end_date w = (Ok (dataset inst fin), w)) as Hfetch
    by (apply fetch_data_hit; [exact Hfile | reflexivity]).
  destruct (get_metrics_data_table _ _ _ _ _ _ Hfetch Hinst Husable Hpos)
    as (f & Hrun & Hcols & Hlen & Hasc & Hbank & Hcover).
  exists f. split; [exact Hrun|]. split; [exact Hcols|].
  split; [rewrite Hcols; reflexivity|]. repeat (split; [assumption|]). exact Hcover.
Qed.

Lemma cached_dataset_gives_frame_witness :
  exists f,
    get_metrics_data "20200101" "20200630" (half_year_cache one_bank_dataset)
    = (Ok f, half_year_cache one_bank_dataset) /\
    columns f = map PStr metric_order /\
    List.length (columns f) = 60%nat /\
    List.length (rows f) = 13%nat /\
    ascending date_ltb (rows f) /\
    (forall b, In b (bank_column f) ->
       exists k, In k [PStr "Truist Bank"] /\ b = display_name k) /\
    (forall k v, In (k, v) [(PStr "Truist Bank", PList (rev (cre_records "2000" "3000")))] ->
       (0 < record_count v)%nat -> In (display_name k) (bank_column f)).
Proof.
  apply (cached_dataset_gives_frame "20200101" "20200630"
           [(PStr "Truist Bank",
             PDict [(PStr "NAME", PStr "Truist Bank"); (PStr "CERT", PInt 9846)])]
           [(PStr "Truist Bank", PList (rev (cre_records "2000" "3000")))]
           (half_year_cache one_bank_dataset)).
  - reflexivity.
  - discriminate.
  - vm_compute. reflexivity.
  - vm_compute. lia.
Defined.

Lemma display_names_of_banks k : In k BANK_NAMES -> In (display_name k) DISPLAY_NAMES.
Proof.
  intros Hin. cbn [BANK_NAMES In] in Hin.
  repeat (destruct Hin as [<- | Hin]; [vm_compute; tauto |]).
  contradiction.
Qed.

Lemma banks_of_display_names b :
  In b DISPLAY_NAMES -> exists k, In k BANK_NAMES /\ b = display_name k.
Proof.
  assert (Forall2 (fun k b => b = display_name k) BANK_NAMES DISPLAY_NAMES) as H
    by (repeat constructor).
  intros Hin. destruct (Forall2_In_r _ _ _ H b Hin) as (k & Hk & Hb).
  exists k. split; assumption.
Qed.

(** The fetch of the service when the API is down. *)
Lemma service_fetch_down start_date end_date sd ed w :
  cache_miss start_date end_date w = true ->
  parse_yyyymmdd start_date = Some sd ->
  parse_yyyymmdd end_date = Some ed ->
  api_down w ->
  exists inst fin w',
    fetch_data BANK_INFO start_date end_date w = (Ok (dataset inst fin), w') /\
    keys inst = BANK_NAMES /\ keys fin = BANK_NAMES /\
    Forall (fun kv => synthetic sd ed (snd kv)) fin /\
    calls w' = (calls w + 27)%nat.
Proof.
  intros Hmiss Hs He Hdown.
  destruct (fetch_data_down BANK_INFO start_date end_date w Hmiss Hdown)
    as (w1 & Hfetch & (Hc & _) & _).
  destruct (generate_fallback_data_synthetic start_date end_date sd ed w1 Hs He)
    as (inst & fin & w' & Hrun & Hki & Hkf & Hsyn).
  destruct (generate_fallback_data_offline start_date end_date w1) as [Hcalls _].
  rewrite Hrun in Hcalls. cbn [snd] in Hcalls.
  exists inst, fin, w'. rewrite Hfetch. split; [exact Hrun|].
  repeat (split; [assumption|]). rewrite Hcalls, Hc. reflexivity.
Qed.

(** X12.  With the API down and nothing usable in the cache, for a
    window of two calendar dates that holds a quarter end,
    [get_metrics_data] still returns a frame: after 27 requests (three
    passes over the nine banks) it has the sixty columns of
    [metric_order] and nine rows for each quarter end of the window,
    ordered by date, and its column [Bank] holds display names of
    [BANK_NAME_MAPPING] only. *)
Theorem api_down_gives_frame (start_date end_date : string) (sd ed : date) (w : world) :
  cache_miss start_date end_date w = true ->
  parse_yyyymmdd start_date = Some sd ->
  parse_yyyymmdd end_date = Some ed ->
  api_down w ->
  Calendar.date_range sd ed <> [] ->
  exists f w',
    get_metrics_data start_date end_date w = (Ok f, w') /\
    columns f = map PStr metric_order /\
    List.length (rows f) = (9 * List.length (Calendar.date_range sd ed))%nat /\
    ascending date_ltb (rows f) /\
    (forall b, In b (bank_column f) <-> In b DISPLAY_NAMES) /\
    calls w' = (calls w + 27)%nat.
Proof.
  intros Hmiss Hs He Hdown Hq.
  destruct (service_fetch_down _ _ _ _ _ Hmiss Hs He Hdown)
    as (inst & fin & w' & Hfetch & Hki & Hkf & Hsyn & Hcalls).
  destruct (synthetic_dataset _ _ _ _ _ Hs He Hkf Hsyn) as (Husable & Htotal & _).
  assert (inst <> []) as Hinst by (intros ->; discriminate).
  assert (0 < total_records fin)%nat as Hpos.
  { rewrite Htotal. destruct (Calendar.date_range sd ed); [contradiction | cbn; lia]. }
  destruct (get_metrics_data_table _ _ _ _ _ _ Hfetch Hinst Husable Hpos)
    as (f & Hrun & Hcols & Hlen & Hasc & Hbank & Hcover).
  exists f, w'. split; [exact Hrun|]. split; [exact Hcols|].
  split; [rewrite Hlen; exact Htotal|]. split; [exact Hasc|]. split; [|exact Hcalls].
  intros b. split.
  - intros Hb. destruct (Hbank b Hb) as (k & Hk & ->).
    apply display_names_of_banks. rewrite <- Hkf. exact Hk.
  - intros Hb. destruct (banks_of_display_names b Hb) as (k & Hk & ->).
    rewrite <- Hkf in Hk. unfold keys in Hk. apply in_map_iff in Hk as ([k' v] & Hfst & Hin).
    cbn [fst] in Hfst. subst k'. apply (Hcover k v Hin).
    rewrite Forall_forall in Hsyn.
    destruct (synthetic_usable _ _ _ _ _ Hs He (Hsyn _ Hin)) as (_ & Hcount & _).
    cbn [snd] in Hcount. rewrite Hcount.
    destruct (Calendar.date_range sd ed); [contradiction | cbn; lia].
Qed.

Lemma api_down_gives_frame_witness :
  exists f w',
    get_metrics_data "20200101" "20200630" silent_world = (Ok f, w') /\
    columns f = map PStr metric_order /\
    List.length (rows f)
    = (9 * List.length (Calendar.date_range (mkdate 2020 1 1) (mkdate 2020 6 30)))%nat /\
    ascending date_ltb (rows f) /\
    (forall b, In b (bank_column f) <-> In b DISPLAY_NAMES) /\
    calls w' = (calls silent_world + 27)%nat.
Proof.
  apply (api_down_gives_frame "20200101" "20200630" (mkdate 2020 1 1) (mkdate 2020 6 30)
           silent_world); try reflexivity.
  - intros n rq. reflexivity.
  - vm_compute. discriminate.
Defined.

(** X13.  For a window of two calendar dates that holds no quarter end,
    with the API down and nothing usable in the cache, [get_metrics_data]
    does not return an empty frame: the fallback dataset has the nine
    institutions, so the guard on [institutions_data] lets it pass, each
    bank has an empty list of records, and the [KeyError] of
    [calculate_metrics] leaves the function. *)
Theorem window_without_quarter_end_raises (start_date end_date : string) (sd ed : date)
    (w : world) :
  cache_miss start_date end_date w = true ->
  parse_yyyymmdd start_date = Some sd ->
  parse_yyyymmdd end_date = Some ed ->
  api_down w ->
  Calendar.date_range sd ed = [] ->
  exists w',
    get_metrics_data start_date end_date w = (Raise KeyError, w') /\
    calls w' = (calls w + 27)%nat.
Proof.
  intros Hmiss Hs He Hdown Hq.
  destruct (service_fetch_down _ _ _ _ _ Hmiss Hs He Hdown)
    as (inst & fin & w' & Hfetch & Hki & Hkf & Hsyn & Hcalls).
  destruct (synthetic_dataset _ _ _ _ _ Hs He Hkf Hsyn) as (Husable & _ & _).
  assert (inst <> []) as Hinst by (intros ->; discriminate).
  pose proof (get_metrics_data_of_dataset _ _ _ _ _ _ Hfetch Hinst Husable) as Hrun.
  destruct (synthetic_table _ _ _ _ _ Hs He Hkf Hsyn) as [Hnone _].
  rewrite (Hnone Hq) in Hrun. exists w'. split; [exact Hrun | exact Hcalls].
Qed.

Lemma window_without_quarter_end_raises_witness :
  exists w',
    get_metrics_data "20200101" "20200215" silent_world = (Raise KeyError, w') /\
    calls w' = (calls silent_world + 27)%nat.
Proof.
  apply (window_without_quarter_end_raises "20200101" "20200215" (mkdate 2020 1 1)
           (mkdate 2020 2 15) silent_world); try reflexivity.
  intros n rq. reflexivity.
Defined.

(** X14.  [get_metrics_data] does not validate what the cache holds.  A
    cached value that is true but is no dict makes it raise [TypeError];
    a cached dict without the key [institutions_data] makes it raise
    [KeyError]; in both cases no request is issued and nothing is
    written. *)
Theorem cached_value_is_not_validated (start_date end_date : string) (v : pyval)
    (w : world) :
  files w (get_cache_path start_date end_date) = Json v ->
  truthy v = true ->
  (not_a_dict v = true ->
     get_metrics_data start_date end_date w = (Raise TypeError, w))
  /\ (forall d, v = PDict d -> dict_get (PStr "institutions_data") d = None ->
       get_metrics_data start_date end_date w = (Raise KeyError, w)).
Proof.
  intros Hfile Htrue.
  assert (fetch_data BANK_INFO start_date end_date w = (Ok v, w)) as Hfetch
    by (apply fetch_data_hit; assumption).
  split.
  - intros Hnot. unfold get_metrics_data. unfold mbind at 1. rewrite Hfetch.
    unfold mbind at 1, lift at 1. destruct v; try discriminate; reflexivity.
  - intros d -> Hnone. unfold get_metrics_data. unfold mbind at 1. rewrite Hfetch.
    unfold mbind at 1, lift at 1. cbn [py_getitem]. rewrite Hnone. reflexivity.
Qed.

Lemma cached_value_is_not_validated_witness :
  get_metrics_data "20200101" "20200630" (half_year_cache (PList [PInt 1]))
  = (Raise TypeError, half_year_cache (PList [PInt 1])).
Proof.
  apply (cached_value_is_not_validated "20200101" "20200630" (PList [PInt 1])
           (half_year_cache (PList [PInt 1]))); reflexivity.
Defined.

End Service.
